(** * cloth_backend: order placement, cart and inventory handlers

    A shallow embedding of the request handlers of the store backend
    (controllers/ordersController, controllers/cartController,
    controllers/inventoryController, controllers/productsController) and of
    the Mongoose models they use (models/orders, models/cart,
    models/inventory).  The module [eventLoop] splits [createOrder] at its
    awaits, so that calls in flight can be interleaved with each other and
    with the other handlers.

    Conventions of the embedding:
    - a MongoDB collection is the list of its documents in insertion order;
    - an ObjectId is a natural number, drawn from one counter of the store;
    - a JavaScript Number (quantity, price, totalPrice) is an IEEE 754
      double, a primitive float: its [+], [-], [*] and [<] are those of
      JavaScript, rounding and NaN included;
    - a field of a request body where a number is expected holds what the
      client sent: null, a boolean, a number or a string ([Raw]); the
      conversions between strings and numbers that JavaScript and Mongoose
      apply to it are parameters ([Coercions]);
    - page numbers, limits, counts and times are integers of [Z];
    - the timestamps that Mongoose maintains are not represented;
    - a handler takes the parts of the request it reads and the store, and
      returns what it sends back together with the store after the call. *)

From Stdlib Require Import List ZArith String Bool Arith Lia.
From Stdlib Require Import Floats.
Import ListNotations.

Local Set Warnings "-inexact-float".

Local Open Scope string_scope.
Local Open Scope Z_scope.

(** ** Identities and requests *)

Definition ObjectId := nat.

(** The JWT payload carries [userId : user._id.toString()], so a user id is
    the id of a user document. *)
Definition UserId := ObjectId.

Bind Scope nat_scope with ObjectId UserId.

(** [req.user] as set by the authentication middleware: the decoded token.
    A field of the payload may be missing. *)
Record Claims := { claim_userId : option UserId; claim_role : string }.

(** A route parameter or body field that is meant to hold an id;
    [mongoose.Types.ObjectId.isValid] is true of [WellFormed] only. *)
Inductive RawId :=
| Malformed
| WellFormed (i : ObjectId).

(** ** Numbers *)

Definition Number := float.

Bind Scope float_scope with Number.

(** [isNaN(x)] *)
Definition isNaN (x : Number) : bool := negb (x =? x)%float.

(** The value of a field of a parsed JSON body where the handlers expect a
    number: what the client sent, which may be null, a boolean, a number
    or a string.  (Arrays and objects are not represented.)  A field that
    the body does not have is [None] in what follows. *)
Inductive Raw :=
| Null
| Boolean (b : bool)
| Num (x : Number)
| Str (text : string).

(** [v === null] *)
Definition isNull (v : Raw) : bool :=
  match v with
  | Null => true
  | _ => false
  end.

(** The conversions of JavaScript between strings and numbers:
    [ToNumber text] is [Number(text)], NaN when [text] is not a numeric
    literal, and [ToString x] is [String(x)]. *)
Record Coercions :=
  { ToNumber : string -> Number; ToString : Number -> string }.

(** [!v]: null, false, 0, NaN and the empty string are falsy. *)
Definition falsy (v : Raw) : bool :=
  match v with
  | Null => true
  | Boolean b => negb b
  | Num x => (x =? 0)%float || isNaN x
  | Str text => String.eqb text ""
  end.

(** The number that [v < n] compares with the number [n]: null is 0,
    true is 1 and false is 0, a string is converted. *)
Definition toNumber (js : Coercions) (v : Raw) : Number :=
  match v with
  | Null => 0
  | Boolean b => if b then 1 else 0
  | Num x => x
  | Str text => ToNumber js text
  end.

(** [n + v] for a number [n], as in [n += v]: the string of [n] followed
    by [v] when [v] is a string, and otherwise the sum of [n] and the
    number of [v]. *)
Definition plus (js : Coercions) (n : Number) (v : Raw) : Raw :=
  match v with
  | Null => Num (n + 0)%float
  | Boolean b => Num (n + (if b then 1 else 0))%float
  | Num x => Num (n + x)%float
  | Str text => Str (ToString js n ++ text)
  end.

(** What Mongoose makes of a value given to a path of type Number
    ([castNumber]): null and the empty string become null, a boolean and
    another string are converted with [Number], and NaN is refused. *)
Inductive Cast :=
| CastTo (x : Number)
| CastNull
| CastFails.

Definition castNumber (js : Coercions) (v : Raw) : Cast :=
  match v with
  | Null => CastNull
  | Boolean b => CastTo (if b then 1 else 0)
  | Num x => if isNaN x then CastFails else CastTo x
  | Str text =>
      if String.eqb text "" then CastNull
      else
        let x := ToNumber js text in
        if isNaN x then CastFails else CastTo x
  end.

(** ** What a handler sends back *)

Inductive Message :=
| Msg (text : string)
| InsufficientInventory (productName : string) (available requested : Number).

Inductive Exn :=
| ValidationError (path : string)
| CastError (path : string)
| DuplicateKey (path : string)
| ConflictingUpdate (path : string).

(** [Json c d] is [res.status(c).json({success: true, data: d})],
    [Fail c m] is [res.status(c).json({success: false, error: {message: m}})]
    and [Next e] is [next(e)] from the handler's catch block. *)
Inductive Outcome (A : Type) :=
| Json (status : nat) (data : A)
| Fail (status : nat) (m : Message)
| Next (e : Exn).

Arguments Json {A} status data.
Arguments Fail {A} status m.
Arguments Next {A} e.

Definition authentication_required : Message := Msg "Authentication required".
Definition access_denied : Message :=
  Msg "Access denied. Admin privileges required.".

(** [!req.user || !req.user.userId] *)
Definition authenticated (user : option Claims) : option UserId :=
  match user with
  | Some c => claim_userId c
  | None => None
  end.

(** [!req.user || req.user.role !== 'admin'], negated *)
Definition isAdmin (user : option Claims) : bool :=
  match user with
  | Some c => String.eqb (claim_role c) "admin"
  | None => false
  end.

(** ** Documents *)

Module productSchema.
Record doc := { _id : ObjectId; name : string; price : Number; category : string }.

(** The fields a request body may set on a product. *)
Record fields :=
  { f_name : option string; f_price : option Number; f_category : option string }.

Definition apply (f : fields) (d : doc) : doc :=
  {| _id := _id d;
     name := match f_name f with Some n => n | None => name d end;
     price := match f_price f with Some p => p | None => price d end;
     category := match f_category f with Some c => c | None => category d end |}.
End productSchema.

Module inventorySchema.
Record doc := { _id : ObjectId; productId : ObjectId; quantity : Number }.

Definition set_quantity (q : Number) (d : doc) : doc :=
  {| _id := _id d; productId := productId d; quantity := q |}.

End inventorySchema.

Module cartSchema.
Record doc :=
  { _id : ObjectId; userId : UserId; productId : ObjectId; quantity : Number }.

Definition set_quantity (q : Number) (d : doc) : doc :=
  {| _id := _id d; userId := userId d; productId := productId d;
     quantity := q |}.
End cartSchema.

Module orderSchema.
Record doc :=
  { _id : ObjectId; userId : UserId; productId : ObjectId; quantity : Number;
    totalPrice : Number; status : string }.

Definition set_status (st : string) (d : doc) : doc :=
  {| _id := _id d; userId := userId d; productId := productId d;
     quantity := quantity d; totalPrice := totalPrice d; status := st |}.

(** The [enum] of the [status] path of [orderSchema]. *)
Definition statusEnum : list string :=
  ["pending"; "processing"; "shipped"; "delivered"; "cancelled"].
End orderSchema.

(** ** The store *)

Record Store :=
  { products : list productSchema.doc;
    inventories : list inventorySchema.doc;
    carts : list cartSchema.doc;
    orders : list orderSchema.doc;
    nextId : ObjectId }.

Definition with_products (l : list productSchema.doc) (s : Store) : Store :=
  {| products := l; inventories := inventories s; carts := carts s;
     orders := orders s; nextId := nextId s |}.

Definition with_inventories (l : list inventorySchema.doc) (s : Store) : Store :=
  {| products := products s; inventories := l; carts := carts s;
     orders := orders s; nextId := nextId s |}.

Definition with_carts (l : list cartSchema.doc) (s : Store) : Store :=
  {| products := products s; inventories := inventories s; carts := l;
     orders := orders s; nextId := nextId s |}.

Definition with_orders (l : list orderSchema.doc) (s : Store) : Store :=
  {| products := products s; inventories := inventories s; carts := carts s;
     orders := l; nextId := nextId s |}.

(** A new ObjectId: the counter's value, and the counter moves on. *)
Definition bump (s : Store) : Store :=
  {| products := products s; inventories := inventories s; carts := carts s;
     orders := orders s; nextId := S (nextId s) |}.

Definition includes (x : string) (l : list string) : bool :=
  existsb (String.eqb x) l.


(** ** The models: the queries and writes the handlers issue *)

Module Product.
Import productSchema.

(** [Product.findById(id)] *)
Definition findById (id : ObjectId) (s : Store) : option doc :=
  find (fun p => Nat.eqb (_id p) id) (products s).

(** [Product.findByIdAndDelete(id)] *)
Definition findByIdAndDelete (id : ObjectId) (s : Store) : option doc * Store :=
  match findById id s with
  | Some p =>
      (Some p, with_products (filter (fun x => negb (Nat.eqb (_id x) id)) (products s)) s)
  | None => (None, s)
  end.
End Product.

Module Inventory.
Import inventorySchema.

(** [Inventory.findOne({ productId })] *)
Definition findOne (pid : ObjectId) (s : Store) : option doc :=
  find (fun d => Nat.eqb (productId d) pid) (inventories s).

(** [Inventory.findById(id)] *)
Definition findById (id : ObjectId) (s : Store) : option doc :=
  find (fun d => Nat.eqb (_id d) id) (inventories s).

(** The validator of the [quantity] path, [min: 0]: the value passes when
    [value >= 0]. *)
Definition validate (q : Number) : option Exn :=
  if (0 <=? q)%float then None else Some (ValidationError "quantity").

(** [inventory.save()] on a loaded document whose [quantity] was assigned:
    the document is validated, then the stored document with its [_id]
    gets the new quantity. *)
Definition save (d : doc) (s : Store) : Exn + Store :=
  match validate (quantity d) with
  | Some e => inl e
  | None =>
      inr (with_inventories
             (map (fun x => if Nat.eqb (_id x) (_id d)
                            then set_quantity (quantity d) x else x)
                  (inventories s)) s)
  end.

(** Where a path of an update document stands: at the top level of the
    request body, or inside [$set]. *)
Inductive Place :=
| TopLevel
| InSet.

(** The update document of [findByIdAndUpdate], which is the request body
    as it came: the [productId] and [quantity] paths that it sets, each at
    the top level or inside [$set] (a path at both places is not
    represented), and for the update operators on [quantity] other than
    [$set] ([$inc], [$mul], [$min], [$max]) what they make of the stored
    quantity.  Paths that the schema does not have are dropped; [$unset]
    and the operators on [productId] other than [$set] are not
    represented. *)
Record Update :=
  { u_productId : option (Place * RawId);
    u_quantity : option Raw;
    u_operators : option (Number -> Number) }.

(** [{ $inc: { quantity: x } }] *)
Definition inc (x : Number) (q : Number) : Number := (q + x)%float.

Section WithCoercions.

Variable js : Coercions.

(** [createInventory(inventoryData)] of models/inventory: the cast of the
    quantity, validation ([quantity] is required, [min: 0]), the unique
    index on [productId], then the insertion.  (The function throws a new
    [Error] with the message of the error it caught.) *)
Definition createInventory (pid : ObjectId) (quantity : option Raw) (s : Store)
  : Exn + (doc * Store) :=
  match quantity with
  | None => inl (ValidationError "quantity")
  | Some v =>
      match castNumber js v with
      | CastFails | CastNull => inl (ValidationError "quantity")
      | CastTo q =>
          match validate q with
          | Some e => inl e
          | None =>
              match findOne pid s with
              | Some _ => inl (DuplicateKey "productId")
              | None =>
                  let d := {| _id := nextId s; productId := pid; quantity := q |} in
                  inr (d, bump (with_inventories (inventories s ++ [d]) s))
              end
          end
      end
  end.

(** The cast of an update document and the update validators, which
    [runValidators: true] applies to the paths that are set and to no
    other: the product and the quantity to set, if any. *)
Definition castUpdate (u : Update) : Exn + (option ObjectId * option Number) :=
  match u_productId u with
  | Some (_, Malformed) => inl (CastError "productId")
  | entry =>
      let pid := match entry with
                 | Some (_, WellFormed p) => Some p
                 | _ => None
                 end in
      match u_quantity u with
      | None => inr (pid, None)
      | Some v =>
          match castNumber js v with
          | CastFails => inl (CastError "quantity")
          | CastNull => inl (ValidationError "quantity")
          | CastTo q =>
              match validate q with
              | Some e => inl e
              | None => inr (pid, Some q)
              end
          end
      end
  end.

(** The document after the update. *)
Definition apply (pid : option ObjectId) (q : option Number)
  (operators : option (Number -> Number)) (d : doc) : doc :=
  {| _id := _id d;
     productId := match pid with Some p => p | None => productId d end;
     quantity := match q, operators with
                 | Some x, _ => x
                 | None, Some f => f (quantity d)
                 | None, None => quantity d
                 end |}.

(** Would giving [d] the product [pid] break the unique index? *)
Definition clashes (pid : ObjectId) (d : doc) (s : Store) : bool :=
  existsb (fun x => Nat.eqb (productId x) pid && negb (Nat.eqb (_id x) (_id d)))
          (inventories s).

(** [Inventory.findByIdAndUpdate(id, req.body, { new: true, runValidators: true })]:
    the update is cast and the paths it sets are validated; the server
    refuses an update that sets [quantity] and also applies an operator
    to it; then the first document with the id is rewritten. *)
Definition findByIdAndUpdate (id : ObjectId) (u : Update) (s : Store)
  : Exn + (option doc * Store) :=
  match castUpdate u with
  | inl e => inl e
  | inr (pid, q) =>
      match q, u_operators u with
      | Some _, Some _ => inl (ConflictingUpdate "quantity")
      | _, _ =>
          match findById id s with
          | None => inr (None, s)
          | Some d =>
              if match pid with Some p => clashes p d s | None => false end
              then inl (DuplicateKey "productId")
              else
                inr (Some (apply pid q (u_operators u) d),
                     with_inventories
                       (map (fun x => if Nat.eqb (_id x) id
                                      then apply pid q (u_operators u) x else x)
                            (inventories s)) s)
          end
      end
  end.

(** [Inventory.findOneAndUpdate({ productId }, { quantity },
    { new: true, runValidators: true, upsert: false })] *)
Definition findOneAndUpdate (pid : ObjectId) (quantity : Raw) (s : Store)
  : Exn + (option doc * Store) :=
  match castNumber js quantity with
  | CastFails => inl (CastError "quantity")
  | CastNull => inl (ValidationError "quantity")
  | CastTo q =>
      match validate q with
      | Some e => inl e
      | None =>
          match findOne pid s with
          | None => inr (None, s)
          | Some d =>
              inr (Some (set_quantity q d),
                   with_inventories
                     (map (fun x => if Nat.eqb (_id x) (_id d)
                                    then set_quantity q x else x)
                          (inventories s)) s)
          end
      end
  end.

End WithCoercions.

(** [.populate('productId', 'name price')] *)
Definition populate (s : Store) (d : doc) : doc * option productSchema.doc :=
  (d, Product.findById (productId d) s).
End Inventory.

Module Cart.
Import cartSchema.

Definition ofUser (u : UserId) (c : doc) : bool := Nat.eqb (userId c) u.

(** [Cart.find({ userId })] *)
Definition find (u : UserId) (s : Store) : list doc :=
  filter (ofUser u) (carts s).

(** [.populate('productId')]: the referenced product, or null. *)
Definition populate (s : Store) (c : doc) : doc * option productSchema.doc :=
  (c, Product.findById (productId c) s).

(** [Cart.findById(id)] *)
Definition findById (id : ObjectId) (s : Store) : option doc :=
  List.find (fun c => Nat.eqb (_id c) id) (carts s).

(** [Cart.findOne({ userId, productId })] *)
Definition findOne (u : UserId) (pid : ObjectId) (s : Store) : option doc :=
  List.find (fun c => Nat.eqb (userId c) u && Nat.eqb (productId c) pid) (carts s).

(** [Cart.findOne({ _id: itemId, userId })] *)
Definition findOneById (id : ObjectId) (u : UserId) (s : Store) : option doc :=
  List.find (fun c => Nat.eqb (_id c) id && Nat.eqb (userId c) u) (carts s).

(** The write of [cartItem.save()]: the stored document with the [_id]
    gets the quantity of [d]. *)
Definition save (d : doc) (s : Store) : Store :=
  with_carts
    (map (fun x => if Nat.eqb (_id x) (_id d)
                   then set_quantity (quantity d) x else x)
         (carts s)) s.

Section WithCoercions.

Variable js : Coercions.

(** [cartItem.quantity = v; await cartItem.save()]: the assignment casts
    [v]; [save] fails on a value that could not be cast and on null
    ([quantity] is required).  The schema has no other validator on that
    path ([min: 1] is commented out). *)
Definition assign (v : Raw) (d : doc) (s : Store) : Exn + Store :=
  match castNumber js v with
  | CastTo q => inr (save (set_quantity q d) s)
  | CastNull | CastFails => inl (ValidationError "quantity")
  end.

(** [createCart(cartData)] of models/cart. *)
Definition createCart (u : UserId) (pid : ObjectId) (quantity : Raw) (s : Store)
  : Exn + (doc * Store) :=
  match castNumber js quantity with
  | CastTo q =>
      let d := {| _id := nextId s; userId := u; productId := pid; quantity := q |} in
      inr (d, bump (with_carts (carts s ++ [d]) s))
  | CastNull | CastFails => inl (ValidationError "quantity")
  end.

End WithCoercions.

(** [Cart.findOneAndDelete({ _id: itemId, userId })] *)
Definition findOneAndDelete (id : ObjectId) (u : UserId) (s : Store)
  : option doc * Store :=
  match findOneById id u s with
  | Some c =>
      (Some c, with_carts (filter (fun x => negb (Nat.eqb (_id x) (_id c))) (carts s)) s)
  | None => (None, s)
  end.

(** [Cart.deleteMany({ userId })]: the [deletedCount] and the store. *)
Definition deleteMany (u : UserId) (s : Store) : nat * Store :=
  (List.length (find u s),
   with_carts (filter (fun c => negb (ofUser u c)) (carts s)) s).
End Cart.

Module Order.
Import orderSchema.

(** The validators of [orderSchema] that can fail on a document whose
    paths are all set: [quantity] has [min: 1], [totalPrice] has [min: 0],
    [status] has the enum.  A value passes [min: m] when [value >= m]. *)
Definition validate (q tp : Number) (st : string) : option Exn :=
  if negb (1 <=? q)%float then Some (ValidationError "quantity")
  else if negb (0 <=? tp)%float then Some (ValidationError "totalPrice")
  else if negb (includes st statusEnum) then Some (ValidationError "status")
  else None.

(** [createOrder(orderData)] of models/orders. *)
Definition createOrder (u : UserId) (pid : ObjectId) (q tp : Number) (st : string)
  (s : Store) : Exn + (doc * Store) :=
  match validate q tp st with
  | Some e => inl e
  | None =>
      let o := {| _id := nextId s; userId := u; productId := pid;
                  quantity := q; totalPrice := tp; status := st |} in
      inr (o, bump (with_orders (orders s ++ [o]) s))
  end.

(** [Order.findById(id)] *)
Definition findById (id : ObjectId) (s : Store) : option doc :=
  find (fun o => Nat.eqb (_id o) id) (orders s).

(** [.populate('productId', 'name price image category')] *)
Definition populate (s : Store) (o : doc) : doc * option productSchema.doc :=
  (o, Product.findById (productId o) s).

(** [Order.findByIdAndUpdate(id, { status }, { new: true, runValidators: true })] *)
Definition findByIdAndUpdate (id : ObjectId) (st : string) (s : Store)
  : Exn + (option doc * Store) :=
  if negb (includes st statusEnum) then inl (ValidationError "status")
  else
    match findById id s with
    | None => inr (None, s)
    | Some o =>
        inr (Some (set_status st o),
             with_orders
               (map (fun x => if Nat.eqb (_id x) id then set_status st x else x)
                    (orders s)) s)
    end.
End Order.


(** ** controllers/ordersController *)

Module ordersController.

(** An order as the handlers send it: the document with its [productId]
    path populated (null when the product is gone). *)
Definition PopulatedOrder : Type := orderSchema.doc * option productSchema.doc.

(** [Order.findById(order._id).populate('productId', ...)]: null when no
    order has the id. *)
Definition findPopulated (id : ObjectId) (s : Store) : option PopulatedOrder :=
  option_map (Order.populate s) (Order.findById id s).

Definition cart_is_empty : Message :=
  Msg "Cart is empty. Add items to cart before creating an order.".

(** The loop [for (const cartItem of cartItems)] of [createOrder] and the
    code that follows it; [createdOrders] is the array built so far. *)
Fixpoint forEachCartItem (userId : UserId)
  (cartItems : list (cartSchema.doc * option productSchema.doc))
  (createdOrders : list (option PopulatedOrder)) (s : Store)
  : Outcome (list (option PopulatedOrder)) * Store :=
  match cartItems with
  | [] =>
      (* Clear cart after order creation *)
      let (_, s') := Cart.deleteMany userId s in
      (Json 201 createdOrders, s')
  | (cartItem, None) :: rest =>
      (* Skip if product was deleted *)
      forEachCartItem userId rest createdOrders s
  | (cartItem, Some product) :: rest =>
      let requested := cartSchema.quantity cartItem in
      (* Check inventory *)
      match Inventory.findOne (productSchema._id product) s with
      | None =>
          (Fail 400 (InsufficientInventory (productSchema.name product) 0 requested), s)
      | Some inventory =>
          if (inventorySchema.quantity inventory <? requested)%float then
            (Fail 400 (InsufficientInventory (productSchema.name product)
                         (inventorySchema.quantity inventory) requested), s)
          else
            (* Calculate total price *)
            let totalPrice := (productSchema.price product * requested)%float in
            (* Create order *)
            match Order.createOrder userId (productSchema._id product) requested
                    totalPrice "pending" s with
            | inl e => (Next e, s)
            | inr (order, s1) =>
                (* Update inventory *)
                match Inventory.save
                        (inventorySchema.set_quantity
                           (inventorySchema.quantity inventory - requested)%float
                           inventory) s1 with
                | inl e => (Next e, s1)
                | inr s2 =>
                    forEachCartItem userId rest
                      (createdOrders ++ [findPopulated (orderSchema._id order) s2])%list s2
                end
            end
      end
  end.

(** [createOrder], POST /orders. *)
Definition createOrder (user : option Claims) (s : Store)
  : Outcome (list (option PopulatedOrder)) * Store :=
  match authenticated user with
  | None => (Fail 401 authentication_required, s)
  | Some userId =>
      (* Get user's cart items *)
      let cartItems := map (Cart.populate s) (Cart.find userId s) in
      match cartItems with
      | [] => (Fail 400 cart_is_empty, s)
      | _ :: _ => forEachCartItem userId cartItems [] s
      end
  end.

Definition validStatuses : list string :=
  ["pending"; "processing"; "shipped"; "delivered"; "cancelled"].

Definition invalid_status : Message :=
  Msg ("Invalid status. Must be one of: " ++ String.concat ", " validStatuses).

(** [!status || !validStatuses.includes(status)]: an absent or empty
    [status] is falsy. *)
Definition rejectedStatus (status : option string) : bool :=
  match status with
  | None => true
  | Some st => String.eqb st "" || negb (includes st validStatuses)
  end.

(** [updateOrderStatus], PATCH /orders/:id/status. *)
Definition updateOrderStatus (user : option Claims) (id : RawId)
  (status : option string) (s : Store) : Outcome PopulatedOrder * Store :=
  if negb (isAdmin user) then (Fail 403 access_denied, s)
  else
    match id with
    | Malformed => (Fail 400 (Msg "Invalid order ID"), s)
    | WellFormed i =>
        match status with
        | None => (Fail 400 invalid_status, s)
        | Some st =>
            if rejectedStatus status then (Fail 400 invalid_status, s)
            else
              match Order.findByIdAndUpdate i st s with
              | inl e => (Next e, s)
              | inr (None, s') => (Fail 404 (Msg "Order not found"), s')
              | inr (Some o, s') => (Json 200 (Order.populate s' o), s')
              end
        end
    end.

End ordersController.

(** ** controllers/cartController *)

Module cartController.

Definition PopulatedCartItem : Type := cartSchema.doc * option productSchema.doc.

(** [Cart.findById(id).populate('productId', ...)] *)
Definition findPopulated (id : ObjectId) (s : Store) : option PopulatedCartItem :=
  option_map (Cart.populate s) (Cart.findById id s).

Definition quantity_at_least_1 : Message := Msg "Quantity must be at least 1".

Section WithCoercions.

Variable js : Coercions.

(** [addToCart], POST /cart.  [productId] and [quantity] are the fields of
    the request body; [None] is a field that is absent (for [productId],
    also one that is null or empty). *)
Definition addToCart (user : option Claims) (productId : option RawId)
  (quantity : option Raw) (s : Store) : Outcome (option PopulatedCartItem) * Store :=
  match authenticated user with
  | None => (Fail 401 authentication_required, s)
  | Some userId =>
      match productId, quantity with
      | Some rawId, Some q =>
          (* !quantity *)
          if falsy q then (Fail 400 (Msg "Product ID and quantity are required"), s)
          else
            match rawId with
            | Malformed => (Fail 400 (Msg "Invalid product ID"), s)
            | WellFormed pid =>
                if (toNumber js q <? 1)%float then (Fail 400 quantity_at_least_1, s)
                else
                  (* Check if product exists *)
                  match Product.findById pid s with
                  | None => (Fail 404 (Msg "Product not found"), s)
                  | Some _ =>
                      (* Check if item already exists in cart *)
                      match Cart.findOne userId pid s with
                      | Some existingCartItem =>
                          (* Update quantity if item already exists:
                             existingCartItem.quantity += quantity *)
                          match Cart.assign js
                                  (plus js (cartSchema.quantity existingCartItem) q)
                                  existingCartItem s with
                          | inl e => (Next e, s)
                          | inr s' =>
                              (Json 200 (findPopulated (cartSchema._id existingCartItem) s'),
                               s')
                          end
                      | None =>
                          (* Create new cart item *)
                          match Cart.createCart js userId pid q s with
                          | inl e => (Next e, s)
                          | inr (cartItem, s') =>
                              (Json 201 (findPopulated (cartSchema._id cartItem) s'), s')
                          end
                      end
                  end
            end
      | _, _ => (Fail 400 (Msg "Product ID and quantity are required"), s)
      end
  end.

(** [updateCartItem], PUT /cart/:itemId. *)
Definition updateCartItem (user : option Claims) (itemId : RawId)
  (quantity : option Raw) (s : Store) : Outcome (option PopulatedCartItem) * Store :=
  match authenticated user with
  | None => (Fail 401 authentication_required, s)
  | Some userId =>
      match itemId with
      | Malformed => (Fail 400 (Msg "Invalid cart item ID"), s)
      | WellFormed id =>
          match quantity with
          | None => (Fail 400 (Msg "Quantity is required"), s)
          | Some q =>
              if isNull q then (Fail 400 (Msg "Quantity is required"), s)
              else if (toNumber js q <? 1)%float then (Fail 400 quantity_at_least_1, s)
              else
                (* Find cart item and verify it belongs to the user *)
                match Cart.findOneById id userId s with
                | None => (Fail 404 (Msg "Cart item not found"), s)
                | Some cartItem =>
                    (* Update quantity *)
                    match Cart.assign js q cartItem s with
                    | inl e => (Next e, s)
                    | inr s' =>
                        (Json 200 (findPopulated (cartSchema._id cartItem) s'), s')
                    end
                end
          end
      end
  end.

End WithCoercions.

(** What [removeFromCart] and [clearCart] put in [data]. *)
Record Cleared := { message : string; deletedCount : option nat }.

(** [removeFromCart], DELETE /cart/:itemId. *)
Definition removeFromCart (user : option Claims) (itemId : RawId) (s : Store)
  : Outcome Cleared * Store :=
  match authenticated user with
  | None => (Fail 401 authentication_required, s)
  | Some userId =>
      match itemId with
      | Malformed => (Fail 400 (Msg "Invalid cart item ID"), s)
      | WellFormed id =>
          match Cart.findOneAndDelete id userId s with
          | (None, s') => (Fail 404 (Msg "Cart item not found"), s')
          | (Some _, s') =>
              (Json 200 {| message := "Item removed from cart successfully";
                           deletedCount := None |}, s')
          end
      end
  end.

(** [clearCart], DELETE /cart. *)
Definition clearCart (user : option Claims) (s : Store) : Outcome Cleared * Store :=
  match authenticated user with
  | None => (Fail 401 authentication_required, s)
  | Some userId =>
      let (count, s') := Cart.deleteMany userId s in
      (Json 200 {| message := "Cart cleared successfully";
                   deletedCount := Some count |}, s')
  end.

End cartController.


(** ** controllers/inventoryController: the handlers that write *)

Module inventoryController.

Definition PopulatedInventory : Type := inventorySchema.doc * option productSchema.doc.

Definition findPopulated (id : ObjectId) (s : Store) : option PopulatedInventory :=
  option_map (Inventory.populate s) (Inventory.findById id s).

Section WithCoercions.

Variable js : Coercions.

(** [createInventory], POST /inventory. *)
Definition createInventory (user : option Claims) (productId : RawId)
  (quantity : option Raw) (s : Store) : Outcome (option PopulatedInventory) * Store :=
  if negb (isAdmin user) then (Fail 403 access_denied, s)
  else
    match productId with
    | Malformed => (Fail 400 (Msg "Invalid product ID"), s)
    | WellFormed pid =>
        match Product.findById pid s with
        | None => (Fail 404 (Msg "Product not found"), s)
        | Some _ =>
            match Inventory.findOne pid s with
            | Some _ =>
                (Fail 400 (Msg "Inventory already exists for this product. Use update instead."), s)
            | None =>
                match Inventory.createInventory js pid quantity s with
                | inl e => (Next e, s)
                | inr (inventory, s') =>
                    (Json 201 (findPopulated (inventorySchema._id inventory) s'), s')
                end
            end
        end
    end.

(** [updateInventory], PUT /inventory/:id.  [body] is [req.body]; the
    handler reads [req.body.productId], the product at the top level of
    the body, and passes the whole body on as the update. *)
Definition updateInventory (user : option Claims) (id : RawId) (body : Inventory.Update)
  (s : Store) : Outcome PopulatedInventory * Store :=
  if negb (isAdmin user) then (Fail 403 access_denied, s)
  else
    match id with
    | Malformed => (Fail 400 (Msg "Invalid inventory ID"), s)
    | WellFormed i =>
        let update :=
          match Inventory.findByIdAndUpdate js i body s with
          | inl e => (Next e, s)
          | inr (None, s') => (Fail 404 (Msg "Inventory not found"), s')
          | inr (Some d, s') => (Json 200 (Inventory.populate s' d), s')
          end in
        (* If productId is being updated, verify it exists *)
        match Inventory.u_productId body with
        | Some (Inventory.TopLevel, Malformed) => (Fail 400 (Msg "Invalid product ID"), s)
        | Some (Inventory.TopLevel, WellFormed pid) =>
            match Product.findById pid s with
            | None => (Fail 404 (Msg "Product not found"), s)
            | Some _ => update
            end
        | _ => update
        end
    end.

(** [updateInventoryQuantity], PATCH /inventory/product/:productId. *)
Definition updateInventoryQuantity (user : option Claims) (productId : RawId)
  (quantity : option Raw) (s : Store) : Outcome PopulatedInventory * Store :=
  if negb (isAdmin user) then (Fail 403 access_denied, s)
  else
    match productId with
    | Malformed => (Fail 400 (Msg "Invalid product ID"), s)
    | WellFormed pid =>
        match quantity with
        | None => (Fail 400 (Msg "Quantity is required"), s)
        | Some q =>
            if isNull q then (Fail 400 (Msg "Quantity is required"), s)
            else if (toNumber js q <? 0)%float
            then (Fail 400 (Msg "Quantity cannot be negative"), s)
            else
              (* Check if product exists *)
              match Product.findById pid s with
              | None => (Fail 404 (Msg "Product not found"), s)
              | Some _ =>
                  match Inventory.findOneAndUpdate js pid q s with
                  | inl e => (Next e, s)
                  | inr (None, s') =>
                      (Fail 404 (Msg "Inventory not found for this product"), s')
                  | inr (Some d, s') => (Json 200 (Inventory.populate s' d), s')
                  end
              end
        end
    end.

End WithCoercions.

End inventoryController.
(** ** controllers/productsController: update and delete *)

Module productsController.

Section WithProductSchema.

(** The validators that [runValidators: true] applies to an update come
    from the Product schema of models/products; they are a parameter. *)
Variable updateValidators : productSchema.fields -> option Exn.

(** [Product.findByIdAndUpdate(id, req.body, { new: true, runValidators: true })] *)
Definition findByIdAndUpdate (id : ObjectId) (body : productSchema.fields) (s : Store)
  : Exn + (option productSchema.doc * Store) :=
  match updateValidators body with
  | Some e => inl e
  | None =>
      match Product.findById id s with
      | None => inr (None, s)
      | Some p =>
          inr (Some (productSchema.apply body p),
               with_products
                 (map (fun x => if Nat.eqb (productSchema._id x) id
                                then productSchema.apply body x else x)
                      (products s)) s)
      end
  end.

(** [updateProduct], PUT /products/:id. *)
Definition updateProduct (user : option Claims) (id : RawId)
  (body : productSchema.fields) (s : Store) : Outcome productSchema.doc * Store :=
  if negb (isAdmin user) then (Fail 403 access_denied, s)
  else
    match id with
    | Malformed => (Fail 400 (Msg "Invalid product ID"), s)
    | WellFormed i =>
        match findByIdAndUpdate i body s with
        | inl e => (Next e, s)
        | inr (None, s') => (Fail 404 (Msg "Product not found"), s')
        | inr (Some p, s') => (Json 200 p, s')
        end
    end.

End WithProductSchema.

(** [deleteProduct], DELETE /products/:id. *)
Definition deleteProduct (user : option Claims) (id : RawId) (s : Store)
  : Outcome string * Store :=
  if negb (isAdmin user) then (Fail 403 access_denied, s)
  else
    match id with
    | Malformed => (Fail 400 (Msg "Invalid product ID"), s)
    | WellFormed i =>
        match Product.findByIdAndDelete i s with
        | (None, s') => (Fail 404 (Msg "Product not found"), s')
        | (Some _, s') => (Json 200 "Product deleted successfully", s')
        end
    end.

End productsController.


(** ** Calls of [createOrder] in flight

    Node runs a handler until it reaches an [await], lets other handlers
    run while the awaited operation is pending, and resumes it with the
    result.  A [Call] is a call of [createOrder] suspended at one of its
    awaits, with the local variables it needs to go on; [resume] performs
    the awaited operation on the store and runs the call to its next
    await.  The two queries of a populated find are taken together. *)

Module eventLoop.
Import ordersController.

Definition Items : Type := list (cartSchema.doc * option productSchema.doc).
Definition Created : Type := list (option PopulatedOrder).

Inductive Call :=
| AwaitCartFind (userId : UserId)
| AwaitInventoryFindOne (userId : UserId) (cartItem : cartSchema.doc)
    (product : productSchema.doc) (rest : Items) (createdOrders : Created)
| AwaitCreateOrderEntry (userId : UserId) (cartItem : cartSchema.doc)
    (product : productSchema.doc) (inventory : inventorySchema.doc)
    (rest : Items) (createdOrders : Created)
| AwaitInventorySave (userId : UserId) (cartItem : cartSchema.doc)
    (inventory : inventorySchema.doc) (order : orderSchema.doc)
    (rest : Items) (createdOrders : Created)
| AwaitOrderFindById (userId : UserId) (order : orderSchema.doc)
    (rest : Items) (createdOrders : Created)
| AwaitCartDeleteMany (userId : UserId) (createdOrders : Created)
| Responded (out : Outcome Created).

(** From the head of the loop to the next await: items whose product is
    null are skipped; after the last item comes [Cart.deleteMany]. *)
Fixpoint loopHead (userId : UserId) (cartItems : Items) (createdOrders : Created)
  : Call :=
  match cartItems with
  | [] => AwaitCartDeleteMany userId createdOrders
  | (_, None) :: rest => loopHead userId rest createdOrders
  | (cartItem, Some product) :: rest =>
      AwaitInventoryFindOne userId cartItem product rest createdOrders
  end.

(** The call of [createOrder] up to its first await. *)
Definition start (user : option Claims) : Call :=
  match authenticated user with
  | None => Responded (Fail 401 authentication_required)
  | Some userId => AwaitCartFind userId
  end.

Definition resume (c : Call) (s : Store) : Call * Store :=
  match c with
  | AwaitCartFind userId =>
      match map (Cart.populate s) (Cart.find userId s) with
      | [] => (Responded (Fail 400 cart_is_empty), s)
      | cartItems => (loopHead userId cartItems [], s)
      end
  | AwaitInventoryFindOne userId cartItem product rest createdOrders =>
      let requested := cartSchema.quantity cartItem in
      match Inventory.findOne (productSchema._id product) s with
      | None =>
          (Responded
             (Fail 400 (InsufficientInventory (productSchema.name product) 0 requested)), s)
      | Some inventory =>
          if (inventorySchema.quantity inventory <? requested)%float then
            (Responded
               (Fail 400 (InsufficientInventory (productSchema.name product)
                            (inventorySchema.quantity inventory) requested)), s)
          else
            (AwaitCreateOrderEntry userId cartItem product inventory rest createdOrders, s)
      end
  | AwaitCreateOrderEntry userId cartItem product inventory rest createdOrders =>
      let requested := cartSchema.quantity cartItem in
      let totalPrice := (productSchema.price product * requested)%float in
      match Order.createOrder userId (productSchema._id product) requested
              totalPrice "pending" s with
      | inl e => (Responded (Next e), s)
      | inr (order, s1) =>
          (AwaitInventorySave userId cartItem inventory order rest createdOrders, s1)
      end
  | AwaitInventorySave userId cartItem inventory order rest createdOrders =>
      match Inventory.save
              (inventorySchema.set_quantity
                 (inventorySchema.quantity inventory - cartSchema.quantity cartItem)%float
                 inventory) s with
      | inl e => (Responded (Next e), s)
      | inr s2 => (AwaitOrderFindById userId order rest createdOrders, s2)
      end
  | AwaitOrderFindById userId order rest createdOrders =>
      (loopHead userId rest
         (createdOrders ++ [findPopulated (orderSchema._id order) s])%list, s)
  | AwaitCartDeleteMany userId createdOrders =>
      let (_, s') := Cart.deleteMany userId s in
      (Responded (Json 201 createdOrders), s')
  | Responded out => (Responded out, s)
  end.

(** One call alone: resumed [n] times in a row. *)
Fixpoint resumeN (n : nat) (c : Call) (s : Store) : Call * Store :=
  match n with
  | O => (c, s)
  | S n' => let (c', s') := resume c s in resumeN n' c' s'
  end.

(** The server: the store and the calls of [createOrder] in flight (a
    call that has responded keeps its place, so positions are stable). *)
Record Server := { db : Store; calls : list Call }.

Fixpoint setNth {A : Type} (i : nat) (x : A) (l : list A) : list A :=
  match l, i with
  | [], _ => []
  | _ :: t, O => x :: t
  | h :: t, S i' => h :: setNth i' x t
  end.

Section WithProductSchema.

Variable updateValidators : productSchema.fields -> option Exn.
Variable js : Coercions.

(** What can happen next on the server.  [PostOrders] is the arrival of a
    POST /orders request, [Resume i] the completion of the operation the
    [i]-th call waits for.  The other handlers issue one write at most;
    each is taken as one event. *)
Inductive Event :=
| PostOrders (user : option Claims)
| Resume (i : nat)
| PostCart (user : option Claims) (productId : option RawId) (quantity : option Raw)
| PutCartItem (user : option Claims) (itemId : RawId) (quantity : option Raw)
| DeleteCartItem (user : option Claims) (itemId : RawId)
| DeleteCart (user : option Claims)
| PostInventory (user : option Claims) (productId : RawId) (quantity : option Raw)
| PutInventory (user : option Claims) (id : RawId) (body : Inventory.Update)
| PatchInventory (user : option Claims) (productId : RawId) (quantity : option Raw)
| PutProduct (user : option Claims) (id : RawId) (body : productSchema.fields)
| DeleteProduct (user : option Claims) (id : RawId)
| PatchOrderStatus (user : option Claims) (id : RawId) (status : option string).

Definition withDb (s : Store) (sv : Server) : Server :=
  {| db := s; calls := calls sv |}.

Definition exec (sv : Server) (e : Event) : Server :=
  match e with
  | PostOrders user => {| db := db sv; calls := calls sv ++ [start user] |}
  | Resume i =>
      match nth_error (calls sv) i with
      | None => sv
      | Some c =>
          let (c', s') := resume c (db sv) in
          {| db := s'; calls := setNth i c' (calls sv) |}
      end
  | PostCart user productId quantity =>
      withDb (snd (cartController.addToCart js user productId quantity (db sv))) sv
  | PutCartItem user itemId quantity =>
      withDb (snd (cartController.updateCartItem js user itemId quantity (db sv))) sv
  | DeleteCartItem user itemId =>
      withDb (snd (cartController.removeFromCart user itemId (db sv))) sv
  | DeleteCart user =>
      withDb (snd (cartController.clearCart user (db sv))) sv
  | PostInventory user productId quantity =>
      withDb (snd (inventoryController.createInventory js user productId quantity (db sv))) sv
  | PutInventory user id body =>
      withDb (snd (inventoryController.updateInventory js user id body (db sv))) sv
  | PatchInventory user productId quantity =>
      withDb (snd (inventoryController.updateInventoryQuantity js user productId quantity (db sv))) sv
  | PutProduct user id body =>
      withDb (snd (productsController.updateProduct updateValidators user id body (db sv))) sv
  | DeleteProduct user id =>
      withDb (snd (productsController.deleteProduct user id (db sv))) sv
  | PatchOrderStatus user id status =>
      withDb (snd (ordersController.updateOrderStatus user id status (db sv))) sv
  end.

Definition run (sv : Server) (trace : list Event) : Server :=
  fold_left exec trace sv.

End WithProductSchema.

End eventLoop.


(** ** Predicates used in the statements *)

(** The cart lines whose product still exists, with that product. *)
Fixpoint survivors (cartItems : eventLoop.Items)
  : list (cartSchema.doc * productSchema.doc) :=
  match cartItems with
  | [] => []
  | (_, None) :: rest => survivors rest
  | (cartItem, Some product) :: rest => (cartItem, product) :: survivors rest
  end.

(** The cart lines of [lines] whose product is in the catalogue, each with
    that product, in the order of [lines]. *)
Fixpoint surviving (catalogue : list productSchema.doc) (lines : list cartSchema.doc)
  : list (cartSchema.doc * productSchema.doc) :=
  match lines with
  | [] => []
  | line :: rest =>
      match find (fun p => Nat.eqb (productSchema._id p) (cartSchema.productId line))
                 catalogue with
      | Some p => (line, p) :: surviving catalogue rest
      | None => surviving catalogue rest
      end
  end.

(** One order per line, in the order of the lines, with the ids [n],
    [n + 1], ...: for the user [userId], the product and the quantity of
    the line, the price of the product times that quantity, and the status
    pending.  Each order comes with the product of its line. *)
Fixpoint ordersFor (userId : UserId) (n : ObjectId)
  (lines : list (cartSchema.doc * productSchema.doc))
  : list (orderSchema.doc * productSchema.doc) :=
  match lines with
  | [] => []
  | (line, p) :: rest =>
      ({| orderSchema._id := n; orderSchema.userId := userId;
          orderSchema.productId := productSchema._id p;
          orderSchema.quantity := cartSchema.quantity line;
          orderSchema.totalPrice := (productSchema.price p * cartSchema.quantity line)%float;
          orderSchema.status := "pending" |}, p)
      :: ordersFor userId (S n) rest
  end.

(** Every order id was drawn from the counter. *)
Definition freshOrderIds (s : Store) : bool :=
  forallb (fun o => Nat.ltb (orderSchema._id o) (nextId s)) (orders s).

(** No inventory record has a negative quantity. *)
Definition nonNegative (s : Store) : bool :=
  forallb (fun d => (0 <=? inventorySchema.quantity d)%float) (inventories s).

(** A call that is past the inventory check holds an inventory document
    whose quantity is not less than the requested one. *)
Definition checked (c : eventLoop.Call) : bool :=
  match c with
  | eventLoop.AwaitCreateOrderEntry _ cartItem _ inventory _ _
  | eventLoop.AwaitInventorySave _ cartItem inventory _ _ _ =>
      negb (inventorySchema.quantity inventory <? cartSchema.quantity cartItem)%float
  | _ => true
  end.

(** [Number.isInteger(x)] *)
Definition isInteger (x : Number) : bool :=
  match Prim2SF x with
  | S754_zero _ => true
  | S754_finite _ m e => (0 <=? e)%Z || (Z.pos m mod 2 ^ (- e) =? 0)%Z
  | _ => false
  end.

(** The body of a PUT /inventory/:id request, if the event is one, sets
    paths only: it has no update operator other than [$set]. *)
Definition setsPathsOnly (e : eventLoop.Event) : bool :=
  match e with
  | eventLoop.PutInventory _ _ body =>
      match Inventory.u_operators body with
      | Some _ => false
      | None => true
      end
  | _ => true
  end.

(** Two versions of an order that differ in [status] at most. *)
Definition sameButStatus (o o' : orderSchema.doc) : Prop :=
  orderSchema._id o' = orderSchema._id o /\
  orderSchema.userId o' = orderSchema.userId o /\
  orderSchema.productId o' = orderSchema.productId o /\
  orderSchema.quantity o' = orderSchema.quantity o /\
  orderSchema.totalPrice o' = orderSchema.totalPrice o.

(** The units of a product in the orders of the store. *)
Definition orderedQuantity (pid : ObjectId) (s : Store) : Number :=
  fold_right PrimFloat.add 0%float
    (map orderSchema.quantity
         (filter (fun o => Nat.eqb (orderSchema.productId o) pid) (orders s))).

(** The call answered 201. *)
Definition accepted (c : eventLoop.Call) : bool :=
  match c with
  | eventLoop.Responded (Json 201 _) => true
  | _ => false
  end.

(** The call answered with the insufficient-inventory message. *)
Definition refusedForStock (c : eventLoop.Call) : bool :=
  match c with
  | eventLoop.Responded (Fail _ (InsufficientInventory _ _ _)) => true
  | _ => false
  end.

Definition stale (s : Store) (c : cartSchema.doc) : bool :=
  match Product.findById (cartSchema.productId c) s with
  | None => true
  | Some _ => false
  end.

(** The collections a handler leaves alone. *)
Definition sameProducts (s s' : Store) : Prop := products s' = products s.
Definition sameInventories (s s' : Store) : Prop := inventories s' = inventories s.
Definition sameCarts (s s' : Store) : Prop := carts s' = carts s.
Definition sameOrders (s s' : Store) : Prop := orders s' = orders s.

(** [l'] is [l] with some statuses changed, followed by new orders. *)
Definition grownFrom (l l' : list orderSchema.doc) : Prop :=
  exists old new : list orderSchema.doc,
    l' = (old ++ new)%list /\ Forall2 sameButStatus l old.

(** ** Stores and requests used as test inputs *)

Module Examples.

Definition alice : option Claims :=
  Some {| claim_userId := Some 1%nat; claim_role := "user" |}.
Definition bob : option Claims :=
  Some {| claim_userId := Some 2%nat; claim_role := "user" |}.
Definition root : option Claims :=
  Some {| claim_userId := Some 3%nat; claim_role := "admin" |}.

Definition productA : productSchema.doc :=
  {| productSchema._id := 10; productSchema.name := "Product A";
     productSchema.price := 50; productSchema.category := "Men" |}.
Definition productB : productSchema.doc :=
  {| productSchema._id := 11; productSchema.name := "Product B";
     productSchema.price := 30; productSchema.category := "Men" |}.

Definition inventoryOf (id pid : ObjectId) (q : Number) : inventorySchema.doc :=
  {| inventorySchema._id := id; inventorySchema.productId := pid;
     inventorySchema.quantity := q |}.

Definition line (id : ObjectId) (u : UserId) (pid : ObjectId) (q : Number) : cartSchema.doc :=
  {| cartSchema._id := id; cartSchema.userId := u; cartSchema.productId := pid;
     cartSchema.quantity := q |}.

(** Product A (price 50) twice and product B (price 30) once in the cart of
    user 1; 5 units of A and none of B in stock. *)
Definition twoLines : Store :=
  {| products := [productA; productB];
     inventories := [inventoryOf 20 10 5; inventoryOf 21 11 0];
     carts := [line 30 1 10 2; line 31 1 11 1];
     orders := [];
     nextId := 40 |}.

(** One unit of product A in stock; users 1 and 2 each have one unit of it
    in their cart. *)
Definition lastUnit : Store :=
  {| products := [productA];
     inventories := [inventoryOf 20 10 1];
     carts := [line 30 1 10 1; line 31 2 10 1];
     orders := [];
     nextId := 40 |}.

(** Both requests arrive, then the two calls are resumed in turn. *)
Definition inTurn : list eventLoop.Event :=
  [eventLoop.PostOrders alice; eventLoop.PostOrders bob;
   eventLoop.Resume 0; eventLoop.Resume 1; eventLoop.Resume 0; eventLoop.Resume 1;
   eventLoop.Resume 0; eventLoop.Resume 1; eventLoop.Resume 0; eventLoop.Resume 1;
   eventLoop.Resume 0; eventLoop.Resume 1; eventLoop.Resume 0; eventLoop.Resume 1].

(** The cart of user 1 holds a line for a product that was deleted. *)
Definition staleCart : Store :=
  {| products := [productB];
     inventories := [inventoryOf 20 10 5; inventoryOf 21 11 4];
     carts := [line 30 1 10 2; line 31 2 11 1];
     orders := [];
     nextId := 40 |}.

(** One order was placed; user 2 has a cart, user 1 has none. *)
Definition oneOrder : Store :=
  {| products := [productA; productB];
     inventories := [inventoryOf 20 10 3; inventoryOf 21 11 4];
     carts := [line 31 2 11 1; line 32 2 10 1];
     orders := [{| orderSchema._id := 33; orderSchema.userId := 1;
                   orderSchema.productId := 10; orderSchema.quantity := 2;
                   orderSchema.totalPrice := 100; orderSchema.status := "pending" |}];
     nextId := 40 |}.

Definition noValidators (_ : productSchema.fields) : option Exn := None.

(** [Number] and [String] as JavaScript computes them, on the strings and
    numbers that the examples reach: [Number("2e-5")] is 0.00002 and
    [String(2)] is ["2"], say.  The other strings of the examples, like
    ["e-5"], are not numeric literals: they give NaN. *)
Definition numbers : list (string * Number) :=
  [("3", 3%float); ("23", 23%float); ("43", 43%float); ("2e-5", 2e-5%float)].

Definition strings : list (Number * string) :=
  [(1%float, "1"); (2%float, "2"); (3%float, "3"); (4%float, "4")].

Definition conversions : Coercions :=
  {| ToNumber := fun text =>
       match find (fun entry => String.eqb (fst entry) text) numbers with
       | Some entry => snd entry
       | None => nan
       end;
     ToString := fun x =>
       match find (fun entry => (fst entry =? x)%float) strings with
       | Some entry => snd entry
       | None => "NaN"
       end |}.

(** Product C and product D, with decimal prices. *)
Definition productC : productSchema.doc :=
  {| productSchema._id := 12; productSchema.name := "Product C";
     productSchema.price := 19.99; productSchema.category := "Women" |}.
Definition productD : productSchema.doc :=
  {| productSchema._id := 13; productSchema.name := "Product D";
     productSchema.price := 99.99; productSchema.category := "Women" |}.

(** Three units of product C and three of product D in the cart of user
    1; 10 units of each in stock. *)
Definition decimalPrices : Store :=
  {| products := [productC; productD];
     inventories := [inventoryOf 22 12 10; inventoryOf 23 13 10];
     carts := [line 30 1 12 3; line 31 1 13 3];
     orders := [];
     nextId := 40 |}.

(** The body [{ "$inc": { "quantity": -10 } }]. *)
Definition takeTen : Inventory.Update :=
  {| Inventory.u_productId := None; Inventory.u_quantity := None;
     Inventory.u_operators := Some (Inventory.inc (-10)) |}.

(** The body [{ "quantity": q }]. *)
Definition quantityOnly (q : Raw) : Inventory.Update :=
  {| Inventory.u_productId := None; Inventory.u_quantity := Some q;
     Inventory.u_operators := None |}.

Definition idle (s : Store) : eventLoop.Server :=
  {| eventLoop.db := s; eventLoop.calls := [] |}.

(** The first call runs to its answer before the second request arrives. *)
Definition inSequence : list eventLoop.Event :=
  [eventLoop.PostOrders alice;
   eventLoop.Resume 0; eventLoop.Resume 0; eventLoop.Resume 0;
   eventLoop.Resume 0; eventLoop.Resume 0; eventLoop.Resume 0;
   eventLoop.PostOrders bob;
   eventLoop.Resume 1; eventLoop.Resume 1].

(** Cart requests of user 1, some of them with a quantity below 1. *)
Definition shopping : list eventLoop.Event :=
  [eventLoop.PostCart alice (Some (WellFormed 10)) (Some (Num 2));
   eventLoop.PostCart alice (Some (WellFormed 11)) (Some (Num 0));
   eventLoop.PostCart alice (Some (WellFormed 11)) (Some (Num 4));
   eventLoop.PutCartItem alice (WellFormed 31) (Some (Num (-3)));
   eventLoop.PutCartItem alice (WellFormed 31) (Some (Num 6));
   eventLoop.PostCart alice (Some (WellFormed 10)) (Some (Str "3"));
   eventLoop.PostCart alice (Some (WellFormed 10)) (Some (Num (-1)))].

(** Stock updates by the administrator, two of them negative, around an
    order of user 2. *)
Definition restocking : list eventLoop.Event :=
  [eventLoop.PatchInventory root (WellFormed 10) (Some (Num (-5)));
   eventLoop.PatchInventory root (WellFormed 10) (Some (Num 1));
   eventLoop.PostOrders bob;
   eventLoop.Resume 0; eventLoop.Resume 0; eventLoop.Resume 0;
   eventLoop.PutInventory root (WellFormed 20) (quantityOnly (Num (-2)));
   eventLoop.PutInventory root (WellFormed 21) (quantityOnly (Num 2.5));
   eventLoop.PatchInventory root (WellFormed 11) (Some (Str "3"));
   eventLoop.Resume 0; eventLoop.Resume 0; eventLoop.Resume 0;
   eventLoop.Resume 0; eventLoop.Resume 0; eventLoop.Resume 0;
   eventLoop.Resume 0; eventLoop.Resume 0].

(** A price change and a status change after the order was placed. *)
Definition afterwards : list eventLoop.Event :=
  [eventLoop.PutProduct root (WellFormed 10)
     {| productSchema.f_name := None; productSchema.f_price := Some 75%float;
        productSchema.f_category := None |};
   eventLoop.PatchOrderStatus root (WellFormed 33) (Some "shipped");
   eventLoop.PostOrders bob;
   eventLoop.Resume 0; eventLoop.Resume 0; eventLoop.Resume 0;
   eventLoop.Resume 0; eventLoop.Resume 0; eventLoop.Resume 0].

End Examples.

(** ** The handlers that only read

    They leave the store as it is, so they return the answer alone.  A
    query that the database server rejects makes the handler pass the
    server's error to [next]. *)

Inductive MongoServerError :=
| NegativeSkip (skip : Z).

(** [inl]: the answer that was sent; [inr]: [next(error)]. *)
Definition Reply (A : Type) : Type := (Outcome A + MongoServerError)%type.

(** [parseInt(x) || d], where [parsed] is the value of [parseInt(x)]: an
    integer, or [None] for NaN.  NaN and 0 are falsy. *)
Definition orElse (parsed : option Z) (d : Z) : Z :=
  match parsed with
  | None => d
  | Some n => if n =? 0 then d else n
  end.

(** [Math.ceil(total / limitNum)] on integers, [limitNum] not 0. *)
Definition ceilDiv (total limitNum : Z) : Z := - ((- total) / limitNum).

Module paging.
Record t := { page : Z; limit : Z; total : Z; pages : Z }.
End paging.

(** The [data] of a paginated answer. *)
Record Paged (A : Type) := { found : list A; pagination : paging.t }.

Arguments found {A} p.
Arguments pagination {A} p.

(** [.sort({ createdAt: -1 }).limit(limitNum).skip(skip)] on the documents
    that match the query, given in insertion order: newest first, [skip]
    documents dropped, [limitNum] kept.  The server rejects a negative
    skip; a negative limit is sent as its absolute value (the cap of a
    single batch is not represented). *)
Definition newestFirst {A : Type} (limitNum skip : Z) (matching : list A)
  : list A + MongoServerError :=
  if skip <? 0 then inr (NegativeSkip skip)
  else inl (firstn (Z.to_nat (Z.abs limitNum)) (skipn (Z.to_nat skip) (rev matching))).

Definition pageOf {A B : Type} (f : A -> B) (page limit : option Z)
  (matching : list A) : Reply (Paged B) :=
  (* Pagination *)
  let pageNum := orElse page 1 in
  let limitNum := orElse limit 10 in
  let skip := (pageNum - 1) * limitNum in
  match newestFirst limitNum skip matching with
  | inr e => inr e
  | inl l =>
      let total := Z.of_nat (List.length matching) in
      inl (Json 200
             {| found := map f l;
                pagination := {| paging.page := pageNum; paging.limit := limitNum;
                                 paging.total := total;
                                 paging.pages := ceilDiv total limitNum |} |})
  end.

Module ordersQueries.
Import ordersController.

(** [getUserOrders], GET /orders.  [limit] and [page] are [parseInt] of
    the query parameters. *)
Definition getUserOrders (user : option Claims) (limit page : option Z) (s : Store)
  : Reply (Paged PopulatedOrder) :=
  match authenticated user with
  | None => inl (Fail 401 authentication_required)
  | Some userId =>
      pageOf (Order.populate s) page limit
        (filter (fun o => Nat.eqb (orderSchema.userId o) userId) (orders s))
  end.

(** [getOrderById], GET /orders/:id. *)
Definition getOrderById (user : option Claims) (id : RawId) (s : Store)
  : Outcome PopulatedOrder :=
  match authenticated user with
  | None => Fail 401 authentication_required
  | Some userId =>
      match id with
      | Malformed => Fail 400 (Msg "Invalid order ID")
      | WellFormed i =>
          match Order.findById i s with
          | None => Fail 404 (Msg "Order not found")
          | Some order =>
              (* Check if user owns this order or is an admin *)
              if negb (Nat.eqb (orderSchema.userId order) userId) && negb (isAdmin user)
              then Fail 403 (Msg "Access denied. You can only view your own orders.")
              else Json 200 (Order.populate s order)
          end
      end
  end.

(** The query that [getAllOrders] builds: [status] and [userId] are the
    query parameters, [None] when absent or empty.  A [userId] that is not
    the id of a user equals the [userId] of no order. *)
Definition query (status : option string) (userId : option RawId)
  (o : orderSchema.doc) : bool :=
  match status with
  | None => true
  | Some st => if String.eqb st "" then true else String.eqb (orderSchema.status o) st
  end
  &&
  match userId with
  | None => true
  | Some Malformed => false
  | Some (WellFormed u) => Nat.eqb (orderSchema.userId o) u
  end.

(** [getAllOrders], GET /orders/admin. *)
Definition getAllOrders (user : option Claims) (limit page : option Z)
  (status : option string) (userId : option RawId) (s : Store)
  : Reply (Paged PopulatedOrder) :=
  if negb (isAdmin user) then inl (Fail 403 access_denied)
  else pageOf (Order.populate s) page limit (filter (query status userId) (orders s)).

End ordersQueries.

Module cartQueries.

(** [getCart], GET /cart. *)
Definition getCart (user : option Claims) (s : Store)
  : Outcome (list cartController.PopulatedCartItem) :=
  match authenticated user with
  | None => Fail 401 authentication_required
  | Some userId => Json 200 (map (Cart.populate s) (Cart.find userId s))
  end.

End cartQueries.

Module inventoryQueries.
Import inventoryController.

(** [getInventoryByProductId], GET /inventory/product/:productId. *)
Definition getInventoryByProductId (productId : RawId) (s : Store)
  : Outcome PopulatedInventory :=
  match productId with
  | Malformed => Fail 400 (Msg "Invalid product ID")
  | WellFormed pid =>
      (* Check if product exists *)
      match Product.findById pid s with
      | None => Fail 404 (Msg "Product not found")
      | Some _ =>
          match Inventory.findOne pid s with
          | None => Fail 404 (Msg "Inventory not found for this product")
          | Some inventory => Json 200 (Inventory.populate s inventory)
          end
      end
  end.

(** [getAllInventory], GET /inventory. *)
Definition getAllInventory (user : option Claims) (limit page : option Z) (s : Store)
  : Reply (Paged PopulatedInventory) :=
  if negb (isAdmin user) then inl (Fail 403 access_denied)
  else pageOf (Inventory.populate s) page limit (inventories s).

End inventoryQueries.

Module productsQueries.

(** [getProductById], GET /products/:id. *)
Definition getProductById (id : RawId) (s : Store) : Outcome productSchema.doc :=
  match id with
  | Malformed => Fail 400 (Msg "Invalid product ID")
  | WellFormed i =>
      match Product.findById i s with
      | None => Fail 404 (Msg "Product not found")
      | Some product => Json 200 product
      end
  end.

End productsQueries.

(** ** middleware/rateLimiter

    [requestCounts] is a Map from the client address to its entry; it is
    represented by the list of its entries in insertion order.  [now] is
    the value of [Date.now()]. *)

Module rateLimiter.

Record Entry := { count : Z; resetTime : Z }.

Definition Counts : Type := list (string * Entry).

(** [requestCounts.get(ip)] *)
Definition get (ip : string) (m : Counts) : option Entry :=
  option_map snd (find (fun kv => String.eqb (fst kv) ip) m).

(** [requestCounts.set(ip, entry)]: an existing key keeps its place. *)
Fixpoint set (ip : string) (e : Entry) (m : Counts) : Counts :=
  match m with
  | [] => [(ip, e)]
  | (k, v) :: rest => if String.eqb k ip then (k, e) :: rest else (k, v) :: set ip e rest
  end.

(** The options of [rateLimiter(options)]; [None] is an absent field. *)
Record Options := { windowMs : option Z; maxRequests : option Z }.

(** [options.windowMs || 15 * 60 * 1000] *)
Definition window (o : Options) : Z := orElse (windowMs o) (15 * 60 * 1000).

(** [options.maxRequests || 100] *)
Definition quota (o : Options) : Z := orElse (maxRequests o) 100.

(** What the middleware does with the request: [next()] without headers
    (a new window), [next()] after setting the rate-limit headers, or the
    429 answer with its [retryAfter]. *)
Inductive Verdict :=
| NewWindow
| Passed (limit remaining reset : Z)
| TooMany (retryAfter : Z).

(** Clean up old entries periodically. *)
Definition cleanUp (w now : Z) (m : Counts) : Counts :=
  if 10000 <? Z.of_nat (List.length m)
  then filter (fun kv => negb (w <? now - resetTime (snd kv))) m
  else m.

(** The middleware that [rateLimiter(options)] returns, on a request from
    [ip] at time [now]. *)
Definition handle (o : Options) (ip : string) (now : Z) (m : Counts)
  : Verdict * Counts :=
  let m1 := cleanUp (window o) now m in
  (* Get or create entry for this IP *)
  let fresh := (NewWindow, set ip {| count := 1; resetTime := now |} m1) in
  match get ip m1 with
  | None => fresh
  | Some entry =>
      if window o <? now - resetTime entry then fresh
      else
        (* Increment count *)
        let entry' := {| count := count entry + 1; resetTime := resetTime entry |} in
        let m2 := set ip entry' m1 in
        (* Check if limit exceeded *)
        if quota o <? count entry' then
          (TooMany (ceilDiv (resetTime entry' + window o - now) 1000), m2)
        else
          (Passed (quota o) (Z.max 0 (quota o - count entry'))
                  (resetTime entry' + window o), m2)
  end.

Definition passes (v : Verdict) : bool :=
  match v with
  | TooMany _ => false
  | _ => true
  end.

(** A sequence of requests, each with its client address and its time:
    the verdicts and the Map afterwards. *)
Fixpoint serve (o : Options) (requests : list (string * Z)) (m : Counts)
  : list (string * Verdict) * Counts :=
  match requests with
  | [] => ([], m)
  | (ip, now) :: rest =>
      let (v, m1) := handle o ip now m in
      let (vs, m2) := serve o rest m1 in
      ((ip, v) :: vs, m2)
  end.

(** How many requests of [ip] were let through. *)
Definition passedOf (ip : string) (vs : list (string * Verdict)) : nat :=
  List.length (filter (fun r => String.eqb (fst r) ip && passes (snd r)) vs).

Definition requestsOf (ip : string) (requests : list (string * Z)) : nat :=
  List.length (filter (fun r => String.eqb (fst r) ip) requests).

End rateLimiter.

(** ** More predicates used in the statements *)

Fixpoint distinct (l : list nat) : bool :=
  match l with
  | [] => true
  | x :: rest => negb (existsb (Nat.eqb x) rest) && distinct rest
  end.

(** At most one cart line per user and product. *)
Fixpoint oneLinePerProduct (l : list cartSchema.doc) : bool :=
  match l with
  | [] => true
  | c :: rest =>
      negb (existsb (fun x => Nat.eqb (cartSchema.userId x) (cartSchema.userId c)
                              && Nat.eqb (cartSchema.productId x) (cartSchema.productId c))
                    rest)
      && oneLinePerProduct rest
  end.

(** The ids of the cart lines are distinct. *)
Definition cartIdsDistinct (s : Store) : bool :=
  distinct (map cartSchema._id (carts s)).

(** The inventory collection as the database keeps it: distinct ids, drawn
    from the counter, and the unique index on [productId]. *)
Definition inventoryKeysOk (s : Store) : bool :=
  distinct (map inventorySchema._id (inventories s))
  && distinct (map inventorySchema.productId (inventories s))
  && forallb (fun d => Nat.ltb (inventorySchema._id d) (nextId s)) (inventories s).

(** The quantity on record for a product, 0 without a record. *)
Definition stock (pid : ObjectId) (s : Store) : Number :=
  match Inventory.findOne pid s with
  | Some d => inventorySchema.quantity d
  | None => 0
  end.

(** What is left of [available] units of product [pid] when the units of
    the lines for that product are taken from it, line after line. *)
Fixpoint leftAfter (pid : ObjectId)
  (lines : list (cartSchema.doc * productSchema.doc)) (available : Number) : Number :=
  match lines with
  | [] => available
  | (line, p) :: rest =>
      leftAfter pid rest
        (if Nat.eqb (productSchema._id p) pid
         then (available - cartSchema.quantity line)%float
         else available)
  end.

(** No line for product [pid] asks for more than the lines before it have
    left of [available] units. *)
Fixpoint covered (pid : ObjectId)
  (lines : list (cartSchema.doc * productSchema.doc)) (available : Number) : bool :=
  match lines with
  | [] => true
  | (line, p) :: rest =>
      if Nat.eqb (productSchema._id p) pid
      then negb (available <? cartSchema.quantity line)%float
           && covered pid rest (available - cartSchema.quantity line)%float
      else covered pid rest available
  end.

(** No request of the trace comes from an administrator. *)
Definition byAdmin (e : eventLoop.Event) : bool :=
  match e with
  | eventLoop.PostOrders user
  | eventLoop.PostCart user _ _
  | eventLoop.PutCartItem user _ _
  | eventLoop.DeleteCartItem user _
  | eventLoop.DeleteCart user
  | eventLoop.PostInventory user _ _
  | eventLoop.PutInventory user _ _
  | eventLoop.PatchInventory user _ _
  | eventLoop.PutProduct user _ _
  | eventLoop.DeleteProduct user _
  | eventLoop.PatchOrderStatus user _ _ => isAdmin user
  | eventLoop.Resume _ => false
  end.

(** The event is not the resumption of a call of [createOrder]. *)
Definition notResume (e : eventLoop.Event) : bool :=
  match e with
  | eventLoop.Resume _ => false
  | _ => true
  end.

(** The page numbers 1 to [n]. *)
Definition pageNumbers (n : Z) : list Z :=
  map (fun i => Z.of_nat i + 1) (seq 0 (Z.to_nat n)).

(** The documents of an answer, none when there is no 200 answer. *)
Definition foundIn {A : Type} (r : Reply (Paged A)) : list A :=
  match r with
  | inl (Json _ d) => found d
  | _ => []
  end.

(** The ids of the orders are distinct and were drawn from the counter. *)
Definition orderIdsOk (s : Store) : bool :=
  freshOrderIds s && distinct (map orderSchema._id (orders s)).

(** No client address has two entries in the Map of the rate limiter. *)
Fixpoint distinctKeys (m : rateLimiter.Counts) : bool :=
  match m with
  | [] => true
  | (k, _) :: rest =>
      negb (existsb (fun kv => String.eqb (fst kv) k) rest) && distinctKeys rest
  end.

(** ** More stores used as test inputs *)

Module MoreExamples.

Definition orderOf (id : ObjectId) (u : UserId) (pid : ObjectId) (q tp : Number)
  (st : string) : orderSchema.doc :=
  {| orderSchema._id := id; orderSchema.userId := u; orderSchema.productId := pid;
     orderSchema.quantity := q; orderSchema.totalPrice := tp;
     orderSchema.status := st |}.

(** Five orders of user 1 and two of user 2. *)
Definition history : Store :=
  {| products := [Examples.productA; Examples.productB];
     inventories := [Examples.inventoryOf 20 10 3; Examples.inventoryOf 21 11 4];
     carts := [Examples.line 30 1 10 2; Examples.line 31 2 11 1;
               Examples.line 32 2 10 1];
     orders := [orderOf 40 1 10 1 50 "delivered"; orderOf 41 2 11 2 60 "shipped";
                orderOf 42 1 11 1 30 "shipped"; orderOf 43 1 10 2 100 "pending";
                orderOf 44 2 10 1 50 "pending"; orderOf 45 1 11 3 90 "pending";
                orderOf 46 1 10 1 50 "pending"];
     nextId := 50 |}.

(** Requests of users 1 and 2, who are not administrators, to the
    handlers behind the administrator check, among requests on their
    carts. *)
Definition intruders : list eventLoop.Event :=
  [eventLoop.PatchInventory Examples.alice (WellFormed 10) (Some (Num 0));
   eventLoop.PostCart Examples.alice (Some (WellFormed 11)) (Some (Num 2));
   eventLoop.PutInventory Examples.bob (WellFormed 20) Examples.takeTen;
   eventLoop.PutInventory Examples.bob (WellFormed 21)
     {| Inventory.u_productId := Some (Inventory.InSet, WellFormed 10);
        Inventory.u_quantity := Some (Num 100);
        Inventory.u_operators := None |};
   eventLoop.PostInventory Examples.alice (WellFormed 11) (Some (Num 5));
   eventLoop.PutProduct Examples.bob (WellFormed 10)
     {| productSchema.f_name := None; productSchema.f_price := Some 1%float;
        productSchema.f_category := None |};
   eventLoop.DeleteCartItem Examples.bob (WellFormed 31);
   eventLoop.DeleteProduct Examples.alice (WellFormed 11);
   eventLoop.PatchOrderStatus Examples.bob (WellFormed 40) (Some "delivered");
   eventLoop.PostOrders Examples.alice].

(** A limiter of 3 requests per minute. *)
Definition threePerMinute : rateLimiter.Options :=
  {| rateLimiter.windowMs := Some 60000; rateLimiter.maxRequests := Some 3 |}.

(** Five requests of one client and two of another within a minute. *)
Definition traffic : list (string * Z) :=
  [("10.0.0.1", 1000); ("10.0.0.2", 1500); ("10.0.0.1", 2000); ("10.0.0.1", 30000);
   ("10.0.0.1", 45000); ("10.0.0.2", 50000); ("10.0.0.1", 61000)].

End MoreExamples.

(** ** Tactics *)

(** Case analysis on the innermost scrutinee of the goal. *)
Ltac break_match :=
  match goal with
  | |- context [match ?x with _ => _ end] =>
      lazymatch x with
      | context [match _ with _ => _ end] => fail
      | _ => destruct x eqn:?
      end
  end.

(** Goals that say which collections a handler leaves alone. *)
Ltac frame :=
  unfold sameProducts, sameInventories, sameCarts, sameOrders;
  repeat break_match; simpl; repeat split; try reflexivity.

(** Goals on the id counter. *)
Ltac counter := repeat break_match; simpl; lia.

(** One resumption of a call, unfolded. *)
Ltac resume_once := cbn [eventLoop.resumeN eventLoop.resume]; cbv zeta.

(** * Properties of the handlers *)

Import ordersController.

(** ** Comparisons of numbers *)

Lemma SFcompare_antisym :
  forall (x y : spec_float) (c : comparison),
    SFcompare x y = Some c -> SFcompare y x = Some (CompOpp c).
Proof.
  intros x y c.
  destruct x as [sx|sx| |sx mx ex], y as [sy|sy| |sy my ey]; simpl;
    try discriminate;
    try (destruct sx; try destruct sy; intros H; inversion H; reflexivity);
    try (destruct sy; intros H; inversion H; reflexivity).
  destruct sx, sy; try (intros H; inversion H; reflexivity).
  - rewrite (Z.compare_antisym ey ex).
    destruct (ey ?= ex)%Z; simpl; intros H; inversion H; try reflexivity.
    rewrite Pos.compare_cont_antisym. simpl. rewrite CompOpp_involutive. reflexivity.
  - rewrite (Z.compare_antisym ey ex).
    destruct (ey ?= ex)%Z; simpl; intros H; inversion H; try reflexivity.
    rewrite Pos.compare_cont_antisym. reflexivity.
Qed.

Lemma SFcompare_refl :
  forall (x y : spec_float) (c : comparison),
    SFcompare x y = Some c -> SFcompare x x = Some Eq.
Proof.
  intros x y c.
  destruct x as [sx|sx| |sx mx ex]; simpl; try discriminate.
  - reflexivity.
  - destruct sx; reflexivity.
  - intros _. destruct sx; rewrite Z.compare_refl, Pos.compare_cont_refl; reflexivity.
Qed.

(** [a <= b] excludes [b < a]. *)
Lemma leb_not_ltb :
  forall a b : Number, (a <=? b)%float = true -> (b <? a)%float = false.
Proof.
  intros a b. rewrite leb_spec, ltb_spec. unfold SFleb, SFltb.
  destruct (SFcompare (Prim2SF a) (Prim2SF b)) as [c|] eqn:E; [|discriminate].
  rewrite (SFcompare_antisym _ _ _ E). destruct c; simpl; congruence.
Qed.

(** [b < a] excludes [a <= b]. *)
Lemma ltb_not_leb :
  forall a b : Number, (b <? a)%float = true -> (a <=? b)%float = false.
Proof.
  intros a b H. destruct (a <=? b)%float eqn:E; [|reflexivity].
  apply leb_not_ltb in E. congruence.
Qed.

(** Numbers that compare are not NaN. *)
Lemma leb_number :
  forall a b : Number, (a <=? b)%float = true -> isNaN a = false /\ isNaN b = false.
Proof.
  intros a b. unfold isNaN. rewrite leb_spec, !eqb_spec. unfold SFleb, SFeqb.
  destruct (SFcompare (Prim2SF a) (Prim2SF b)) as [c|] eqn:E; [|discriminate].
  intros _. rewrite (SFcompare_refl _ _ _ E).
  rewrite (SFcompare_refl _ _ _ (SFcompare_antisym _ _ _ E)). split; reflexivity.
Qed.

Lemma ltb_number :
  forall a b : Number, (a <? b)%float = true -> isNaN a = false /\ isNaN b = false.
Proof.
  intros a b. unfold isNaN. rewrite ltb_spec, !eqb_spec. unfold SFltb, SFeqb.
  destruct (SFcompare (Prim2SF a) (Prim2SF b)) as [c|] eqn:E; [|discriminate].
  intros _. rewrite (SFcompare_refl _ _ _ E).
  rewrite (SFcompare_refl _ _ _ (SFcompare_antisym _ _ _ E)). split; reflexivity.
Qed.

(** A number that is 1 or more is not 0. *)
Lemma one_leb_not_zero :
  forall q : Number, (1 <=? q)%float = true -> (q =? 0)%float = false.
Proof.
  intros q. rewrite leb_spec, eqb_spec. unfold SFleb, SFeqb.
  change (Prim2SF 1) with (S754_finite false 4503599627370496 (-52)).
  change (Prim2SF 0) with (S754_zero false).
  destruct (Prim2SF q) as [s|s| |s m e]; simpl; try discriminate.
  - destruct s; reflexivity.
  - destruct s; reflexivity.
Qed.

(** A value that the path takes as a number is not null. *)
Lemma castTo_not_null :
  forall (js : Coercions) (v : Raw) (x : Number),
    castNumber js v = CastTo x -> isNull v = false.
Proof.
  intros js v x H. destruct v; [discriminate H | reflexivity..].
Qed.

(** The cast of a number that is not NaN is that number. *)
Lemma castNumber_Num :
  forall (js : Coercions) (q : Number), isNaN q = false -> castNumber js (Num q) = CastTo q.
Proof.
  intros js q H. unfold castNumber. rewrite H. reflexivity.
Qed.

(** A number that is 1 or more passes the checks of the cart handlers. *)
Lemma one_leb_accepted :
  forall (js : Coercions) (q : Number),
    (1 <=? q)%float = true ->
    falsy (Num q) = false /\
    (toNumber js (Num q) <? 1)%float = false /\
    castNumber js (Num q) = CastTo q.
Proof.
  intros js q H.
  destruct (leb_number _ _ H) as [_ Hn].
  split; [|split].
  - unfold falsy. rewrite (one_leb_not_zero q H), Hn. reflexivity.
  - simpl. apply leb_not_ltb, H.
  - apply castNumber_Num, Hn.
Qed.

(** ** Placing an order: the early exits *)

(** C3. When the cart of the user holds no line, [createOrder] answers 400
    with the empty-cart message and the store is the one it started from:
    no order is created and no inventory record is written. *)
Theorem createOrder_empty_cart :
  forall (user : option Claims) (userId : UserId) (s : Store),
    authenticated user = Some userId ->
    Cart.find userId s = [] ->
    createOrder user s = (Fail 400 cart_is_empty, s).
Proof.
  intros user userId s Hauth Hcart.
  unfold createOrder.
  rewrite Hauth, Hcart.
  reflexivity.
Qed.

(** User 1 has no cart line in [Examples.oneOrder]. *)
Lemma createOrder_empty_cart_witness :
  createOrder Examples.alice Examples.oneOrder
  = (Fail 400 cart_is_empty, Examples.oneOrder).
Proof.
  apply (createOrder_empty_cart Examples.alice 1%nat Examples.oneOrder);
    reflexivity.
Defined.

(** The loop over lines that are all stale does nothing but clear the
    cart. *)
Lemma forEachCartItem_all_stale :
  forall (userId : UserId) (s0 : Store) (lines : list cartSchema.doc)
         (createdOrders : list (option PopulatedOrder)) (s : Store),
    forallb (stale s0) lines = true ->
    forEachCartItem userId (map (Cart.populate s0) lines) createdOrders s
    = (Json 201 createdOrders, snd (Cart.deleteMany userId s)).
Proof.
  intros userId s0 lines.
  induction lines as [|c lines IH]; intros createdOrders s Hstale.
  - reflexivity.
  - simpl in Hstale. apply andb_true_iff in Hstale as [Hc Hrest].
    simpl. unfold stale in Hc.
    destruct (Product.findById (cartSchema.productId c) s0); [discriminate|].
    apply IH, Hrest.
Qed.

(** What the handler does with a cart whose lines are all stale, whatever
    the user and the store: when the cart of the user is not empty and
    every line refers to a product that no longer exists, [createOrder]
    skips every line, deletes the lines of the user and answers 201 with an
    empty list of orders; products, inventory and orders are untouched. *)
Lemma createOrder_stale_cart :
  forall (user : option Claims) (userId : UserId) (s : Store),
    authenticated user = Some userId ->
    Cart.find userId s <> [] ->
    forallb (stale s) (Cart.find userId s) = true ->
    createOrder user s
    = (Json 201 [],
       with_carts (filter (fun c => negb (Cart.ofUser userId c)) (carts s)) s).
Proof.
  intros user userId s Hauth Hne Hstale.
  unfold createOrder. rewrite Hauth.
  destruct (Cart.find userId s) as [|c lines] eqn:Hfind; [congruence|].
  cbv zeta.
  destruct (map (Cart.populate s) (c :: lines)) eqn:Hmap; [discriminate|].
  rewrite <- Hmap.
  rewrite (forEachCartItem_all_stale userId s (c :: lines) [] s Hstale).
  reflexivity.
Qed.

(** The only cart line of user 1 in [Examples.staleCart] is stale. *)
Lemma createOrder_stale_cart_witness :
  createOrder Examples.alice Examples.staleCart
  = (Json 201 [],
     with_carts
       (filter (fun c => negb (Cart.ofUser 1 c)) (carts Examples.staleCart))
       Examples.staleCart).
Proof.
  apply (createOrder_stale_cart Examples.alice 1%nat Examples.staleCart).
  - reflexivity.
  - vm_compute. discriminate.
  - reflexivity.
Defined.

(** C4 at the cart of user 1 in [Examples.staleCart]. The cart is not
    empty and its only line refers to a product that was deleted: the
    handler skips the line, so no order is created, and then answers 201
    with an empty list of orders instead of the empty-cart failure that it
    gives for a cart without lines; the cart line is deleted and the rest
    of the store is as it was. *)
Theorem createOrder_stale_cart_is_success :
  let (out, s') := createOrder Examples.alice Examples.staleCart in
  Cart.find 1 Examples.staleCart = [Examples.line 30 1 10 2] /\
  Product.findById 10 Examples.staleCart = None /\
  out = Json 201 [] /\
  out <> Fail 400 cart_is_empty /\
  Cart.find 1 s' = [] /\
  orders s' = orders Examples.staleCart /\
  inventories s' = inventories Examples.staleCart.
Proof.
  vm_compute. repeat split. discriminate.
Qed.

(** ** Placing an order: a line that cannot be served *)

(** C1 at the two-line cart. The first line (2 of product A, 5 in stock) is
    served, the second (1 of product B, none in stock) is refused: the
    answer is the insufficient-inventory failure for product B, and yet the
    stock of A went down to 3 and the order for A is in the store. The cart
    is as it was. *)
Theorem createOrder_partial_commit :
  let (out, s') := createOrder Examples.alice Examples.twoLines in
  out = Fail 400 (InsufficientInventory "Product B" 0 1) /\
  Inventory.findOne 10 Examples.twoLines = Some (Examples.inventoryOf 20 10 5) /\
  Inventory.findOne 10 s' = Some (Examples.inventoryOf 20 10 3) /\
  orders Examples.twoLines = [] /\
  orders s'
  = [{| orderSchema._id := 40; orderSchema.userId := 1;
        orderSchema.productId := 10; orderSchema.quantity := 2;
        orderSchema.totalPrice := 100; orderSchema.status := "pending" |}] /\
  carts s' = carts Examples.twoLines.
Proof.
  vm_compute. repeat split.
Qed.

(** ** Placing an order: the orders of a successful call *)

Lemma Order_create_inr :
  forall u pid q tp st s o s1,
    Order.createOrder u pid q tp st s = inr (o, s1) ->
    o = {| orderSchema._id := nextId s; orderSchema.userId := u;
           orderSchema.productId := pid; orderSchema.quantity := q;
           orderSchema.totalPrice := tp; orderSchema.status := st |} /\
    s1 = bump (with_orders (orders s ++ [o]) s).
Proof.
  intros u pid q tp st s o s1 H.
  unfold Order.createOrder in H.
  destruct (Order.validate q tp st); [discriminate|].
  inversion H; subst. split; reflexivity.
Qed.

Lemma Inventory_save_inr :
  forall d s s2,
    Inventory.save d s = inr s2 ->
    (0 <=? inventorySchema.quantity d)%float = true /\
    s2 = with_inventories
           (map (fun x => if Nat.eqb (inventorySchema._id x) (inventorySchema._id d)
                          then inventorySchema.set_quantity (inventorySchema.quantity d) x
                          else x)
                (inventories s)) s.
Proof.
  intros d s s2 H.
  unfold Inventory.save, Inventory.validate in H.
  destruct (0 <=? inventorySchema.quantity d)%float eqn:E; [|discriminate].
  inversion H. split; reflexivity.
Qed.

(** An order found by the id it was just given is the order itself, when
    the ids in the collection came from the counter. *)
Lemma find_fresh_order :
  forall (l : list orderSchema.doc) (n : ObjectId) (o : orderSchema.doc),
    forallb (fun x => Nat.ltb (orderSchema._id x) n) l = true ->
    orderSchema._id o = n ->
    find (fun x => Nat.eqb (orderSchema._id x) n) (l ++ [o]) = Some o.
Proof.
  induction l as [|x l IH]; intros n o Hl Ho; simpl.
  - rewrite Ho, Nat.eqb_refl. reflexivity.
  - simpl in Hl. apply andb_true_iff in Hl as [Hx Hl].
    apply Nat.ltb_lt in Hx.
    destruct (Nat.eqb (orderSchema._id x) n) eqn:E.
    + apply Nat.eqb_eq in E. lia.
    + apply IH; assumption.
Qed.

Lemma freshOrderIds_after_create :
  forall s o,
    freshOrderIds s = true ->
    orderSchema._id o = nextId s ->
    forallb (fun x => Nat.ltb (orderSchema._id x) (S (nextId s))) (orders s ++ [o])
    = true.
Proof.
  intros s o Hs Ho. unfold freshOrderIds in Hs.
  rewrite forallb_app. apply andb_true_iff. split.
  - rewrite forallb_forall in *. intros x Hx.
    specialize (Hs x Hx). apply Nat.ltb_lt in Hs. apply Nat.ltb_lt. lia.
  - simpl. rewrite Ho, andb_true_r. apply Nat.ltb_lt. lia.
Qed.

(** The lines that the loop does not skip, read off the populated cart. *)
Lemma survivors_surviving :
  forall (s : Store) (lines : list cartSchema.doc),
    survivors (map (Cart.populate s) lines) = surviving (products s) lines.
Proof.
  intros s lines. induction lines as [|line rest IH]; [reflexivity|].
  simpl. unfold Product.findById.
  destruct (find _ (products s)); rewrite IH; reflexivity.
Qed.

(** The product of a surviving line is the product that the catalogue
    gives for the [productId] of its order. *)
Lemma surviving_found :
  forall (catalogue : list productSchema.doc) (lines : list cartSchema.doc)
         (line : cartSchema.doc) (p : productSchema.doc),
    In (line, p) (surviving catalogue lines) ->
    find (fun x => Nat.eqb (productSchema._id x) (productSchema._id p)) catalogue
    = Some p.
Proof.
  intros catalogue lines line p. induction lines as [|l rest IH]; [intros []|].
  simpl.
  destruct (find (fun x => Nat.eqb (productSchema._id x) (cartSchema.productId l))
                 catalogue) as [p0|] eqn:Hfind; [|exact IH].
  intros [E|Hin]; [|exact (IH Hin)].
  inversion E; subst l p0.
  pose proof (find_some _ _ Hfind) as [_ Hid]. apply Nat.eqb_eq in Hid.
  rewrite Hid. exact Hfind.
Qed.

(** What a run of the loop that ends in a 201 answer has done. *)
Lemma forEachCartItem_success :
  forall (userId : UserId) (cartItems : eventLoop.Items)
         (createdOrders : list (option PopulatedOrder)) (s : Store)
         (c : nat) (data : list (option PopulatedOrder)) (s' : Store),
    freshOrderIds s = true ->
    forEachCartItem userId cartItems createdOrders s = (Json c data, s') ->
    let created := ordersFor userId (nextId s) (survivors cartItems) in
    orders s' = (orders s ++ map fst created)%list /\
    data = (createdOrders
            ++ map (fun o => Some (Order.populate s o)) (map fst created))%list /\
    products s' = products s.
Proof.
  intros userId cartItems.
  induction cartItems as [|[cartItem [product|]] rest IH];
    intros createdOrders s c data s' Hfresh Hrun; simpl in Hrun.
  - inversion Hrun; subst. simpl.
    rewrite !app_nil_r. repeat split.
  - destruct (Inventory.findOne (productSchema._id product) s) as [inventory|];
      [|discriminate].
    destruct (inventorySchema.quantity inventory <? cartSchema.quantity cartItem)%float;
      [discriminate|].
    destruct (Order.createOrder userId (productSchema._id product)
                (cartSchema.quantity cartItem)
                (productSchema.price product * cartSchema.quantity cartItem)%float
                "pending" s) as [e|[order s1]] eqn:Hcreate; [discriminate|].
    apply Order_create_inr in Hcreate as [Horder Hs1].
    destruct (Inventory.save _ s1) as [e|s2] eqn:Hsave; [discriminate|].
    apply Inventory_save_inr in Hsave as [_ Hs2].
    assert (Hid : orderSchema._id order = nextId s) by (rewrite Horder; reflexivity).
    assert (Horders2 : orders s2 = (orders s ++ [order])%list)
      by (rewrite Hs2, Hs1; reflexivity).
    assert (Hnext2 : nextId s2 = S (nextId s)) by (rewrite Hs2, Hs1; reflexivity).
    assert (Hprod2 : products s2 = products s) by (rewrite Hs2, Hs1; reflexivity).
    assert (Hfresh2 : freshOrderIds s2 = true).
    { unfold freshOrderIds. rewrite Horders2, Hnext2.
      apply freshOrderIds_after_create; assumption. }
    assert (Hfound : findPopulated (orderSchema._id order) s2
                     = Some (Order.populate s order)).
    { unfold findPopulated, Order.findById. rewrite Horders2, Hid.
      rewrite (find_fresh_order (orders s) (nextId s) order Hfresh Hid).
      simpl. unfold Order.populate, Product.findById. rewrite Hprod2. reflexivity. }
    rewrite Hfound in Hrun.
    destruct (IH _ _ _ _ _ Hfresh2 Hrun) as (Ho & Hd & Hp).
    cbn [survivors ordersFor map fst]. rewrite Hnext2 in Ho, Hd.
    rewrite <- Horder. repeat split.
    + rewrite Ho, Horders2, <- app_assoc. reflexivity.
    + rewrite Hd, <- app_assoc. simpl. do 2 f_equal.
      apply map_ext. intros o. unfold Order.populate, Product.findById.
      rewrite Hprod2. reflexivity.
    + rewrite Hp. exact Hprod2.
  - exact (IH _ _ _ _ _ Hfresh Hrun).
Qed.

(** C5. When [createOrder] answers 201, the orders collection has grown at
    its end by exactly one order per cart line of the user whose product is
    in the catalogue, in the order of the cart lines: each has a new id,
    the user, the product and the quantity of its line, as total price the
    price of the product times that quantity (the product of the two
    Numbers, as JavaScript computes it), and the status pending.  The data
    of the answer are these orders, in that order, each with the product
    of its line. *)
Theorem createOrder_success_orders :
  forall (user : option Claims) (userId : UserId) (s : Store)
         (data : list (option PopulatedOrder)) (s' : Store),
    authenticated user = Some userId ->
    freshOrderIds s = true ->
    createOrder user s = (Json 201 data, s') ->
    let lines :=
      surviving (products s)
        (filter (fun line => Nat.eqb (cartSchema.userId line) userId) (carts s)) in
    let created := ordersFor userId (nextId s) lines in
    orders s' = (orders s ++ map fst created)%list /\
    data = map (fun entry => Some (fst entry, Some (snd entry))) created.
Proof.
  intros user userId s data s' Hauth Hfresh Hrun lines created.
  unfold createOrder in Hrun. rewrite Hauth in Hrun. cbv zeta in Hrun.
  destruct (map (Cart.populate s) (Cart.find userId s)) as [|i items] eqn:Hitems;
    [discriminate|].
  destruct (forEachCartItem_success _ _ _ _ _ _ _ Hfresh Hrun) as (Ho & Hd & _).
  rewrite <- Hitems, survivors_surviving in Ho, Hd.
  change (surviving (products s) (Cart.find userId s)) with lines in Ho, Hd.
  fold created in Ho, Hd.
  split; [exact Ho|].
  rewrite Hd. simpl. rewrite map_map.
  assert (Hin : forall entry, In entry created ->
            exists line, In (line, snd entry) lines /\
                         orderSchema.productId (fst entry)
                         = productSchema._id (snd entry)).
  { subst created. clear. generalize (nextId s).
    induction lines as [|[line p] rest IH]; intros n entry; [intros []|].
    simpl. intros [E|Hin].
    - subst entry. exists line. split; [left|]; reflexivity.
    - destruct (IH _ _ Hin) as (l & Hl & E). exists l. split; [right|]; assumption. }
  apply map_ext_in. intros entry Hentry.
  destruct (Hin entry Hentry) as (line & Hline & Hpid).
  unfold Order.populate, Product.findById. rewrite Hpid.
  subst lines. rewrite (surviving_found _ _ _ _ Hline). reflexivity.
Qed.

(** User 2 orders the two lines of the cart in [Examples.oneOrder]: the
    orders 40 and 41 are created.  User 1 orders three units of product C,
    at 19.99 each, and three of product D, at 99.99 each: the total price
    of the first order is the Number 59.97 and that of the second, the
    product of the Numbers 99.99 and 3, is 299.96999999999997. *)
Lemma createOrder_success_orders_witness :
  orders (snd (createOrder Examples.bob Examples.oneOrder))
  = (orders Examples.oneOrder
     ++ [{| orderSchema._id := 40; orderSchema.userId := 2;
            orderSchema.productId := 11; orderSchema.quantity := 1;
            orderSchema.totalPrice := 30; orderSchema.status := "pending" |};
         {| orderSchema._id := 41; orderSchema.userId := 2;
            orderSchema.productId := 10; orderSchema.quantity := 1;
            orderSchema.totalPrice := 50; orderSchema.status := "pending" |}])%list /\
  fst (createOrder Examples.bob Examples.oneOrder)
  = Json 201
      [Some ({| orderSchema._id := 40; orderSchema.userId := 2;
                orderSchema.productId := 11; orderSchema.quantity := 1;
                orderSchema.totalPrice := 30; orderSchema.status := "pending" |},
             Some Examples.productB);
       Some ({| orderSchema._id := 41; orderSchema.userId := 2;
                orderSchema.productId := 10; orderSchema.quantity := 1;
                orderSchema.totalPrice := 50; orderSchema.status := "pending" |},
             Some Examples.productA)] /\
  orders (snd (createOrder Examples.alice Examples.decimalPrices))
  = [{| orderSchema._id := 40; orderSchema.userId := 1;
        orderSchema.productId := 12; orderSchema.quantity := 3;
        orderSchema.totalPrice := 59.97; orderSchema.status := "pending" |};
     {| orderSchema._id := 41; orderSchema.userId := 1;
        orderSchema.productId := 13; orderSchema.quantity := 3;
        orderSchema.totalPrice := 299.96999999999997;
        orderSchema.status := "pending" |}].
Proof.
  destruct (createOrder_success_orders Examples.bob 2%nat Examples.oneOrder
              (match fst (createOrder Examples.bob Examples.oneOrder) with
               | Json _ data => data
               | _ => []
               end)
              (snd (createOrder Examples.bob Examples.oneOrder))
              eq_refl eq_refl eq_refl) as (Ho & Hd).
  destruct (createOrder_success_orders Examples.alice 1%nat Examples.decimalPrices
              (match fst (createOrder Examples.alice Examples.decimalPrices) with
               | Json _ data => data
               | _ => []
               end)
              (snd (createOrder Examples.alice Examples.decimalPrices))
              eq_refl eq_refl eq_refl) as (Ho' & _).
  split; [exact Ho|]. split; [|exact Ho'].
  transitivity
    (Json 201 (A := list (option PopulatedOrder))
       (match fst (createOrder Examples.bob Examples.oneOrder) with
        | Json _ data => data
        | _ => []
        end)); [reflexivity|].
  rewrite Hd. reflexivity.
Defined.

(** ** Changing the status of an order *)

Lemma includes_In :
  forall (x : string) (l : list string), includes x l = true <-> In x l.
Proof.
  intros x l. unfold includes. rewrite existsb_exists. split.
  - intros (y & Hy & E). apply String.eqb_eq in E. subst. exact Hy.
  - intros H. exists x. split; [exact H | apply String.eqb_refl].
Qed.

Lemma set_status_sameButStatus :
  forall (st : string) (o : orderSchema.doc),
    sameButStatus o (orderSchema.set_status st o).
Proof.
  intros st o. unfold sameButStatus. simpl. repeat split.
Qed.

Lemma sameButStatus_refl : forall o, sameButStatus o o.
Proof.
  intros o. unfold sameButStatus. repeat split.
Qed.

Lemma sameButStatus_trans :
  forall a b c, sameButStatus a b -> sameButStatus b c -> sameButStatus a c.
Proof.
  unfold sameButStatus. intros a b c (H1 & H2 & H3 & H4 & H5) (K1 & K2 & K3 & K4 & K5).
  repeat split; congruence.
Qed.

Lemma Forall2_status_map :
  forall (f : orderSchema.doc -> bool) (st : string) (l : list orderSchema.doc),
    Forall2 sameButStatus l
      (map (fun x => if f x then orderSchema.set_status st x else x) l).
Proof.
  intros f st l. induction l as [|x l IH]; simpl; constructor; [|exact IH].
  destruct (f x); [apply set_status_sameButStatus | apply sameButStatus_refl].
Qed.

Lemma rejectedStatus_outside :
  forall st, ~ In st orderSchema.statusEnum -> rejectedStatus (Some st) = true.
Proof.
  intros st Hout. unfold rejectedStatus. apply orb_true_iff. right.
  apply negb_true_iff. destruct (includes st validStatuses) eqn:E; [|reflexivity].
  apply includes_In in E. exfalso. exact (Hout E).
Qed.

Lemma rejectedStatus_inside :
  forall st, In st orderSchema.statusEnum -> rejectedStatus (Some st) = false.
Proof.
  intros st Hin. unfold rejectedStatus.
  assert (Hinc : includes st validStatuses = true) by (apply includes_In; exact Hin).
  rewrite Hinc. destruct (String.eqb st "") eqn:E; [|reflexivity].
  apply String.eqb_eq in E. subst st. discriminate Hinc.
Qed.

(** C8. A status that is absent or not one of pending, processing, shipped,
    delivered, cancelled leaves the store unchanged, and for an
    administrator and a well-formed order id the answer is 400 with the
    invalid-status message.  A status of the enumeration, sent by an
    administrator with a well-formed id, gives 404 and an unchanged store
    when no order has the id, and otherwise rewrites the status of the
    order with that id and nothing else: products, inventory and carts are
    the same, and every order keeps its id, user, product, quantity and
    total price. *)
Theorem updateOrderStatus_effect :
  forall (user : option Claims) (id : RawId) (status : option string) (s : Store),
    let r := updateOrderStatus user id status s in
    ((forall st, status = Some st -> ~ In st orderSchema.statusEnum) ->
     snd r = s /\
     (forall i, isAdmin user = true -> id = WellFormed i ->
        fst r = Fail 400 invalid_status)) /\
    (forall st i,
       status = Some st -> In st orderSchema.statusEnum ->
       isAdmin user = true -> id = WellFormed i ->
       (Order.findById i s = None ->
        r = (Fail 404 (Msg "Order not found"), s)) /\
       (forall o, Order.findById i s = Some o ->
          fst r = Json 200 (Order.populate s (orderSchema.set_status st o)) /\
          orders (snd r)
          = map (fun x => if Nat.eqb (orderSchema._id x) i
                          then orderSchema.set_status st x else x) (orders s) /\
          Forall2 sameButStatus (orders s) (orders (snd r)) /\
          sameProducts s (snd r) /\ sameInventories s (snd r) /\
          sameCarts s (snd r))).
Proof.
  intros user id status s r. subst r. split.
  - intros Hout.
    assert (Hrej : rejectedStatus status = true).
    { destruct status as [st|]; [|reflexivity].
      apply rejectedStatus_outside. exact (Hout st eq_refl). }
    split.
    + unfold updateOrderStatus.
      destruct (negb (isAdmin user)); [reflexivity|].
      destruct id as [|i]; [reflexivity|].
      destruct status as [st|]; [|reflexivity].
      rewrite Hrej. reflexivity.
    + intros i Hadmin Hid. subst id.
      unfold updateOrderStatus. rewrite Hadmin. simpl negb. cbv iota.
      destruct status as [st|]; [|reflexivity].
      rewrite Hrej. reflexivity.
  - intros st i Hst Hin Hadmin Hid. subst status id.
    unfold updateOrderStatus. rewrite Hadmin. simpl negb. cbv iota.
    rewrite (rejectedStatus_inside st Hin).
    unfold Order.findByIdAndUpdate.
    apply includes_In in Hin. rewrite Hin. simpl negb. cbv iota.
    split.
    + intros Hnone. rewrite Hnone. reflexivity.
    + intros o Hsome. rewrite Hsome. simpl.
      repeat split. apply Forall2_status_map.
Qed.

(** An unknown status, an unknown order and a valid update on [Examples.oneOrder]. *)
Lemma updateOrderStatus_effect_witness :
  updateOrderStatus Examples.root (WellFormed 33) (Some "paid") Examples.oneOrder
  = (Fail 400 invalid_status, Examples.oneOrder) /\
  updateOrderStatus Examples.root (WellFormed 34) (Some "shipped") Examples.oneOrder
  = (Fail 404 (Msg "Order not found"), Examples.oneOrder) /\
  map orderSchema.status
    (orders (snd (updateOrderStatus Examples.root (WellFormed 33) (Some "shipped")
                    Examples.oneOrder)))
  = ["shipped"].
Proof.
  split; [|split].
  - destruct (updateOrderStatus_effect Examples.root (WellFormed 33) (Some "paid")
                Examples.oneOrder) as [H _].
    destruct H as [Hs Hr].
    + intros st E. inversion E; subst st. vm_compute.
      intros H; repeat (destruct H as [H|H]; [discriminate H|]); exact H.
    + specialize (Hr 33%nat eq_refl eq_refl).
      rewrite (surjective_pairing (updateOrderStatus _ _ _ _)), Hs, Hr. reflexivity.
  - destruct (updateOrderStatus_effect Examples.root (WellFormed 34) (Some "shipped")
                Examples.oneOrder) as [_ H].
    destruct (H "shipped" 34%nat eq_refl) as [H' _];
      [vm_compute; tauto | reflexivity | reflexivity |].
    apply H'. reflexivity.
  - destruct (updateOrderStatus_effect Examples.root (WellFormed 33) (Some "shipped")
                Examples.oneOrder) as [_ H].
    destruct (H "shipped" 33%nat eq_refl) as [_ H'];
      [vm_compute; tauto | reflexivity | reflexivity |].
    destruct (H' _ eq_refl) as (_ & Ho & _). rewrite Ho. reflexivity.
Defined.

(** ** Clearing the cart *)

Lemma filter_negb_none :
  forall (A : Type) (p : A -> bool) (l : list A),
    filter p l = [] -> filter (fun x => negb (p x)) l = l.
Proof.
  intros A p l. induction l as [|x l IH]; simpl; intros H; [reflexivity|].
  destruct (p x); [discriminate|]. simpl. rewrite IH; [reflexivity | exact H].
Qed.

Lemma filter_after_negb :
  forall (A : Type) (p : A -> bool) (l : list A),
    filter p (filter (fun x => negb (p x)) l) = [].
Proof.
  intros A p l. induction l as [|x l IH]; simpl; [reflexivity|].
  destruct (p x) eqn:E; simpl; [exact IH|]. rewrite E. exact IH.
Qed.

Lemma with_carts_same : forall s, with_carts (carts s) s = s.
Proof. intros []. reflexivity. Qed.

(** C9. For an authenticated user, [clearCart] answers 200 with the number
    of cart lines of that user as [deletedCount]; the lines that remain are
    exactly the lines of the other users, in their order, and nothing else
    in the store changes.  On a cart that is already empty it answers 200
    with count 0 and leaves the store as it is; so does a second call in
    a row. *)
Theorem clearCart_effect :
  forall (user : option Claims) (userId : UserId) (s : Store),
    authenticated user = Some userId ->
    let cleared (n : nat) :=
      Json 200 {| cartController.message := "Cart cleared successfully";
                  cartController.deletedCount := Some n |} in
    let s' := snd (cartController.clearCart user s) in
    fst (cartController.clearCart user s)
    = cleared (List.length (Cart.find userId s)) /\
    carts s' = filter (fun c => negb (Nat.eqb (cartSchema.userId c) userId)) (carts s) /\
    (forall c, In c (carts s') <-> In c (carts s) /\ cartSchema.userId c <> userId) /\
    sameProducts s s' /\ sameInventories s s' /\ sameOrders s s' /\
    nextId s' = nextId s /\
    (Cart.find userId s = [] -> cartController.clearCart user s = (cleared 0%nat, s)) /\
    cartController.clearCart user s' = (cleared 0%nat, s').
Proof.
  intros user userId s Hauth cleared s'. subst s' cleared.
  assert (Hempty : forall t, Cart.find userId t = [] ->
            cartController.clearCart user t
            = (Json 200 {| cartController.message := "Cart cleared successfully";
                           cartController.deletedCount := Some 0%nat |}, t)).
  { intros t Ht. unfold cartController.clearCart, Cart.deleteMany.
    rewrite Hauth, Ht. simpl. do 2 f_equal.
    unfold Cart.find in Ht. rewrite (filter_negb_none _ _ _ Ht).
    apply with_carts_same. }
  assert (Hrun : cartController.clearCart user s
                 = (Json 200 {| cartController.message := "Cart cleared successfully";
                                cartController.deletedCount
                                := Some (List.length (Cart.find userId s)) |},
                    with_carts (filter (fun c => negb (Cart.ofUser userId c)) (carts s)) s)).
  { unfold cartController.clearCart. rewrite Hauth. reflexivity. }
  rewrite Hrun. simpl.
  split; [reflexivity|]. split; [reflexivity|]. split.
  { intros c. rewrite filter_In. unfold Cart.ofUser.
    rewrite negb_true_iff, Nat.eqb_neq. tauto. }
  split; [reflexivity|]. split; [reflexivity|]. split; [reflexivity|].
  split; [reflexivity|]. split; [rewrite <- Hrun; exact (Hempty s)|].
  apply Hempty. unfold Cart.find. simpl. apply filter_after_negb.
Qed.

(** User 2 clears a cart of two lines, twice. *)
Lemma clearCart_effect_witness :
  fst (cartController.clearCart Examples.bob Examples.oneOrder)
  = Json 200 {| cartController.message := "Cart cleared successfully";
                cartController.deletedCount := Some 2%nat |} /\
  cartController.clearCart Examples.bob
    (snd (cartController.clearCart Examples.bob Examples.oneOrder))
  = (Json 200 {| cartController.message := "Cart cleared successfully";
                 cartController.deletedCount := Some 0%nat |},
     snd (cartController.clearCart Examples.bob Examples.oneOrder)).
Proof.
  destruct (clearCart_effect Examples.bob 2%nat Examples.oneOrder eq_refl)
    as (H1 & _ & _ & _ & _ & _ & _ & _ & H2).
  split; [exact H1 | exact H2].
Defined.

(** ** What each handler leaves alone *)

Lemma addToCart_frame :
  forall js user productId quantity s,
    let s' := snd (cartController.addToCart js user productId quantity s) in
    sameProducts s s' /\ sameInventories s s' /\ sameOrders s s'.
Proof.
  intros. subst s'.
  unfold cartController.addToCart, Cart.createCart, Cart.assign, Cart.save. frame.
Qed.

Lemma updateCartItem_frame :
  forall js user itemId quantity s,
    let s' := snd (cartController.updateCartItem js user itemId quantity s) in
    sameProducts s s' /\ sameInventories s s' /\ sameOrders s s'.
Proof.
  intros. subst s'.
  unfold cartController.updateCartItem, Cart.assign, Cart.save. frame.
Qed.

Lemma removeFromCart_frame :
  forall user itemId s,
    let s' := snd (cartController.removeFromCart user itemId s) in
    sameProducts s s' /\ sameInventories s s' /\ sameOrders s s'.
Proof.
  intros. subst s'.
  unfold cartController.removeFromCart, Cart.findOneAndDelete in *.
  unfold sameProducts, sameInventories, sameOrders.
  destruct (authenticated user); [|repeat split].
  destruct itemId; [repeat split|].
  destruct (Cart.findOneById i u s); repeat split.
Qed.

Lemma clearCart_frame :
  forall user s,
    let s' := snd (cartController.clearCart user s) in
    sameProducts s s' /\ sameInventories s s' /\ sameOrders s s'.
Proof.
  intros. subst s'.
  unfold cartController.clearCart, Cart.deleteMany. frame.
Qed.

(** What the inventory model writes. *)
Lemma Inventory_createInventory_inr :
  forall js pid quantity s d s',
    Inventory.createInventory js pid quantity s = inr (d, s') ->
    (0 <=? inventorySchema.quantity d)%float = true /\
    Inventory.findOne pid s = None /\
    d = {| inventorySchema._id := nextId s; inventorySchema.productId := pid;
           inventorySchema.quantity := inventorySchema.quantity d |} /\
    s' = bump (with_inventories (inventories s ++ [d]) s).
Proof.
  intros js pid quantity s d s' H. unfold Inventory.createInventory in H.
  destruct quantity as [v|]; [|discriminate].
  destruct (castNumber js v) as [q| |]; try discriminate.
  unfold Inventory.validate in H.
  destruct (0 <=? q)%float eqn:Hq; [|discriminate].
  destruct (Inventory.findOne pid s); [discriminate|].
  inversion H; subst. simpl. repeat split. exact Hq.
Qed.

Lemma Inventory_findOneAndUpdate_inr :
  forall js pid quantity s r s',
    Inventory.findOneAndUpdate js pid quantity s = inr (r, s') ->
    (r = None /\ s' = s) \/
    exists q d,
      castNumber js quantity = CastTo q /\
      (0 <=? q)%float = true /\
      Inventory.findOne pid s = Some d /\
      r = Some (inventorySchema.set_quantity q d) /\
      s' = with_inventories
             (map (fun x => if Nat.eqb (inventorySchema._id x) (inventorySchema._id d)
                            then inventorySchema.set_quantity q x else x)
                  (inventories s)) s.
Proof.
  intros js pid quantity s r s' H. unfold Inventory.findOneAndUpdate in H.
  destruct (castNumber js quantity) as [q| |]; try discriminate.
  unfold Inventory.validate in H.
  destruct (0 <=? q)%float eqn:Hq; [|discriminate].
  destruct (Inventory.findOne pid s) as [d|]; inversion H; subst.
  - right. exists q, d. repeat split. exact Hq.
  - left. split; reflexivity.
Qed.

Lemma Inventory_castUpdate_inr :
  forall js u pid q,
    Inventory.castUpdate js u = inr (pid, q) ->
    (forall x, q = Some x -> (0 <=? x)%float = true) /\
    (q = None <-> Inventory.u_quantity u = None).
Proof.
  intros js u pid q H. unfold Inventory.castUpdate in H.
  assert (Hq : forall pid0,
            match Inventory.u_quantity u with
            | None => inr (pid0, None)
            | Some v =>
                match castNumber js v with
                | CastTo q0 =>
                    match Inventory.validate q0 with
                    | Some e => inl e
                    | None => inr (pid0, Some q0)
                    end
                | CastNull => inl (ValidationError "quantity")
                | CastFails => inl (CastError "quantity")
                end
            end = inr (pid, q) ->
            (forall x, q = Some x -> (0 <=? x)%float = true) /\
            (q = None <-> Inventory.u_quantity u = None)).
  { intros pid0 K. destruct (Inventory.u_quantity u) as [v|].
    - destruct (castNumber js v) as [q0| |]; try discriminate.
      unfold Inventory.validate in K.
      destruct (0 <=? q0)%float eqn:E; [|discriminate].
      inversion K; subst. split.
      + intros x Hx. inversion Hx; subst. exact E.
      + split; discriminate.
    - inversion K; subst. split; [discriminate | tauto]. }
  destruct (Inventory.u_productId u) as [[place [|p]]|]; try discriminate;
    exact (Hq _ H).
Qed.

Lemma Inventory_findByIdAndUpdate_inr :
  forall js i u s r s',
    Inventory.findByIdAndUpdate js i u s = inr (r, s') ->
    (r = None /\ s' = s) \/
    exists pid q d,
      Inventory.castUpdate js u = inr (pid, q) /\
      (q = None \/ Inventory.u_operators u = None) /\
      Inventory.findById i s = Some d /\
      match pid with Some p => Inventory.clashes p d s | None => false end = false /\
      r = Some (Inventory.apply pid q (Inventory.u_operators u) d) /\
      s' = with_inventories
             (map (fun x => if Nat.eqb (inventorySchema._id x) i
                            then Inventory.apply pid q (Inventory.u_operators u) x
                            else x)
                  (inventories s)) s.
Proof.
  intros js i u s r s' H. unfold Inventory.findByIdAndUpdate in H.
  destruct (Inventory.castUpdate js u) as [e|[pid q]] eqn:Hcast; [discriminate|].
  assert (Hrest :
    match Inventory.findById i s with
    | None => inr (None, s)
    | Some d =>
        if match pid with Some p => Inventory.clashes p d s | None => false end
        then inl (DuplicateKey "productId")
        else
          inr (Some (Inventory.apply pid q (Inventory.u_operators u) d),
               with_inventories
                 (map (fun x => if Nat.eqb (inventorySchema._id x) i
                                then Inventory.apply pid q (Inventory.u_operators u) x
                                else x)
                      (inventories s)) s)
    end = inr (r, s') ->
    (q = None \/ Inventory.u_operators u = None) ->
    (r = None /\ s' = s) \/
    exists pid0 q0 d,
      inr (pid, q) = inr (A := Exn) (pid0, q0) /\
      (q0 = None \/ Inventory.u_operators u = None) /\
      Inventory.findById i s = Some d /\
      match pid0 with Some p => Inventory.clashes p d s | None => false end = false /\
      r = Some (Inventory.apply pid0 q0 (Inventory.u_operators u) d) /\
      s' = with_inventories
             (map (fun x => if Nat.eqb (inventorySchema._id x) i
                            then Inventory.apply pid0 q0 (Inventory.u_operators u) x
                            else x)
                  (inventories s)) s).
  { intros K Hone. destruct (Inventory.findById i s) as [d|].
    - destruct (match pid with Some p => Inventory.clashes p d s | None => false end)
        eqn:Hclash; [discriminate|].
      inversion K; subst. right. exists pid, q, d. repeat split; assumption.
    - inversion K; subst. left. split; reflexivity. }
  destruct q as [x|], (Inventory.u_operators u) as [f|] eqn:Hops;
    try discriminate; apply Hrest; auto.
Qed.

Lemma createInventory_frame :
  forall js user productId quantity s,
    let s' := snd (inventoryController.createInventory js user productId quantity s) in
    sameProducts s s' /\ sameCarts s s' /\ sameOrders s s'.
Proof.
  intros. subst s'.
  unfold inventoryController.createInventory.
  unfold sameProducts, sameCarts, sameOrders.
  destruct (negb (isAdmin user)); [repeat split|].
  destruct productId as [|pid]; [repeat split|].
  destruct (Product.findById pid s); [|repeat split].
  destruct (Inventory.findOne pid s) eqn:Hone; [repeat split|].
  destruct (Inventory.createInventory js pid quantity s) as [e|[inventory s']] eqn:H;
    [repeat split|].
  apply Inventory_createInventory_inr in H as (_ & _ & _ & Hs'). subst s'.
  repeat split.
Qed.

(** The store after [updateInventory] is the store before, or the store
    that [findByIdAndUpdate] returns with the body as it came. *)
Lemma updateInventory_store :
  forall js user id body s,
    snd (inventoryController.updateInventory js user id body s) = s \/
    exists i r,
      id = WellFormed i /\ isAdmin user = true /\
      Inventory.findByIdAndUpdate js i body s
      = inr (r, snd (inventoryController.updateInventory js user id body s)).
Proof.
  intros js user id body s. unfold inventoryController.updateInventory.
  destruct (isAdmin user) eqn:Hadmin; [|left; reflexivity]. simpl negb. cbv iota.
  destruct id as [|i]; [left; reflexivity|].
  assert (Hupdate :
    snd (match Inventory.findByIdAndUpdate js i body s with
         | inl e => (Next e, s)
         | inr (None, s') => (Fail 404 (Msg "Inventory not found"), s')
         | inr (Some d, s') => (Json 200 (Inventory.populate s' d), s')
         end) = s \/
    exists i0 r,
      WellFormed i = WellFormed i0 /\ true = true /\
      Inventory.findByIdAndUpdate js i0 body s
      = inr (r, snd (match Inventory.findByIdAndUpdate js i body s with
                     | inl e => (Next e, s)
                     | inr (None, s') => (Fail 404 (Msg "Inventory not found"), s')
                     | inr (Some d, s') => (Json 200 (Inventory.populate s' d), s')
                     end))).
  { destruct (Inventory.findByIdAndUpdate js i body s) as [e|[[d|] s']] eqn:H;
      [left; reflexivity| |]; right; exists i; eexists; repeat split; exact H. }
  cbv zeta.
  destruct (Inventory.u_productId body) as [[[|] [|pid]]|]; try exact Hupdate.
  - left; reflexivity.
  - destruct (Product.findById pid s); [exact Hupdate | left; reflexivity].
Qed.

Lemma updateInventory_frame :
  forall js user id body s,
    let s' := snd (inventoryController.updateInventory js user id body s) in
    sameProducts s s' /\ sameCarts s s' /\ sameOrders s s'.
Proof.
  intros. subst s'. unfold sameProducts, sameCarts, sameOrders.
  destruct (updateInventory_store js user id body s) as [E|(i & r & _ & _ & H)].
  - rewrite E. repeat split.
  - apply Inventory_findByIdAndUpdate_inr in H
      as [[_ E]|(pid & q & d & _ & _ & _ & _ & _ & E)]; rewrite E; repeat split.
Qed.

Lemma updateInventoryQuantity_frame :
  forall js user productId quantity s,
    let s' := snd (inventoryController.updateInventoryQuantity js user productId quantity s) in
    sameProducts s s' /\ sameCarts s s' /\ sameOrders s s'.
Proof.
  intros. subst s'.
  unfold inventoryController.updateInventoryQuantity, Inventory.findOneAndUpdate.
  frame.
Qed.

Lemma updateProduct_frame :
  forall updateValidators user id body s,
    let s' := snd (productsController.updateProduct updateValidators user id body s) in
    sameInventories s s' /\ sameCarts s s' /\ sameOrders s s'.
Proof.
  intros. subst s'.
  unfold productsController.updateProduct, productsController.findByIdAndUpdate.
  frame.
Qed.

Lemma deleteProduct_frame :
  forall user id s,
    let s' := snd (productsController.deleteProduct user id s) in
    sameInventories s s' /\ sameCarts s s' /\ sameOrders s s'.
Proof.
  intros. subst s'.
  unfold productsController.deleteProduct, Product.findByIdAndDelete.
  unfold sameInventories, sameCarts, sameOrders.
  destruct (negb (isAdmin user)); [repeat split|].
  destruct id as [|i]; [repeat split|].
  destruct (Product.findById i s); repeat split.
Qed.

Lemma updateOrderStatus_frame :
  forall user id status s,
    let s' := snd (updateOrderStatus user id status s) in
    sameProducts s s' /\ sameInventories s s' /\ sameCarts s s'.
Proof.
  intros. subst s'.
  unfold updateOrderStatus, Order.findByIdAndUpdate. frame.
Qed.

(** One resumption of a call of [createOrder] never touches the
    products. *)
Lemma resume_products :
  forall c s, sameProducts s (snd (eventLoop.resume c s)).
Proof.
  intros c s. unfold sameProducts.
  destruct c; simpl; try reflexivity.
  - destruct (map (Cart.populate s) (Cart.find userId s)); reflexivity.
  - destruct (Inventory.findOne (productSchema._id product) s); [|reflexivity].
    destruct (inventorySchema.quantity d <? cartSchema.quantity cartItem)%float;
      reflexivity.
  - unfold Order.createOrder. destruct (Order.validate _ _ _); reflexivity.
  - unfold Inventory.save. destruct (Inventory.validate _); reflexivity.
Qed.

(** ** A quantity sent as a string *)

(** C10 at the cart of user 1 in [Examples.twoLines], which holds a line
    of 2 units of product A.  The user adds to that line with the quantity
    ["e-5"], a string.  The string is not falsy and, NaN as a number, is
    not less than 1, so the two checks of [addToCart] let it pass;
    [2 += "e-5"] is the string ["2e-5"], which the cast of the [quantity]
    path turns into the number 0.00002.  The answer is 200 and the line is
    left with a quantity below 1.  With the string ["3"] the line goes
    from 2 to 23. *)
Theorem addToCart_string_quantity :
  let js := Examples.conversions in
  let s := Examples.twoLines in
  let (out, s') :=
    cartController.addToCart js Examples.alice (Some (WellFormed 10))
      (Some (Str "e-5")) s in
  Cart.findOne 1 10 s = Some (Examples.line 30 1 10 2) /\
  falsy (Str "e-5") = false /\
  (toNumber js (Str "e-5") <? 1)%float = false /\
  plus js 2 (Str "e-5") = Str "2e-5" /\
  out = Json 200 (Some (Examples.line 30 1 10 2e-5, Some Examples.productA)) /\
  Cart.findOne 1 10 s' = Some (Examples.line 30 1 10 2e-5) /\
  (2e-5 <? 1)%float = true /\
  Cart.findOne 1 10
    (snd (cartController.addToCart js Examples.alice (Some (WellFormed 10))
            (Some (Str "3")) s))
  = Some (Examples.line 30 1 10 23).
Proof.
  vm_compute. repeat split.
Qed.

(** What the two checks do: a quantity that is below 1 as a number is
    answered with a failure and nothing is written. *)
Lemma addToCart_rejects :
  forall js user productId v s,
    (toNumber js v <? 1)%float = true ->
    exists c m, cartController.addToCart js user productId (Some v) s = (Fail c m, s).
Proof.
  intros js user productId v s Hv.
  unfold cartController.addToCart.
  destruct (authenticated user); [|eauto].
  destruct productId as [[|pid]|]; [| |eauto].
  - destruct (falsy v); eauto.
  - destruct (falsy v); [eauto|]. rewrite Hv. eauto.
Qed.

Lemma updateCartItem_rejects :
  forall js user itemId v s,
    (toNumber js v <? 1)%float = true ->
    exists c m, cartController.updateCartItem js user itemId (Some v) s = (Fail c m, s).
Proof.
  intros js user itemId v s Hv.
  unfold cartController.updateCartItem.
  destruct (authenticated user); [|eauto].
  destruct itemId; [eauto|].
  destruct (isNull v); [eauto|]. rewrite Hv. eauto.
Qed.

(** ** Inventory quantities never go below 0 *)

Lemma forallb_map_update :
  forall (A : Type) (P f : A -> bool) (g : A -> A) (l : list A),
    forallb P l = true ->
    (forall x, In x l -> f x = true -> P (g x) = true) ->
    forallb P (map (fun x => if f x then g x else x) l) = true.
Proof.
  intros A P f g l. induction l as [|x l IH]; simpl; intros Hl Hg; [reflexivity|].
  apply andb_true_iff in Hl as [Hx Hl]. apply andb_true_iff. split.
  - destruct (f x) eqn:E; [apply Hg; [left; reflexivity | exact E] | exact Hx].
  - apply IH; [exact Hl|]. intros y Hy. apply Hg. right. exact Hy.
Qed.

Lemma nonNegative_sameInventories :
  forall s s', sameInventories s s' -> nonNegative s = true -> nonNegative s' = true.
Proof.
  unfold sameInventories, nonNegative. intros s s' E H. rewrite E. exact H.
Qed.

Lemma save_nonNegative :
  forall d s s',
    Inventory.save d s = inr s' -> nonNegative s = true -> nonNegative s' = true.
Proof.
  intros d s s' Hsave Hok.
  apply Inventory_save_inr in Hsave as [Hq Hs']. subst s'.
  unfold nonNegative. simpl. apply forallb_map_update; [exact Hok|].
  intros x _ _. simpl. exact Hq.
Qed.

Lemma resume_nonNegative :
  forall c s, nonNegative s = true -> nonNegative (snd (eventLoop.resume c s)) = true.
Proof.
  intros c s Hok. destruct c; simpl; try exact Hok.
  - destruct (map (Cart.populate s) (Cart.find userId s)); exact Hok.
  - destruct (Inventory.findOne (productSchema._id product) s); [|exact Hok].
    destruct (inventorySchema.quantity d <? cartSchema.quantity cartItem)%float;
      exact Hok.
  - unfold Order.createOrder. destruct (Order.validate _ _ _); exact Hok.
  - destruct (Inventory.save _ s) as [e|s2] eqn:Hsave; [exact Hok|].
    simpl. exact (save_nonNegative _ _ _ Hsave Hok).
Qed.

Lemma createInventory_nonNegative :
  forall js user productId quantity s,
    nonNegative s = true ->
    nonNegative (snd (inventoryController.createInventory js user productId quantity s))
    = true.
Proof.
  intros js user productId quantity s Hok.
  unfold inventoryController.createInventory.
  destruct (negb (isAdmin user)); [exact Hok|].
  destruct productId as [|pid]; [exact Hok|].
  destruct (Product.findById pid s); [|exact Hok].
  destruct (Inventory.findOne pid s) eqn:Hone; [exact Hok|].
  destruct (Inventory.createInventory js pid quantity s) as [e|[inventory s']] eqn:H;
    [exact Hok|].
  apply Inventory_createInventory_inr in H as (Hq & _ & _ & Hs'). subst s'.
  simpl. unfold nonNegative. simpl.
  rewrite forallb_app. apply andb_true_iff. split; [exact Hok|].
  simpl. rewrite andb_true_r. exact Hq.
Qed.

(** An update that sets paths only leaves no quantity below 0. *)
Lemma updateInventory_nonNegative :
  forall js user id body s,
    Inventory.u_operators body = None ->
    nonNegative s = true ->
    nonNegative (snd (inventoryController.updateInventory js user id body s)) = true.
Proof.
  intros js user id body s Hplain Hok.
  destruct (updateInventory_store js user id body s) as [E|(i & r & _ & _ & H)].
  - rewrite E. exact Hok.
  - apply Inventory_findByIdAndUpdate_inr in H
      as [[_ E]|(pid & q & d & Hcast & _ & _ & _ & _ & E)]; rewrite E; [exact Hok|].
    apply Inventory_castUpdate_inr in Hcast as [Hq _].
    unfold nonNegative. simpl.
    pose proof Hok as Hall. unfold nonNegative in Hall. rewrite forallb_forall in Hall.
    apply forallb_map_update; [exact Hok|].
    intros x Hx _. unfold Inventory.apply. simpl. rewrite Hplain.
    destruct q as [x0|]; [apply Hq; reflexivity | apply Hall, Hx].
Qed.

Lemma updateInventoryQuantity_nonNegative :
  forall js user productId quantity s,
    nonNegative s = true ->
    nonNegative
      (snd (inventoryController.updateInventoryQuantity js user productId quantity s))
    = true.
Proof.
  intros js user productId quantity s Hok.
  unfold inventoryController.updateInventoryQuantity.
  destruct (negb (isAdmin user)); [exact Hok|].
  destruct productId as [|pid]; [exact Hok|].
  destruct quantity as [v|]; [|exact Hok].
  destruct (isNull v); [exact Hok|].
  destruct (toNumber js v <? 0)%float; [exact Hok|].
  destruct (Product.findById pid s); [|exact Hok].
  destruct (Inventory.findOneAndUpdate js pid v s) as [e|[r s']] eqn:H; [exact Hok|].
  apply Inventory_findOneAndUpdate_inr in H
    as [[Hr E]|(q & record & _ & Hq & _ & Hr & E)]; subst r s'; [exact Hok|].
  simpl. unfold nonNegative. simpl.
  apply forallb_map_update; [exact Hok|].
  intros x _ _. simpl. exact Hq.
Qed.

Lemma updateInventoryQuantity_rejects :
  forall js user productId v s,
    (toNumber js v <? 0)%float = true ->
    exists c m,
      inventoryController.updateInventoryQuantity js user productId (Some v) s
      = (Fail c m, s).
Proof.
  intros js user productId v s Hq.
  unfold inventoryController.updateInventoryQuantity.
  destruct (negb (isAdmin user)); [eauto|].
  destruct productId as [|pid]; [eauto|].
  destruct (isNull v); [eauto|]. rewrite Hq. eauto.
Qed.

Lemma loopHead_checked :
  forall userId cartItems createdOrders,
    checked (eventLoop.loopHead userId cartItems createdOrders) = true.
Proof.
  intros userId cartItems createdOrders.
  induction cartItems as [|[cartItem [product|]] rest IH]; simpl; auto.
Qed.

Lemma resume_checked :
  forall c s, checked c = true -> checked (fst (eventLoop.resume c s)) = true.
Proof.
  intros c s Hc. destruct c; simpl.
  - destruct (map (Cart.populate s) (Cart.find userId s)) as [|i l] eqn:E;
      [reflexivity|].
    exact (loopHead_checked userId (i :: l) []).
  - destruct (Inventory.findOne (productSchema._id product) s); [|reflexivity].
    destruct (inventorySchema.quantity d <? cartSchema.quantity cartItem)%float eqn:E;
      [reflexivity|].
    simpl. rewrite E. reflexivity.
  - unfold Order.createOrder. destruct (Order.validate _ _ _); [reflexivity|].
    simpl. exact Hc.
  - destruct (Inventory.save _ s); reflexivity.
  - apply loopHead_checked.
  - reflexivity.
  - reflexivity.
Qed.

Lemma forallb_setNth :
  forall (A : Type) (P : A -> bool) (l : list A) (i : nat) (x : A),
    forallb P l = true -> P x = true -> forallb P (eventLoop.setNth i x l) = true.
Proof.
  intros A P l. induction l as [|h t IH]; intros i x Hl Hx; [destruct i; reflexivity|].
  simpl in Hl. apply andb_true_iff in Hl as [Hh Ht].
  destruct i; simpl; apply andb_true_iff; split; auto.
Qed.

Lemma forallb_nth_error :
  forall (A : Type) (P : A -> bool) (l : list A) (i : nat) (x : A),
    forallb P l = true -> nth_error l i = Some x -> P x = true.
Proof.
  intros A P l i x Hl Hx. rewrite forallb_forall in Hl.
  apply Hl. eapply nth_error_In, Hx.
Qed.

Lemma exec_inventory_ok :
  forall updateValidators js sv e,
    setsPathsOnly e = true ->
    nonNegative (eventLoop.db sv) = true ->
    forallb checked (eventLoop.calls sv) = true ->
    nonNegative (eventLoop.db (eventLoop.exec updateValidators js sv e)) = true /\
    forallb checked (eventLoop.calls (eventLoop.exec updateValidators js sv e)) = true.
Proof.
  intros uv js sv e Hplain Hok Hcalls.
  destruct e; simpl; try (split; [|exact Hcalls]).
  - split; [exact Hok|].
    rewrite forallb_app. apply andb_true_iff. split; [exact Hcalls|].
    simpl. rewrite andb_true_r. unfold eventLoop.start.
    destruct (authenticated user); reflexivity.
  - destruct (nth_error (eventLoop.calls sv) i) as [c|] eqn:Hc; [|split; assumption].
    pose proof (forallb_nth_error _ _ _ _ _ Hcalls Hc) as Hchk.
    pose proof (resume_nonNegative c (eventLoop.db sv) Hok) as H1.
    pose proof (resume_checked c (eventLoop.db sv) Hchk) as H2.
    destruct (eventLoop.resume c (eventLoop.db sv)) as [c' s']. simpl in *.
    split; [exact H1 | apply forallb_setNth; assumption].
  - eapply nonNegative_sameInventories; [|exact Hok]. apply addToCart_frame.
  - eapply nonNegative_sameInventories; [|exact Hok]. apply updateCartItem_frame.
  - eapply nonNegative_sameInventories; [|exact Hok]. apply removeFromCart_frame.
  - eapply nonNegative_sameInventories; [|exact Hok]. apply clearCart_frame.
  - apply createInventory_nonNegative, Hok.
  - apply updateInventory_nonNegative; [|exact Hok].
    simpl in Hplain. destruct (Inventory.u_operators body); [discriminate|reflexivity].
  - apply updateInventoryQuantity_nonNegative, Hok.
  - eapply nonNegative_sameInventories; [|exact Hok]. apply updateProduct_frame.
  - eapply nonNegative_sameInventories; [|exact Hok]. apply deleteProduct_frame.
  - eapply nonNegative_sameInventories; [|exact Hok]. apply updateOrderStatus_frame.
Qed.

(** C6, for the requests that set quantities.  From a server whose
    inventory quantities are all 0 or more and whose calls of
    [createOrder] past the inventory check hold a record whose quantity is
    not less than the requested one (no call in flight, say), whatever
    requests are served and however the calls are interleaved, as long as
    no PUT /inventory/:id body carries an update operator other than
    [$set]: every inventory quantity is 0 or more, and every call that is
    about to write an inventory record has read a quantity that is not
    less than the requested one.  The administrative quantity update
    answers a quantity below 0 with a failure and writes nothing.  (The
    quantities are Numbers; nothing makes them integers.) *)
Theorem inventory_quantity_never_negative :
  forall (updateValidators : productSchema.fields -> option Exn) (js : Coercions)
         (trace : list eventLoop.Event) (sv : eventLoop.Server),
    forallb setsPathsOnly trace = true ->
    nonNegative (eventLoop.db sv) = true ->
    forallb checked (eventLoop.calls sv) = true ->
    nonNegative (eventLoop.db (eventLoop.run updateValidators js sv trace)) = true /\
    forallb checked (eventLoop.calls (eventLoop.run updateValidators js sv trace)) = true /\
    (forall user productId v s,
       (toNumber js v <? 0)%float = true ->
       exists c m,
         inventoryController.updateInventoryQuantity js user productId (Some v) s
         = (Fail c m, s)).
Proof.
  intros uv js trace. unfold eventLoop.run.
  induction trace as [|e trace IH]; intros sv Hplain Hok Hcalls; simpl.
  - repeat split; try assumption. apply updateInventoryQuantity_rejects.
  - simpl in Hplain. apply andb_true_iff in Hplain as [He Hplain].
    destruct (exec_inventory_ok uv js sv e He Hok Hcalls) as [H1 H2].
    exact (IH _ Hplain H1 H2).
Qed.

(** The stock updates and the order of [Examples.restocking]: the two
    negative quantities are refused, 2.5 is stored. *)
Lemma inventory_quantity_never_negative_witness :
  nonNegative
    (eventLoop.db (eventLoop.run Examples.noValidators Examples.conversions
                     (Examples.idle Examples.oneOrder) Examples.restocking)) = true /\
  map inventorySchema.quantity
    (inventories
       (eventLoop.db (eventLoop.run Examples.noValidators Examples.conversions
                        (Examples.idle Examples.oneOrder)
                        (firstn 8 Examples.restocking))))
  = [1%float; 2.5%float].
Proof.
  destruct (inventory_quantity_never_negative Examples.noValidators
              Examples.conversions Examples.restocking
              (Examples.idle Examples.oneOrder) eq_refl eq_refl eq_refl) as [H _].
  split; [exact H | reflexivity].
Defined.

(** C6 as stated fails on [Examples.oneOrder], where every quantity is an
    integer and none is negative.  The administrator sets the quantity of
    product A to 2.5, which is accepted and stored: the quantity is a
    Number with a minimum, not an integer.  And the administrator sends
    [{ "$inc": { "quantity": -10 } }] to PUT /inventory/20: the update
    validators do not run on [$inc], the answer is 200, and the quantity
    of product A goes from 3 to -7. *)
Lemma inventory_quantity_fractional_or_negative :
  let js := Examples.conversions in
  let s := Examples.oneOrder in
  nonNegative s = true /\
  forallb (fun d => isInteger (inventorySchema.quantity d)) (inventories s) = true /\
  (let (out, s') :=
     inventoryController.updateInventoryQuantity js Examples.root (WellFormed 10)
       (Some (Num 2.5)) s in
   out = Json 200 (Examples.inventoryOf 20 10 2.5, Some Examples.productA) /\
   Inventory.findOne 10 s' = Some (Examples.inventoryOf 20 10 2.5) /\
   isInteger 2.5 = false) /\
  (let (out, s') :=
     inventoryController.updateInventory js Examples.root (WellFormed 20)
       Examples.takeTen s in
   out = Json 200 (Examples.inventoryOf 20 10 (-7), Some Examples.productA) /\
   Inventory.findOne 10 s' = Some (Examples.inventoryOf 20 10 (-7)) /\
   ((-7) <? 0)%float = true /\
   nonNegative s' = false).
Proof.
  vm_compute. repeat split.
Qed.

(** ** Orders are frozen but for their status *)

Lemma Forall2_sameButStatus_refl :
  forall l, Forall2 sameButStatus l l.
Proof.
  induction l; constructor; [apply sameButStatus_refl | assumption].
Qed.

Lemma Forall2_sameButStatus_trans :
  forall l1 l2 l3,
    Forall2 sameButStatus l1 l2 -> Forall2 sameButStatus l2 l3 ->
    Forall2 sameButStatus l1 l3.
Proof.
  intros l1 l2 l3 H12. revert l3.
  induction H12 as [|a b l1 l2 Hab _ IH]; intros l3 H23.
  - inversion H23. constructor.
  - inversion H23 as [|b' c l2' l3' Hbc Hrest]; subst.
    constructor; [eapply sameButStatus_trans; eassumption | apply IH, Hrest].
Qed.

Lemma grownFrom_refl : forall l, grownFrom l l.
Proof.
  intros l. exists l, []. split; [symmetry; apply app_nil_r|].
  apply Forall2_sameButStatus_refl.
Qed.

Lemma grownFrom_trans :
  forall l1 l2 l3, grownFrom l1 l2 -> grownFrom l2 l3 -> grownFrom l1 l3.
Proof.
  intros l1 l2 l3 (old & new & E2 & H12) (old' & new' & E3 & H23). subst l2 l3.
  apply Forall2_app_inv_l in H23 as (o1 & o2 & Ho1 & _ & E). subst old'.
  exists o1, (o2 ++ new')%list. split; [symmetry; apply app_assoc|].
  eapply Forall2_sameButStatus_trans; eassumption.
Qed.

Lemma grownFrom_nth_error :
  forall l l' k o,
    grownFrom l l' -> nth_error l k = Some o ->
    exists o', nth_error l' k = Some o' /\ sameButStatus o o'.
Proof.
  intros l l' k o (old & new & E & Hall) Hk. subst l'.
  revert k Hk. induction Hall as [|a b l old Hab _ IH]; intros k Hk.
  - destruct k; discriminate.
  - destruct k as [|k]; simpl in *.
    + inversion Hk; subst. exists b. split; [reflexivity | exact Hab].
    + apply IH, Hk.
Qed.

Lemma grownFrom_sameOrders :
  forall s s', sameOrders s s' -> grownFrom (orders s) (orders s').
Proof.
  unfold sameOrders. intros s s' E. rewrite E. apply grownFrom_refl.
Qed.

Lemma resume_grows :
  forall c s, grownFrom (orders s) (orders (snd (eventLoop.resume c s))).
Proof.
  intros c s. destruct c; simpl; try apply grownFrom_refl.
  - destruct (map (Cart.populate s) (Cart.find userId s)); apply grownFrom_refl.
  - destruct (Inventory.findOne (productSchema._id product) s); [|apply grownFrom_refl].
    destruct (inventorySchema.quantity d <? cartSchema.quantity cartItem)%float;
      apply grownFrom_refl.
  - unfold Order.createOrder. destruct (Order.validate _ _ _); [apply grownFrom_refl|].
    simpl. eexists (orders s), [_]. split; [reflexivity|].
    apply Forall2_sameButStatus_refl.
  - unfold Inventory.save. destruct (Inventory.validate _); apply grownFrom_refl.
Qed.

Lemma updateOrderStatus_grows :
  forall user id status s,
    grownFrom (orders s) (orders (snd (updateOrderStatus user id status s))).
Proof.
  intros user id status s. unfold updateOrderStatus.
  destruct (negb (isAdmin user)); [apply grownFrom_refl|].
  destruct id as [|i]; [apply grownFrom_refl|].
  destruct status as [st|]; [|apply grownFrom_refl].
  destruct (rejectedStatus (Some st)); [apply grownFrom_refl|].
  unfold Order.findByIdAndUpdate.
  destruct (negb (includes st orderSchema.statusEnum)); [apply grownFrom_refl|].
  destruct (Order.findById i s); [|apply grownFrom_refl].
  simpl. eexists _, []. split; [symmetry; apply app_nil_r|].
  apply Forall2_status_map.
Qed.

Lemma exec_grows :
  forall updateValidators js sv e,
    grownFrom (orders (eventLoop.db sv))
              (orders (eventLoop.db (eventLoop.exec updateValidators js sv e))).
Proof.
  intros uv js sv e. destruct e; simpl.
  - apply grownFrom_refl.
  - destruct (nth_error (eventLoop.calls sv) i) as [c|]; [|apply grownFrom_refl].
    pose proof (resume_grows c (eventLoop.db sv)) as H.
    destruct (eventLoop.resume c (eventLoop.db sv)). exact H.
  - apply grownFrom_sameOrders, addToCart_frame.
  - apply grownFrom_sameOrders, updateCartItem_frame.
  - apply grownFrom_sameOrders, removeFromCart_frame.
  - apply grownFrom_sameOrders, clearCart_frame.
  - apply grownFrom_sameOrders, createInventory_frame.
  - apply grownFrom_sameOrders, updateInventory_frame.
  - apply grownFrom_sameOrders, updateInventoryQuantity_frame.
  - apply grownFrom_sameOrders, updateProduct_frame.
  - apply grownFrom_sameOrders, deleteProduct_frame.
  - apply updateOrderStatus_grows.
Qed.

Lemma run_grows :
  forall updateValidators js trace sv,
    grownFrom (orders (eventLoop.db sv))
              (orders (eventLoop.db (eventLoop.run updateValidators js sv trace))).
Proof.
  intros uv js trace. unfold eventLoop.run.
  induction trace as [|e trace IH]; intros sv; simpl; [apply grownFrom_refl|].
  eapply grownFrom_trans; [apply exec_grows | apply IH].
Qed.

(** C7. An update of a product, its price included, leaves the orders
    collection as it is.  And whatever requests are served afterwards,
    however interleaved, an order of the store stays at its place in the
    collection with the same id, user, product, quantity and total price:
    only its status may differ. *)
Theorem order_totalPrice_frozen :
  forall (updateValidators : productSchema.fields -> option Exn) (js : Coercions)
         (sv : eventLoop.Server) (trace : list eventLoop.Event)
         (k : nat) (o : orderSchema.doc),
    nth_error (orders (eventLoop.db sv)) k = Some o ->
    (forall user id body,
       orders (snd (productsController.updateProduct updateValidators user id body
                      (eventLoop.db sv)))
       = orders (eventLoop.db sv)) /\
    exists o',
      nth_error (orders (eventLoop.db (eventLoop.run updateValidators js sv trace))) k
      = Some o' /\
      sameButStatus o o'.
Proof.
  intros uv js sv trace k o Hk. split.
  - intros user id body. apply updateProduct_frame.
  - eapply grownFrom_nth_error; [apply run_grows | exact Hk].
Qed.

(** The order of [Examples.oneOrder] after the events of [Examples.afterwards]. *)
Lemma order_totalPrice_frozen_witness :
  exists o',
    nth_error
      (orders (eventLoop.db (eventLoop.run Examples.noValidators Examples.conversions
                               (Examples.idle Examples.oneOrder) Examples.afterwards)))
      0
    = Some o' /\
    orderSchema.totalPrice o' = 100%float.
Proof.
  destruct (order_totalPrice_frozen Examples.noValidators Examples.conversions
              (Examples.idle Examples.oneOrder) Examples.afterwards 0%nat _ eq_refl)
    as [_ (o' & Hk & Hsame)].
  exists o'. split; [exact Hk|].
  destruct Hsame as (_ & _ & _ & _ & Hprice). exact Hprice.
Defined.

(** ** A call of [createOrder] that nothing interrupts *)

Lemma resumeN_loop :
  forall (userId : UserId) (cartItems : eventLoop.Items)
         (createdOrders : eventLoop.Created) (s : Store),
    exists n : nat,
      eventLoop.resumeN n (eventLoop.loopHead userId cartItems createdOrders) s
      = (eventLoop.Responded (fst (forEachCartItem userId cartItems createdOrders s)),
         snd (forEachCartItem userId cartItems createdOrders s)).
Proof.
  intros userId cartItems.
  induction cartItems as [|[cartItem [product|]] rest IH]; intros createdOrders s.
  - exists 1%nat. reflexivity.
  - cbn [eventLoop.loopHead forEachCartItem].
    destruct (Inventory.findOne (productSchema._id product) s) as [inventory|] eqn:Hone.
    2:{ exists 1%nat. resume_once. rewrite Hone. reflexivity. }
    destruct (inventorySchema.quantity inventory <? cartSchema.quantity cartItem)%float eqn:Hlt.
    { exists 1%nat. resume_once. rewrite Hone, Hlt. reflexivity. }
    cbv zeta.
    destruct (Order.createOrder userId (productSchema._id product)
                (cartSchema.quantity cartItem)
                (productSchema.price product * cartSchema.quantity cartItem)%float
                "pending" s) as [e|[order s1]] eqn:Hcreate.
    { exists 2%nat. resume_once. rewrite Hone, Hlt.
      resume_once. rewrite Hcreate. reflexivity. }
    destruct (Inventory.save
                (inventorySchema.set_quantity
                   (inventorySchema.quantity inventory - cartSchema.quantity cartItem)%float
                   inventory) s1) as [e|s2] eqn:Hsave.
    { exists 3%nat. resume_once. rewrite Hone, Hlt.
      resume_once. rewrite Hcreate.
      resume_once. rewrite Hsave. reflexivity. }
    destruct (IH (createdOrders ++ [findPopulated (orderSchema._id order) s2])%list s2)
      as [n Hn].
    exists (S (S (S (S n)))). resume_once. rewrite Hone, Hlt.
    resume_once. rewrite Hcreate.
    resume_once. rewrite Hsave.
    resume_once. exact Hn.
  - exact (IH createdOrders s).
Qed.

(** Resumed again and again with no other request in between, a call of
    [createOrder] ends with the answer and the store of the handler taken
    as one function. *)
Lemma createOrder_resumed :
  forall (user : option Claims) (s : Store),
    exists n : nat,
      eventLoop.resumeN n (eventLoop.start user) s
      = (eventLoop.Responded (fst (createOrder user s)), snd (createOrder user s)).
Proof.
  intros user s. unfold createOrder, eventLoop.start.
  destruct (authenticated user) as [userId|]; [|exists 0%nat; reflexivity].
  cbv zeta.
  destruct (map (Cart.populate s) (Cart.find userId s)) as [|i items] eqn:Hitems.
  - exists 1%nat. cbn [eventLoop.resumeN eventLoop.resume]. rewrite Hitems. reflexivity.
  - destruct (resumeN_loop userId (i :: items) [] s) as [n Hn].
    exists (S n). cbn [eventLoop.resumeN eventLoop.resume]. rewrite Hitems. exact Hn.
Qed.

(** ** Two orders for the last unit *)

(** C2 on the last unit of product A. Users 1 and 2 each have one unit in
    their cart. When the two calls are resumed in turn, both read a
    quantity of 1 before either writes: both are answered 201, neither
    gets the insufficient-inventory failure, 2 units are ordered, and the
    inventory record ends at 0. *)
Theorem concurrent_orders_oversell :
  let sv := eventLoop.run Examples.noValidators Examples.conversions
              (Examples.idle Examples.lastUnit) Examples.inTurn in
  Inventory.findOne 10 Examples.lastUnit = Some (Examples.inventoryOf 20 10 1) /\
  List.length (eventLoop.calls sv) = 2%nat /\
  forallb accepted (eventLoop.calls sv) = true /\
  existsb refusedForStock (eventLoop.calls sv) = false /\
  orderedQuantity 10 (eventLoop.db sv) = 2%float /\
  Inventory.findOne 10 (eventLoop.db sv) = Some (Examples.inventoryOf 20 10 0).
Proof.
  vm_compute. repeat split.
Qed.

(** The same two requests one after the other: the second is refused and
    one unit is ordered. *)
Lemma orders_in_sequence :
  let sv := eventLoop.run Examples.noValidators Examples.conversions
              (Examples.idle Examples.lastUnit) Examples.inSequence in
  map accepted (eventLoop.calls sv) = [true; false] /\
  map refusedForStock (eventLoop.calls sv) = [false; true] /\
  orderedQuantity 10 (eventLoop.db sv) = 1%float /\
  Inventory.findOne 10 (eventLoop.db sv) = Some (Examples.inventoryOf 20 10 0).
Proof.
  vm_compute. repeat split.
Qed.

(** ** Order ids come from the counter *)

Lemma freshOrderIds_mono :
  forall s s',
    sameOrders s s' -> (nextId s <= nextId s')%nat ->
    freshOrderIds s = true -> freshOrderIds s' = true.
Proof.
  unfold sameOrders, freshOrderIds. intros s s' E Hle H. rewrite E.
  rewrite forallb_forall in *. intros x Hx. specialize (H x Hx).
  apply Nat.ltb_lt in H. apply Nat.ltb_lt. lia.
Qed.

Lemma handlers_nextId :
  forall js s,
    (forall user productId quantity,
       (nextId s
        <= nextId (snd (cartController.addToCart js user productId quantity s)))%nat) /\
    (forall user itemId quantity,
       (nextId s
        <= nextId (snd (cartController.updateCartItem js user itemId quantity s)))%nat) /\
    (forall user itemId,
       (nextId s <= nextId (snd (cartController.removeFromCart user itemId s)))%nat) /\
    (forall user,
       (nextId s <= nextId (snd (cartController.clearCart user s)))%nat) /\
    (forall user productId quantity,
       (nextId s
        <= nextId (snd (inventoryController.createInventory js user productId quantity s)))%nat) /\
    (forall user id body,
       (nextId s <= nextId (snd (inventoryController.updateInventory js user id body s)))%nat) /\
    (forall user productId quantity,
       (nextId s
        <= nextId (snd (inventoryController.updateInventoryQuantity js user productId
                          quantity s)))%nat) /\
    (forall updateValidators user id body,
       (nextId s
        <= nextId (snd (productsController.updateProduct updateValidators user id body s)))%nat) /\
    (forall user id,
       (nextId s <= nextId (snd (productsController.deleteProduct user id s)))%nat).
Proof.
  intros js s. repeat split; intros.
  - unfold cartController.addToCart, Cart.createCart, Cart.assign, Cart.save. counter.
  - unfold cartController.updateCartItem, Cart.assign, Cart.save. counter.
  - unfold cartController.removeFromCart, Cart.findOneAndDelete.
    destruct (authenticated user); [|simpl; lia].
    destruct itemId; [simpl; lia|].
    destruct (Cart.findOneById i u s); simpl; lia.
  - unfold cartController.clearCart, Cart.deleteMany. counter.
  - unfold inventoryController.createInventory.
    destruct (negb (isAdmin user)); [simpl; lia|].
    destruct productId as [|pid]; [simpl; lia|].
    destruct (Product.findById pid s); [|simpl; lia].
    destruct (Inventory.findOne pid s) eqn:Hone; [simpl; lia|].
    destruct (Inventory.createInventory js pid quantity s) as [e|[inventory s']] eqn:H;
      [simpl; lia|].
    apply Inventory_createInventory_inr in H as (_ & _ & _ & Hs'). subst s'.
    simpl. lia.
  - destruct (updateInventory_store js user id body s) as [E|(i & r & _ & _ & H)].
    + rewrite E. lia.
    + apply Inventory_findByIdAndUpdate_inr in H
        as [[_ E]|(pid & q & d & _ & _ & _ & _ & _ & E)]; rewrite E; simpl; lia.
  - unfold inventoryController.updateInventoryQuantity, Inventory.findOneAndUpdate.
    counter.
  - unfold productsController.updateProduct, productsController.findByIdAndUpdate.
    counter.
  - unfold productsController.deleteProduct, Product.findByIdAndDelete.
    destruct (negb (isAdmin user)); [simpl; lia|].
    destruct id as [|i]; [simpl; lia|].
    destruct (Product.findById i s); simpl; lia.
Qed.

Lemma resume_fresh :
  forall c s,
    freshOrderIds s = true -> freshOrderIds (snd (eventLoop.resume c s)) = true.
Proof.
  intros c s Hok. destruct c; simpl; try exact Hok.
  - destruct (map (Cart.populate s) (Cart.find userId s)); exact Hok.
  - destruct (Inventory.findOne (productSchema._id product) s); [|exact Hok].
    destruct (inventorySchema.quantity d <? cartSchema.quantity cartItem)%float; exact Hok.
  - unfold Order.createOrder. destruct (Order.validate _ _ _); [exact Hok|].
    simpl. unfold freshOrderIds. simpl.
    apply freshOrderIds_after_create; [exact Hok | reflexivity].
  - unfold Inventory.save. destruct (Inventory.validate _); exact Hok.
Qed.

Lemma updateOrderStatus_fresh :
  forall user id status s,
    freshOrderIds s = true ->
    freshOrderIds (snd (updateOrderStatus user id status s)) = true.
Proof.
  intros user id status s Hok. unfold updateOrderStatus.
  destruct (negb (isAdmin user)); [exact Hok|].
  destruct id as [|i]; [exact Hok|].
  destruct status as [st|]; [|exact Hok].
  destruct (rejectedStatus (Some st)); [exact Hok|].
  unfold Order.findByIdAndUpdate.
  destruct (negb (includes st orderSchema.statusEnum)); [exact Hok|].
  destruct (Order.findById i s); [|exact Hok].
  simpl. unfold freshOrderIds. simpl.
  pose proof Hok as Hall. unfold freshOrderIds in Hall. rewrite forallb_forall in Hall.
  apply forallb_map_update; [exact Hok|].
  intros x Hx _. simpl. apply Hall, Hx.
Qed.

(** The hypothesis of C5 on order ids holds on every store the server can
    reach from one where it holds (one without orders, say). *)
Lemma run_fresh :
  forall updateValidators js trace sv,
    freshOrderIds (eventLoop.db sv) = true ->
    freshOrderIds (eventLoop.db (eventLoop.run updateValidators js sv trace)) = true.
Proof.
  intros uv js trace. unfold eventLoop.run.
  induction trace as [|e trace IH]; intros sv Hok; simpl; [exact Hok|].
  apply IH.
  destruct (handlers_nextId js (eventLoop.db sv))
    as (N1 & N2 & N3 & N4 & N5 & N6 & N7 & N8 & N9).
  destruct e; simpl.
  - exact Hok.
  - destruct (nth_error (eventLoop.calls sv) i) as [c|]; [|exact Hok].
    pose proof (resume_fresh c (eventLoop.db sv) Hok) as H.
    destruct (eventLoop.resume c (eventLoop.db sv)). exact H.
  - eapply freshOrderIds_mono; [apply addToCart_frame | apply N1 | exact Hok].
  - eapply freshOrderIds_mono; [apply updateCartItem_frame | apply N2 | exact Hok].
  - eapply freshOrderIds_mono; [apply removeFromCart_frame | apply N3 | exact Hok].
  - eapply freshOrderIds_mono; [apply clearCart_frame | apply N4 | exact Hok].
  - eapply freshOrderIds_mono; [apply createInventory_frame | apply N5 | exact Hok].
  - eapply freshOrderIds_mono; [apply updateInventory_frame | apply N6 | exact Hok].
  - eapply freshOrderIds_mono; [apply updateInventoryQuantity_frame | apply N7 | exact Hok].
  - eapply freshOrderIds_mono; [apply updateProduct_frame | apply N8 | exact Hok].
  - eapply freshOrderIds_mono; [apply deleteProduct_frame | apply N9 | exact Hok].
  - apply updateOrderStatus_fresh, Hok.
Qed.

(** ** What a refused order leaves behind *)

(** Whatever the loop answers, the cart is as before unless the answer is
    201. *)
Lemma forEachCartItem_keeps_cart :
  forall userId cartItems createdOrders s,
    (exists data, fst (forEachCartItem userId cartItems createdOrders s) = Json 201 data) \/
    carts (snd (forEachCartItem userId cartItems createdOrders s)) = carts s.
Proof.
  intros userId cartItems.
  induction cartItems as [|[cartItem [product|]] rest IH]; intros createdOrders s.
  - left. exists createdOrders. reflexivity.
  - cbn [forEachCartItem]. cbv zeta.
    destruct (Inventory.findOne (productSchema._id product) s) as [inventory|];
      [|right; reflexivity].
    destruct (inventorySchema.quantity inventory <? cartSchema.quantity cartItem)%float;
      [right; reflexivity|].
    destruct (Order.createOrder _ _ _ _ _ s) as [e|[order s1]] eqn:Hcreate;
      [right; reflexivity|].
    apply Order_create_inr in Hcreate as [_ Hs1].
    destruct (Inventory.save _ s1) as [e|s2] eqn:Hsave.
    + right. rewrite Hs1. reflexivity.
    + apply Inventory_save_inr in Hsave as [_ Hs2].
      destruct (IH (createdOrders ++ [findPopulated (orderSchema._id order) s2])%list s2)
        as [Hjson|Hcarts]; [left; exact Hjson|].
      right. rewrite Hcarts, Hs2, Hs1. reflexivity.
  - exact (IH createdOrders s).
Qed.

(** The part of C1 that the handler does keep: an answer other than 201
    leaves the cart lines as they were. *)
Lemma createOrder_failure_keeps_cart :
  forall user s,
    (forall data, fst (createOrder user s) <> Json 201 data) ->
    carts (snd (createOrder user s)) = carts s.
Proof.
  intros user s Hfail. unfold createOrder in *.
  destruct (authenticated user) as [userId|]; [|reflexivity].
  cbv zeta in *.
  destruct (map (Cart.populate s) (Cart.find userId s)) as [|i items]; [reflexivity|].
  destruct (forEachCartItem_keeps_cart userId (i :: items) [] s) as [[data H]|H];
    [|exact H].
  exfalso. exact (Hfail data H).
Qed.

(** * More properties: the other handlers *)

(** ** Pages *)

Lemma orElse_nonzero :
  forall n d, n <> 0 -> orElse (Some n) d = n.
Proof.
  intros n d Hn. unfold orElse. apply Z.eqb_neq in Hn. rewrite Hn. reflexivity.
Qed.

Lemma ceilDiv_bounds :
  forall total limit,
    1 <= limit ->
    ceilDiv total limit * limit - limit < total <= ceilDiv total limit * limit.
Proof.
  intros total limit Hl. unfold ceilDiv.
  pose proof (Z.div_mod (- total) limit ltac:(lia)) as Hdm.
  pose proof (Z.mod_pos_bound (- total) limit ltac:(lia)) as Hm.
  nia.
Qed.

Lemma ceilDiv_nonneg :
  forall total limit, 1 <= limit -> 0 <= total -> 0 <= ceilDiv total limit.
Proof.
  intros total limit Hl Ht. pose proof (ceilDiv_bounds total limit Hl). nia.
Qed.

(** Consecutive windows of [l] elements cover a list once [n] of them
    reach its length. *)
Lemma windows_cover :
  forall (A : Type) (l n : nat) (xs : list A),
    (List.length xs <= n * l)%nat ->
    List.concat (map (fun i => firstn l (skipn (i * l) xs)) (seq 0 n)) = xs.
Proof.
  intros A l n. induction n as [|n IH]; intros xs Hlen.
  - simpl in *. destruct xs; [reflexivity | simpl in Hlen; lia].
  - cbn [seq]. rewrite <- seq_shift. cbn [map List.concat]. rewrite map_map.
    change (skipn (0 * l) xs) with xs.
    transitivity (firstn l xs ++ skipn l xs)%list; [|apply firstn_skipn].
    f_equal.
    etransitivity; [|apply (IH (skipn l xs)); rewrite length_skipn; lia].
    f_equal. apply map_ext. intros i. rewrite skipn_skipn. f_equal. f_equal. lia.
Qed.

(** A page from 1 on, with a limit of 1 or more. *)
Lemma pageOf_page :
  forall (A B : Type) (f : A -> B) (p limit : Z) (matching : list A),
    1 <= p -> 1 <= limit ->
    pageOf f (Some p) (Some limit) matching
    = inl (Json 200
             {| found := map f (firstn (Z.to_nat limit)
                                  (skipn (Z.to_nat (p - 1) * Z.to_nat limit)
                                         (rev matching)));
                pagination :=
                  {| paging.page := p; paging.limit := limit;
                     paging.total := Z.of_nat (List.length matching);
                     paging.pages := ceilDiv (Z.of_nat (List.length matching)) limit |} |}).
Proof.
  intros A B f p limit matching Hp Hl.
  unfold pageOf. rewrite !orElse_nonzero by lia. cbv zeta.
  unfold newestFirst.
  assert (E : ((p - 1) * limit <? 0) = false) by (apply Z.ltb_ge; nia).
  rewrite E, Z.abs_eq by lia.
  rewrite Z2Nat.inj_mul by lia. reflexivity.
Qed.

(** What the pages of a listing are, for a limit of 1 or more: pages 1 to
    [pages] put end to end are the matching documents, newest first; a
    page holds [limit] documents at most; a page after the last is empty;
    page 0 or NaN is page 1; a negative page makes the server reject the
    query. *)
Lemma pageOf_pages :
  forall (A B : Type) (f : A -> B) (limit : Z) (matching : list A),
    1 <= limit ->
    let n := ceilDiv (Z.of_nat (List.length matching)) limit in
    List.concat (map (fun p => foundIn (pageOf f (Some p) (Some limit) matching))
                     (pageNumbers n))
    = map f (rev matching) /\
    (forall p, 1 <= p ->
       exists d,
         pageOf f (Some p) (Some limit) matching = inl (Json 200 d) /\
         Z.of_nat (List.length (found d)) <= limit /\
         paging.total (pagination d) = Z.of_nat (List.length matching) /\
         paging.pages (pagination d) = n /\
         (n < p -> found d = [])) /\
    pageOf f (Some 0) (Some limit) matching = pageOf f (Some 1) (Some limit) matching /\
    pageOf f None (Some limit) matching = pageOf f (Some 1) (Some limit) matching /\
    (forall p, p < 0 ->
       pageOf f (Some p) (Some limit) matching = inr (NegativeSkip ((p - 1) * limit))).
Proof.
  intros A B f limit matching Hl n.
  pose proof (ceilDiv_bounds (Z.of_nat (List.length matching)) limit Hl) as Hb.
  fold n in Hb.
  assert (Hn : 0 <= n) by (apply ceilDiv_nonneg; lia).
  split; [|split; [|split; [|split]]].
  - unfold pageNumbers. rewrite map_map.
    rewrite (map_ext_in _
               (fun i => map f (firstn (Z.to_nat limit)
                                  (skipn (i * Z.to_nat limit) (rev matching))))).
    + rewrite <- (map_map (fun i => firstn (Z.to_nat limit)
                                       (skipn (i * Z.to_nat limit) (rev matching)))
                          (map f)).
      rewrite <- concat_map. f_equal. apply windows_cover.
      rewrite length_rev. nia.
    + intros i _. rewrite pageOf_page by lia. simpl.
      replace (Z.of_nat i + 1 - 1) with (Z.of_nat i) by lia.
      rewrite Nat2Z.id. reflexivity.
  - intros p Hp. rewrite pageOf_page by lia. eexists. split; [reflexivity|].
    simpl. rewrite length_map, length_firstn.
    split; [lia|]. split; [reflexivity|]. split; [reflexivity|].
    intros Hlate. rewrite skipn_all2; [destruct (Z.to_nat limit); reflexivity|].
    rewrite length_rev. nia.
  - reflexivity.
  - reflexivity.
  - intros p Hp. unfold pageOf. rewrite !orElse_nonzero by lia. cbv zeta.
    unfold newestFirst.
    assert (E : ((p - 1) * limit <? 0) = true) by (apply Z.ltb_lt; nia).
    rewrite E. reflexivity.
Qed.

Lemma In_window :
  forall (A : Type) (a b : nat) (l : list A) (x : A),
    In x (firstn a (skipn b l)) -> In x l.
Proof.
  intros A a b l x H.
  rewrite <- (firstn_skipn b l). apply in_or_app. right.
  rewrite <- (firstn_skipn a (skipn b l)). apply in_or_app. left. exact H.
Qed.

Lemma pageOf_found :
  forall (A B : Type) (f : A -> B) (page limit : option Z) (matching : list A)
         (d : Paged B),
    pageOf f page limit matching = inl (Json 200 d) ->
    (forall y, In y (found d) -> exists x, In x matching /\ y = f x) /\
    paging.total (pagination d) = Z.of_nat (List.length matching).
Proof.
  intros A B f page limit matching d H.
  unfold pageOf in H. cbv zeta in H.
  destruct (newestFirst _ _ matching) as [l|e] eqn:Hw; [|discriminate].
  inversion H; subst d; clear H. simpl. split; [|reflexivity].
  intros y Hy. apply in_map_iff in Hy as (x & Hx & Hin). exists x. split; [|auto].
  unfold newestFirst in Hw. destruct (_ <? 0); [discriminate|].
  inversion Hw; subst l. apply In_window in Hin. apply in_rev. exact Hin.
Qed.

(** ** Reading orders *)

Import ordersQueries.

(** X1. Whatever the page and the limit, the orders in a 200 answer of
    [getUserOrders] are orders of the store that belong to the caller, and
    the total of the answer is the number of the caller's orders. *)
Theorem getUserOrders_own_orders :
  forall (user : option Claims) (limit page : option Z) (s : Store)
         (d : Paged PopulatedOrder),
    getUserOrders user limit page s = inl (Json 200 d) ->
    exists userId,
      authenticated user = Some userId /\
      (forall o p, In (o, p) (found d) ->
         In o (orders s) /\ orderSchema.userId o = userId) /\
      paging.total (pagination d)
      = Z.of_nat (List.length
                    (filter (fun o => Nat.eqb (orderSchema.userId o) userId) (orders s))).
Proof.
  intros user limit page s d H. unfold getUserOrders in H.
  destruct (authenticated user) as [userId|]; [|discriminate].
  exists userId. split; [reflexivity|].
  apply pageOf_found in H as [Hin Htotal]. split; [|exact Htotal].
  intros o p Hop. destruct (Hin _ Hop) as (x & Hx & E).
  unfold Order.populate in E. inversion E; subst x.
  apply filter_In in Hx as [Hx Hu]. apply Nat.eqb_eq in Hu. split; assumption.
Qed.

(** User 1 reads the second page of two of the orders in
    [MoreExamples.history]. *)
Lemma getUserOrders_own_orders_witness :
  exists userId,
    authenticated Examples.alice = Some userId /\
    (forall o p,
       In (o, p) (foundIn (getUserOrders Examples.alice (Some 2) (Some 2)
                             MoreExamples.history)) ->
       In o (orders MoreExamples.history) /\ orderSchema.userId o = userId) /\
    5 = Z.of_nat (List.length
                    (filter (fun o => Nat.eqb (orderSchema.userId o) userId)
                            (orders MoreExamples.history))).
Proof.
  exact (getUserOrders_own_orders Examples.alice (Some 2) (Some 2)
           MoreExamples.history _ eq_refl).
Defined.

(** X2. For an authenticated user and a limit of 1 or more, the pages 1 to
    [pages] of [getUserOrders], put end to end, are the orders of the user,
    newest first, each once.  Every page from 1 on is answered 200, holds
    [limit] orders at most and reports the same total and number of pages;
    a page after the last is empty; page 0 is served as page 1; a negative
    page is not answered: the rejected query goes to [next]. *)
Theorem getUserOrders_pages :
  forall (user : option Claims) (userId : UserId) (limit : Z) (s : Store),
    authenticated user = Some userId ->
    1 <= limit ->
    let mine := filter (fun o => Nat.eqb (orderSchema.userId o) userId) (orders s) in
    let n := ceilDiv (Z.of_nat (List.length mine)) limit in
    List.concat (map (fun p => foundIn (getUserOrders user (Some limit) (Some p) s))
                     (pageNumbers n))
    = map (Order.populate s) (rev mine) /\
    (forall p, 1 <= p ->
       exists d,
         getUserOrders user (Some limit) (Some p) s = inl (Json 200 d) /\
         Z.of_nat (List.length (found d)) <= limit /\
         paging.total (pagination d) = Z.of_nat (List.length mine) /\
         paging.pages (pagination d) = n /\
         (n < p -> found d = [])) /\
    getUserOrders user (Some limit) (Some 0) s
    = getUserOrders user (Some limit) (Some 1) s /\
    (forall p, p < 0 ->
       getUserOrders user (Some limit) (Some p) s
       = inr (NegativeSkip ((p - 1) * limit))).
Proof.
  intros user userId limit s Hauth Hl mine n.
  unfold getUserOrders. rewrite Hauth. fold mine.
  destruct (pageOf_pages _ _ (Order.populate s) limit mine Hl)
    as (H1 & H2 & H3 & _ & H5).
  repeat split; assumption.
Qed.

(** The five orders of user 1 in [MoreExamples.history], two to a page. *)
Lemma getUserOrders_pages_witness :
  List.concat (map (fun p => foundIn (getUserOrders Examples.alice (Some 2) (Some p)
                                        MoreExamples.history))
                   [1; 2; 3])
  = map (Order.populate MoreExamples.history)
        (rev (filter (fun o => Nat.eqb (orderSchema.userId o) 1)
                     (orders MoreExamples.history))).
Proof.
  destruct (getUserOrders_pages Examples.alice 1%nat 2 MoreExamples.history
              eq_refl ltac:(lia)) as [H _].
  exact H.
Defined.

Lemma query_both :
  forall st u o,
    st <> "" ->
    query (Some st) (Some (WellFormed u)) o = true
    <-> orderSchema.status o = st /\ orderSchema.userId o = u.
Proof.
  intros st u o Hst. unfold query.
  apply String.eqb_neq in Hst. rewrite Hst.
  rewrite andb_true_iff, String.eqb_eq, Nat.eqb_eq. tauto.
Qed.

(** X3. [getAllOrders] answers 403 to a caller who is not an administrator.
    For an administrator, a status filter and a user filter select exactly
    the orders with that status and that user: with a limit of 1 or more,
    the pages 1 to [pages] put end to end are those orders, newest first,
    and the total is their number.  Without filters every order is
    selected. *)
Theorem getAllOrders_filtered :
  forall (user : option Claims) (limit : Z) (st : string) (u : UserId) (s : Store),
    (isAdmin user = false ->
     forall limit' page status userId,
       getAllOrders user limit' page status userId s = inl (Fail 403 access_denied)) /\
    (isAdmin user = true -> 1 <= limit -> st <> "" ->
     let selected := filter (query (Some st) (Some (WellFormed u))) (orders s) in
     let n := ceilDiv (Z.of_nat (List.length selected)) limit in
     (forall o, In o selected
                <-> In o (orders s) /\ orderSchema.status o = st /\ orderSchema.userId o = u) /\
     List.concat
       (map (fun p => foundIn (getAllOrders user (Some limit) (Some p) (Some st)
                                 (Some (WellFormed u)) s))
            (pageNumbers n))
     = map (Order.populate s) (rev selected) /\
     List.concat
       (map (fun p => foundIn (getAllOrders user (Some limit) (Some p) None None s))
            (pageNumbers (ceilDiv (Z.of_nat (List.length (orders s))) limit)))
     = map (Order.populate s) (rev (orders s))).
Proof.
  intros user limit st u s. split.
  - intros Hno limit' page status userId. unfold getAllOrders. rewrite Hno. reflexivity.
  - intros Hadmin Hl Hst selected n. split; [|split].
    + intros o. unfold selected. rewrite filter_In, (query_both st u o Hst). tauto.
    + unfold getAllOrders. rewrite Hadmin. simpl negb. cbv iota. fold selected.
      apply (pageOf_pages _ _ (Order.populate s) limit selected Hl).
    + unfold getAllOrders. rewrite Hadmin. simpl negb. cbv iota.
      assert (E : filter (query None None) (orders s) = orders s).
      { clear. induction (orders s) as [|o l IH]; simpl; [reflexivity|].
        rewrite IH. reflexivity. }
      rewrite E.
      apply (pageOf_pages _ _ (Order.populate s) limit (orders s) Hl).
Qed.

(** The administrator lists the pending orders of user 1 in
    [MoreExamples.history], two to a page. *)
Lemma getAllOrders_filtered_witness :
  map (fun po => orderSchema._id (fst po))
      (List.concat
         (map (fun p => foundIn (getAllOrders Examples.root (Some 2) (Some p)
                                   (Some "pending") (Some (WellFormed 1))
                                   MoreExamples.history))
              (pageNumbers 2)))
  = [46; 45; 43]%nat.
Proof.
  destruct (getAllOrders_filtered Examples.root 2 "pending" 1%nat MoreExamples.history)
    as [_ H].
  destruct (H eq_refl ltac:(lia) ltac:(discriminate)) as (_ & Hpages & _).
  change (pageNumbers 2)
    with (pageNumbers
            (ceilDiv (Z.of_nat (List.length
                                  (filter (query (Some "pending") (Some (WellFormed 1)))
                                          (orders MoreExamples.history)))) 2)).
  rewrite Hpages. reflexivity.
Defined.

(** ** Reading the inventory *)

Import inventoryQueries.

(** X4. [getAllInventory] answers 403 to a caller who is not an
    administrator.  For an administrator and a limit of 1 or more, the
    pages 1 to [pages] put end to end are all the inventory records, newest
    first, each with its product; a page holds [limit] records at most and
    a page after the last is empty. *)
Theorem getAllInventory_pages :
  forall (user : option Claims) (limit : Z) (s : Store),
    (isAdmin user = false ->
     forall limit' page, getAllInventory user limit' page s = inl (Fail 403 access_denied)) /\
    (isAdmin user = true -> 1 <= limit ->
     let n := ceilDiv (Z.of_nat (List.length (inventories s))) limit in
     List.concat (map (fun p => foundIn (getAllInventory user (Some limit) (Some p) s))
                      (pageNumbers n))
     = map (Inventory.populate s) (rev (inventories s)) /\
     (forall p, 1 <= p ->
        exists d,
          getAllInventory user (Some limit) (Some p) s = inl (Json 200 d) /\
          Z.of_nat (List.length (found d)) <= limit /\
          paging.total (pagination d) = Z.of_nat (List.length (inventories s)) /\
          paging.pages (pagination d) = n /\
          (n < p -> found d = []))).
Proof.
  intros user limit s. split.
  - intros Hno limit' page. unfold getAllInventory. rewrite Hno. reflexivity.
  - intros Hadmin Hl n. unfold getAllInventory. rewrite Hadmin. simpl negb. cbv iota.
    destruct (pageOf_pages _ _ (Inventory.populate s) limit (inventories s) Hl)
      as (H1 & H2 & _).
    split; assumption.
Qed.

(** The administrator lists the two records of [MoreExamples.history], one
    to a page. *)
Lemma getAllInventory_pages_witness :
  List.concat (map (fun p => foundIn (getAllInventory Examples.root (Some 1) (Some p)
                                        MoreExamples.history))
                   [1; 2])
  = map (Inventory.populate MoreExamples.history)
        (rev (inventories MoreExamples.history)).
Proof.
  destruct (getAllInventory_pages Examples.root 1 MoreExamples.history) as [_ H].
  destruct (H eq_refl ltac:(lia)) as [Hpages _].
  exact Hpages.
Defined.

(** ** Reading one order *)

Lemma getOrderById_shown :
  forall user userId i o s,
    authenticated user = Some userId ->
    Order.findById i s = Some o ->
    orderSchema.userId o = userId \/ isAdmin user = true ->
    getOrderById user (WellFormed i) s = Json 200 (Order.populate s o).
Proof.
  intros user userId i o s Hauth Hfind H.
  unfold getOrderById. rewrite Hauth, Hfind.
  destruct H as [Hown|Hadm].
  - apply Nat.eqb_eq in Hown. rewrite Hown. reflexivity.
  - rewrite Hadm, andb_false_r. reflexivity.
Qed.

(** X5. [getOrderById] shows an order to its owner and to an administrator
    only: a 200 answer carries an order of the store that belongs to the
    caller unless the caller is an administrator; the owner and the
    administrator do get the order that has the id, with its product; any
    other authenticated caller gets 403; an id that no order has gets
    404. *)
Theorem getOrderById_access :
  forall (user : option Claims) (s : Store),
    (forall id o p,
       getOrderById user id s = Json 200 (o, p) ->
       exists userId,
         authenticated user = Some userId /\
         In o (orders s) /\
         (orderSchema.userId o = userId \/ isAdmin user = true)) /\
    (forall userId i o,
       authenticated user = Some userId ->
       Order.findById i s = Some o ->
       (orderSchema.userId o = userId \/ isAdmin user = true ->
        getOrderById user (WellFormed i) s = Json 200 (Order.populate s o)) /\
       (orderSchema.userId o <> userId -> isAdmin user = false ->
        getOrderById user (WellFormed i) s
        = Fail 403 (Msg "Access denied. You can only view your own orders."))) /\
    (forall userId i,
       authenticated user = Some userId ->
       Order.findById i s = None ->
       getOrderById user (WellFormed i) s = Fail 404 (Msg "Order not found")).
Proof.
  intros user s. split; [|split].
  - intros id o p H. unfold getOrderById in H.
    destruct (authenticated user) as [userId|]; [|discriminate].
    destruct id as [|i]; [discriminate|].
    destruct (Order.findById i s) as [order|] eqn:Hfind; [|discriminate].
    destruct (Nat.eqb (orderSchema.userId order) userId) eqn:Hown;
      destruct (isAdmin user) eqn:Hadm; simpl in H; try discriminate;
      inversion H; subst; exists userId;
      (split; [reflexivity|]);
      (split; [unfold Order.findById in Hfind; apply find_some in Hfind; tauto|]).
    + left. apply Nat.eqb_eq, Hown.
    + left. apply Nat.eqb_eq, Hown.
    + right. reflexivity.
  - intros userId i o Hauth Hfind. split.
    + apply getOrderById_shown; assumption.
    + unfold getOrderById. rewrite Hauth, Hfind.
      intros Hother Hno. apply Nat.eqb_neq in Hother. rewrite Hother, Hno. reflexivity.
  - intros userId i Hauth Hnone. unfold getOrderById. rewrite Hauth, Hnone. reflexivity.
Qed.

(** User 2 asks for an order of user 1; user 1 and the administrator ask
    for the same order. *)
Lemma getOrderById_access_witness :
  getOrderById Examples.bob (WellFormed 33) Examples.oneOrder
  = Fail 403 (Msg "Access denied. You can only view your own orders.") /\
  getOrderById Examples.alice (WellFormed 33) Examples.oneOrder
  = getOrderById Examples.root (WellFormed 33) Examples.oneOrder.
Proof.
  destruct (getOrderById_access Examples.bob Examples.oneOrder) as (_ & Hbob & _).
  destruct (getOrderById_access Examples.alice Examples.oneOrder) as (_ & Halice & _).
  destruct (getOrderById_access Examples.root Examples.oneOrder) as (_ & Hroot & _).
  split.
  - apply (Hbob 2%nat 33%nat _ eq_refl eq_refl); [discriminate | reflexivity].
  - rewrite (proj1 (Halice 1%nat 33%nat _ eq_refl eq_refl) (or_introl eq_refl)).
    rewrite (proj1 (Hroot 3%nat 33%nat _ eq_refl eq_refl) (or_intror eq_refl)).
    reflexivity.
Defined.

(** ** From placing an order to reading it *)

Lemma distinct_app_fresh :
  forall (l : list nat) (n : nat),
    distinct l = true ->
    forallb (fun x => Nat.ltb x n) l = true ->
    distinct (l ++ [n]) = true.
Proof.
  induction l as [|x l IH]; intros n Hd Hlt; [reflexivity|].
  simpl in *. apply andb_true_iff in Hd as [Hx Hd].
  apply andb_true_iff in Hlt as [Hxn Hlt].
  apply andb_true_iff. split; [|apply IH; assumption].
  rewrite existsb_app, negb_orb. apply andb_true_iff. split; [exact Hx|].
  simpl. rewrite orb_false_r. apply negb_true_iff, Nat.eqb_neq.
  apply Nat.ltb_lt in Hxn. lia.
Qed.

Lemma find_by_distinct_id :
  forall (A : Type) (key : A -> nat) (l : list A) (o : A),
    distinct (map key l) = true ->
    In o l ->
    find (fun x => Nat.eqb (key x) (key o)) l = Some o.
Proof.
  intros A key l o. induction l as [|x l IH]; intros Hd Hin; [destruct Hin|].
  simpl in Hd. apply andb_true_iff in Hd as [Hx Hd]. simpl.
  destruct Hin as [E|Hin].
  - subst x. rewrite Nat.eqb_refl. reflexivity.
  - destruct (Nat.eqb (key x) (key o)) eqn:E; [|apply IH; assumption].
    exfalso. apply negb_true_iff in Hx.
    assert (Hex : existsb (Nat.eqb (key x)) (map key l) = true).
    { apply existsb_exists. exists (key o). split; [apply in_map, Hin | exact E]. }
    congruence.
Qed.

Lemma forEachCartItem_order_ids :
  forall userId cartItems createdOrders s,
    orderIdsOk s = true ->
    orderIdsOk (snd (forEachCartItem userId cartItems createdOrders s)) = true.
Proof.
  intros userId cartItems.
  induction cartItems as [|[cartItem [product|]] rest IH]; intros createdOrders s Hok.
  - exact Hok.
  - cbn [forEachCartItem]. cbv zeta.
    destruct (Inventory.findOne (productSchema._id product) s) as [inventory|];
      [|exact Hok].
    destruct (inventorySchema.quantity inventory <? cartSchema.quantity cartItem)%float;
      [exact Hok|].
    destruct (Order.createOrder _ _ _ _ _ s) as [e|[order s1]] eqn:Hcreate;
      [exact Hok|].
    apply Order_create_inr in Hcreate as [Horder Hs1].
    assert (Hok1 : orderIdsOk s1 = true).
    { unfold orderIdsOk in *. apply andb_true_iff in Hok as [Hf Hd].
      assert (Hid : orderSchema._id order = nextId s) by (rewrite Horder; reflexivity).
      rewrite Hs1. apply andb_true_iff. split.
      - unfold freshOrderIds. simpl. apply freshOrderIds_after_create; assumption.
      - simpl. rewrite map_app. simpl. rewrite Hid.
        apply distinct_app_fresh; [exact Hd|].
        unfold freshOrderIds in Hf. rewrite forallb_forall in *.
        intros x Hx. apply in_map_iff in Hx as (o & E & Ho). subst x.
        apply Hf, Ho. }
    destruct (Inventory.save _ s1) as [e|s2] eqn:Hsave; [exact Hok1|].
    apply Inventory_save_inr in Hsave as [_ Hs2].
    apply IH. rewrite Hs2. exact Hok1.
  - exact (IH createdOrders s Hok).
Qed.

(** X6. After [createOrder] has answered 201, on a store whose order ids
    are distinct and were drawn from the counter, every entry of the answer
    is an order that [getOrderById] gives back to the same user, with the
    same product attached. *)
Theorem createOrder_then_getOrderById :
  forall (user : option Claims) (userId : UserId) (s : Store)
         (data : list (option PopulatedOrder)) (s' : Store),
    authenticated user = Some userId ->
    orderIdsOk s = true ->
    createOrder user s = (Json 201 data, s') ->
    Forall (fun entry =>
              exists o p,
                entry = Some (o, p) /\
                getOrderById user (WellFormed (orderSchema._id o)) s' = Json 200 (o, p))
           data.
Proof.
  intros user userId s data s' Hauth Hok Hrun.
  pose proof Hok as Hfresh. unfold orderIdsOk in Hfresh.
  apply andb_true_iff in Hfresh as [Hfresh _].
  assert (Hok' : orderIdsOk s' = true).
  { unfold createOrder in Hrun. rewrite Hauth in Hrun. cbv zeta in Hrun.
    destruct (map (Cart.populate s) (Cart.find userId s)) as [|i items];
      [discriminate|].
    pose proof (forEachCartItem_order_ids userId (i :: items) [] s Hok) as H.
    rewrite Hrun in H. exact H. }
  unfold createOrder in Hrun. rewrite Hauth in Hrun. cbv zeta in Hrun.
  destruct (map (Cart.populate s) (Cart.find userId s)) as [|i items]; [discriminate|].
  destruct (forEachCartItem_success _ _ _ _ _ _ _ Hfresh Hrun) as (Ho & Hd & Hp).
  simpl in Hd. subst data.
  set (created := map fst (ordersFor userId (nextId s) (survivors (i :: items)))) in *.
  assert (Hown : Forall (fun o => orderSchema.userId o = userId) created).
  { subst created. clear. generalize (nextId s).
    induction (survivors (i :: items)) as [|[line p] rest IH]; intros n;
      constructor; [reflexivity | apply IH]. }
  apply Forall_forall. intros entry Hentry.
  apply in_map_iff in Hentry as (o & E & Hin). subst entry.
  exists o, (Product.findById (orderSchema.productId o) s).
  split; [reflexivity|].
  rewrite Forall_forall in Hown. specialize (Hown o Hin).
  assert (Hin' : In o (orders s')) by (rewrite Ho; apply in_or_app; right; exact Hin).
  assert (Hfind : Order.findById (orderSchema._id o) s' = Some o).
  { unfold Order.findById. apply find_by_distinct_id; [|exact Hin'].
    unfold orderIdsOk in Hok'. apply andb_true_iff in Hok'. tauto. }
  rewrite (getOrderById_shown user userId _ o s' Hauth Hfind (or_introl Hown)).
  unfold Order.populate, Product.findById. rewrite Hp. reflexivity.
Qed.

(** User 2 orders the cart of [Examples.oneOrder] and reads the two orders
    back. *)
Lemma createOrder_then_getOrderById_witness :
  Forall (fun entry =>
            exists o p,
              entry = Some (o, p) /\
              getOrderById Examples.bob (WellFormed (orderSchema._id o))
                (snd (createOrder Examples.bob Examples.oneOrder))
              = Json 200 (o, p))
         (match fst (createOrder Examples.bob Examples.oneOrder) with
          | Json _ data => data
          | _ => []
          end).
Proof.
  apply (createOrder_then_getOrderById Examples.bob 2%nat Examples.oneOrder);
    reflexivity.
Defined.


(** ** One user's cart requests and the carts of the others *)

Lemma distinct_key_inj :
  forall (A : Type) (key : A -> nat) (l : list A) (x y : A),
    distinct (map key l) = true ->
    In x l -> In y l -> key x = key y -> x = y.
Proof.
  intros A key l x y Hd Hx Hy E.
  pose proof (find_by_distinct_id A key l x Hd Hx) as Fx.
  pose proof (find_by_distinct_id A key l y Hd Hy) as Fy.
  rewrite E in Fx. congruence.
Qed.

Lemma filter_map_update :
  forall (A : Type) (p f : A -> bool) (g : A -> A) (l : list A),
    (forall x, In x l -> f x = true -> p x = false /\ p (g x) = false) ->
    filter p (map (fun x => if f x then g x else x) l) = filter p l.
Proof.
  intros A p f g l. induction l as [|x l IH]; intros H; [reflexivity|].
  simpl. rewrite IH by (intros y Hy; apply H; right; exact Hy).
  destruct (f x) eqn:E; [|reflexivity].
  destruct (H x (or_introl eq_refl) E) as [H1 H2]. rewrite H1, H2. reflexivity.
Qed.

Lemma filter_filter_out :
  forall (A : Type) (p q : A -> bool) (l : list A),
    (forall x, In x l -> q x = false -> p x = false) ->
    filter p (filter q l) = filter p l.
Proof.
  intros A p q l. induction l as [|x l IH]; intros H; [reflexivity|].
  simpl. specialize (IH (fun y Hy => H y (or_intror Hy))).
  destruct (q x) eqn:E; simpl; rewrite IH; [reflexivity|].
  rewrite (H x (or_introl eq_refl) E). reflexivity.
Qed.

Lemma ofUser_other :
  forall userId other c,
    other <> userId -> cartSchema.userId c = userId -> Cart.ofUser other c = false.
Proof.
  intros userId other c Hne Hc. unfold Cart.ofUser. rewrite Hc.
  apply Nat.eqb_neq. congruence.
Qed.

(** Writing the quantity of a line of [userId], found by its id, leaves
    the lines of [other] alone. *)
Lemma save_isolated :
  forall userId other q e s,
    other <> userId ->
    cartIdsDistinct s = true ->
    In e (carts s) -> cartSchema.userId e = userId ->
    Cart.find other (Cart.save (cartSchema.set_quantity q e) s) = Cart.find other s.
Proof.
  intros userId other q e s Hne Hd Hin He.
  unfold Cart.find, Cart.save. simpl.
  apply filter_map_update. intros x Hx Hid. apply Nat.eqb_eq in Hid.
  assert (x = e) by (eapply distinct_key_inj; eassumption). subst x.
  split; apply (ofUser_other userId); auto.
Qed.

Lemma deleteMany_other :
  forall userId other s,
    other <> userId ->
    Cart.find other (snd (Cart.deleteMany userId s)) = Cart.find other s.
Proof.
  intros userId other s Hne. unfold Cart.deleteMany, Cart.find. simpl.
  apply filter_filter_out. intros x _ Hx. apply negb_false_iff in Hx.
  unfold Cart.ofUser in *. apply Nat.eqb_eq in Hx. apply Nat.eqb_neq. congruence.
Qed.

(** The loop of [createOrder] changes the cart collection at its end only. *)
Lemma forEachCartItem_carts :
  forall userId cartItems createdOrders s,
    carts (snd (forEachCartItem userId cartItems createdOrders s)) = carts s \/
    carts (snd (forEachCartItem userId cartItems createdOrders s))
    = carts (snd (Cart.deleteMany userId s)).
Proof.
  intros userId cartItems.
  induction cartItems as [|[cartItem [product|]] rest IH]; intros createdOrders s.
  - right. reflexivity.
  - cbn [forEachCartItem]. cbv zeta.
    destruct (Inventory.findOne (productSchema._id product) s) as [inventory|];
      [|left; reflexivity].
    destruct (inventorySchema.quantity inventory <? cartSchema.quantity cartItem)%float;
      [left; reflexivity|].
    destruct (Order.createOrder _ _ _ _ _ s) as [e|[order s1]] eqn:Hcreate;
      [left; reflexivity|].
    apply Order_create_inr in Hcreate as [_ Hs1].
    destruct (Inventory.save _ s1) as [e|s2] eqn:Hsave.
    + left. rewrite Hs1. reflexivity.
    + apply Inventory_save_inr in Hsave as [_ Hs2].
      assert (Hc : carts s2 = carts s) by (rewrite Hs2, Hs1; reflexivity).
      destruct (IH (createdOrders ++ [findPopulated (orderSchema._id order) s2])%list s2)
        as [H|H]; rewrite H; [left; exact Hc | right].
      unfold Cart.deleteMany. simpl. rewrite Hc. reflexivity.
  - exact (IH createdOrders s).
Qed.

(** X7. When the ids of the cart lines are distinct, no request of an
    authenticated user on the cart, and no order they place, changes the
    cart lines of another user: [addToCart], [updateCartItem],
    [removeFromCart], [clearCart] and [createOrder] leave
    [Cart.find other] as it was. *)
Theorem cart_of_others_untouched :
  forall (js : Coercions) (user : option Claims) (userId other : UserId) (s : Store),
    authenticated user = Some userId ->
    other <> userId ->
    cartIdsDistinct s = true ->
    (forall productId quantity,
       Cart.find other (snd (cartController.addToCart js user productId quantity s))
       = Cart.find other s) /\
    (forall itemId quantity,
       Cart.find other (snd (cartController.updateCartItem js user itemId quantity s))
       = Cart.find other s) /\
    (forall itemId,
       Cart.find other (snd (cartController.removeFromCart user itemId s))
       = Cart.find other s) /\
    Cart.find other (snd (cartController.clearCart user s)) = Cart.find other s /\
    Cart.find other (snd (createOrder user s)) = Cart.find other s.
Proof.
  intros js user userId other s Hauth Hne Hd.
  split; [|split; [|split; [|split]]].
  - intros productId quantity. unfold cartController.addToCart. rewrite Hauth.
    destruct productId as [[|pid]|], quantity as [q|]; try reflexivity.
    + destruct (falsy q); reflexivity.
    + destruct (falsy q); [reflexivity|].
      destruct (toNumber js q <? 1)%float; [reflexivity|].
      destruct (Product.findById pid s); [|reflexivity].
      destruct (Cart.findOne userId pid s) as [existing|] eqn:Hone.
      * unfold Cart.assign.
        destruct (castNumber js _) as [x| |]; try reflexivity.
        simpl. unfold Cart.findOne in Hone. apply find_some in Hone as [Hin Hk].
        apply andb_true_iff in Hk as [Hu _]. apply Nat.eqb_eq in Hu.
        eapply save_isolated; eassumption.
      * unfold Cart.createCart.
        destruct (castNumber js q) as [x| |]; try reflexivity.
        simpl. unfold Cart.find. simpl. rewrite filter_app. simpl.
        unfold Cart.ofUser at 2. simpl.
        assert (E : Nat.eqb userId other = false) by (apply Nat.eqb_neq; congruence).
        rewrite E. apply app_nil_r.
  - intros itemId quantity. unfold cartController.updateCartItem. rewrite Hauth.
    destruct itemId as [|id]; [reflexivity|].
    destruct quantity as [q|]; [|reflexivity].
    destruct (isNull q); [reflexivity|].
    destruct (toNumber js q <? 1)%float; [reflexivity|].
    destruct (Cart.findOneById id userId s) as [cartItem|] eqn:Hone; [|reflexivity].
    unfold Cart.assign. destruct (castNumber js q) as [x| |]; try reflexivity.
    simpl. unfold Cart.findOneById in Hone. apply find_some in Hone as [Hin Hk].
    apply andb_true_iff in Hk as [_ Hu]. apply Nat.eqb_eq in Hu.
    eapply save_isolated; eassumption.
  - intros itemId. unfold cartController.removeFromCart, Cart.findOneAndDelete.
    rewrite Hauth. destruct itemId as [|id]; [reflexivity|].
    destruct (Cart.findOneById id userId s) as [c|] eqn:Hone; [|reflexivity].
    simpl. unfold Cart.findOneById in Hone. apply find_some in Hone as [Hin Hk].
    apply andb_true_iff in Hk as [_ Hu]. apply Nat.eqb_eq in Hu.
    unfold Cart.find. simpl. apply filter_filter_out.
    intros x Hx Hid. apply negb_false_iff, Nat.eqb_eq in Hid.
    assert (x = c) by (eapply distinct_key_inj; eassumption). subst x.
    apply (ofUser_other userId); auto.
  - unfold cartController.clearCart. rewrite Hauth.
    apply (deleteMany_other userId other s Hne).
  - unfold createOrder. rewrite Hauth. cbv zeta.
    destruct (map (Cart.populate s) (Cart.find userId s)) as [|i items]; [reflexivity|].
    destruct (forEachCartItem_carts userId (i :: items) [] s) as [H|H];
      unfold Cart.find at 1; rewrite H; [reflexivity|].
    apply (deleteMany_other userId other s Hne).
Qed.

(** User 2 fills, changes and empties a cart on [MoreExamples.history]; the
    line of user 1 stays. *)
Lemma cart_of_others_untouched_witness :
  Cart.find 1 (snd (cartController.addToCart Examples.conversions Examples.bob
                      (Some (WellFormed 10)) (Some (Num 3)) MoreExamples.history))
  = Cart.find 1 MoreExamples.history /\
  Cart.find 1 (snd (cartController.removeFromCart Examples.bob (WellFormed 30)
                      MoreExamples.history))
  = Cart.find 1 MoreExamples.history /\
  Cart.find 1 (snd (createOrder Examples.bob MoreExamples.history))
  = Cart.find 1 MoreExamples.history.
Proof.
  destruct (cart_of_others_untouched Examples.conversions Examples.bob 2%nat 1%nat
              MoreExamples.history eq_refl ltac:(discriminate) eq_refl)
    as (Hadd & _ & Hrm & _ & Hord).
  split; [apply Hadd | split; [apply Hrm | exact Hord]].
Defined.

(** ** One cart line per user and product *)

Lemma existsb_map_same :
  forall (A : Type) (P : A -> bool) (g : A -> A) (l : list A),
    (forall x, P (g x) = P x) -> existsb P (map g l) = existsb P l.
Proof.
  intros A P g l H. induction l as [|x l IH]; simpl; [reflexivity|].
  rewrite H, IH. reflexivity.
Qed.

Lemma oneLine_map :
  forall (g : cartSchema.doc -> cartSchema.doc) (l : list cartSchema.doc),
    (forall x, cartSchema.userId (g x) = cartSchema.userId x /\
               cartSchema.productId (g x) = cartSchema.productId x) ->
    oneLinePerProduct (map g l) = oneLinePerProduct l.
Proof.
  intros g l H. induction l as [|c l IH]; simpl; [reflexivity|].
  rewrite IH. f_equal. f_equal.
  destruct (H c) as [Hu Hp]. rewrite Hu, Hp.
  apply existsb_map_same. intros x. destruct (H x) as [Hxu Hxp].
  rewrite Hxu, Hxp. reflexivity.
Qed.

Lemma oneLine_filter :
  forall (f : cartSchema.doc -> bool) (l : list cartSchema.doc),
    oneLinePerProduct l = true -> oneLinePerProduct (filter f l) = true.
Proof.
  intros f l. induction l as [|c l IH]; simpl; intros H; [reflexivity|].
  apply andb_true_iff in H as [Hc Hl].
  destruct (f c); [|apply IH, Hl].
  simpl. apply andb_true_iff. split; [|apply IH, Hl].
  apply negb_true_iff. apply negb_true_iff in Hc.
  destruct (existsb _ (filter f l)) eqn:E; [|reflexivity].
  apply existsb_exists in E as (x & Hx & Hk). apply filter_In in Hx as [Hx _].
  rewrite <- Hc. symmetry. apply existsb_exists. exists x. split; assumption.
Qed.

Lemma oneLine_snoc :
  forall (c : cartSchema.doc) (l : list cartSchema.doc),
    oneLinePerProduct l = true ->
    find (fun x => Nat.eqb (cartSchema.userId x) (cartSchema.userId c)
                   && Nat.eqb (cartSchema.productId x) (cartSchema.productId c)) l
    = None ->
    oneLinePerProduct (l ++ [c]) = true.
Proof.
  intros c l. induction l as [|x l IH]; simpl; intros H Hnone; [reflexivity|].
  apply andb_true_iff in H as [Hx Hl].
  destruct (Nat.eqb (cartSchema.userId x) (cartSchema.userId c)
            && Nat.eqb (cartSchema.productId x) (cartSchema.productId c)) eqn:E;
    [discriminate|].
  apply andb_true_iff. split; [|apply IH; assumption].
  rewrite existsb_app, negb_orb. apply andb_true_iff. split; [exact Hx|].
  simpl. rewrite orb_false_r. apply negb_true_iff.
  rewrite (Nat.eqb_sym (cartSchema.userId c)), (Nat.eqb_sym (cartSchema.productId c)).
  exact E.
Qed.

Lemma oneLine_update :
  forall (f : cartSchema.doc -> bool) (q : Number) (l : list cartSchema.doc),
    oneLinePerProduct
      (map (fun x => if f x then cartSchema.set_quantity q x else x) l)
    = oneLinePerProduct l.
Proof.
  intros f q l. apply oneLine_map. intros x. destruct (f x); split; reflexivity.
Qed.

Lemma exec_oneLine :
  forall updateValidators js sv e,
    oneLinePerProduct (carts (eventLoop.db sv)) = true ->
    oneLinePerProduct (carts (eventLoop.db (eventLoop.exec updateValidators js sv e)))
    = true.
Proof.
  intros uv js sv e Hok.
  assert (Hsame : forall s', sameCarts (eventLoop.db sv) s' ->
                             oneLinePerProduct (carts s') = true).
  { intros s' E. unfold sameCarts in E. rewrite E. exact Hok. }
  destruct e; simpl.
  - exact Hok.
  - destruct (nth_error (eventLoop.calls sv) i) as [c|]; [|exact Hok].
    destruct c; simpl; try exact Hok.
    + destruct (map _ (Cart.find userId (eventLoop.db sv))); exact Hok.
    + destruct (Inventory.findOne _ (eventLoop.db sv)); [|exact Hok].
      destruct (_ <? _)%float; exact Hok.
    + unfold Order.createOrder. destruct (Order.validate _ _ _); exact Hok.
    + unfold Inventory.save. destruct (Inventory.validate _); exact Hok.
    + apply oneLine_filter, Hok.
  - unfold cartController.addToCart.
    destruct (authenticated user) as [userId|]; [|exact Hok].
    destruct productId as [[|pid]|], quantity as [q|]; try exact Hok.
    + destruct (falsy q); exact Hok.
    + destruct (falsy q); [exact Hok|].
      destruct (toNumber js q <? 1)%float; [exact Hok|].
      destruct (Product.findById pid (eventLoop.db sv)); [|exact Hok].
      destruct (Cart.findOne userId pid (eventLoop.db sv)) as [existing|] eqn:Hone.
      * unfold Cart.assign. destruct (castNumber js _) as [x| |]; try exact Hok.
        simpl. rewrite oneLine_update. exact Hok.
      * unfold Cart.createCart. destruct (castNumber js q) as [x| |]; try exact Hok.
        simpl. apply oneLine_snoc; [exact Hok | exact Hone].
  - unfold cartController.updateCartItem.
    destruct (authenticated user) as [userId|]; [|exact Hok].
    destruct itemId as [|id]; [exact Hok|].
    destruct quantity as [q|]; [|exact Hok].
    destruct (isNull q); [exact Hok|].
    destruct (toNumber js q <? 1)%float; [exact Hok|].
    destruct (Cart.findOneById id userId (eventLoop.db sv)); [|exact Hok].
    unfold Cart.assign. destruct (castNumber js q) as [x| |]; try exact Hok.
    simpl. rewrite oneLine_update. exact Hok.
  - unfold cartController.removeFromCart, Cart.findOneAndDelete.
    destruct (authenticated user) as [userId|]; [|exact Hok].
    destruct itemId as [|id]; [exact Hok|].
    destruct (Cart.findOneById id userId (eventLoop.db sv)); [|exact Hok].
    simpl. apply oneLine_filter, Hok.
  - unfold cartController.clearCart, Cart.deleteMany.
    destruct (authenticated user) as [userId|]; [|exact Hok].
    simpl. apply oneLine_filter, Hok.
  - apply Hsame, createInventory_frame.
  - apply Hsame, updateInventory_frame.
  - apply Hsame, updateInventoryQuantity_frame.
  - apply Hsame, updateProduct_frame.
  - apply Hsame, deleteProduct_frame.
  - apply Hsame, updateOrderStatus_frame.
Qed.

(** X8. [addToCart] creates a line only when the user has none for the
    product, and otherwise adds to the one it finds.  So, with the cart
    requests served one at a time (calls of [createOrder] may be
    interleaved), a cart collection with at most one line per user and
    product keeps that property whatever requests are served. *)
Theorem one_line_per_user_and_product :
  forall (updateValidators : productSchema.fields -> option Exn) (js : Coercions)
         (trace : list eventLoop.Event) (sv : eventLoop.Server),
    oneLinePerProduct (carts (eventLoop.db sv)) = true ->
    oneLinePerProduct (carts (eventLoop.db (eventLoop.run updateValidators js sv trace)))
    = true.
Proof.
  intros uv js trace. unfold eventLoop.run.
  induction trace as [|e trace IH]; intros sv Hok; simpl; [exact Hok|].
  apply IH, exec_oneLine, Hok.
Qed.

(** The cart requests of [Examples.shopping], which add twice to the same
    products. *)
Lemma one_line_per_user_and_product_witness :
  oneLinePerProduct
    (carts (eventLoop.db (eventLoop.run Examples.noValidators Examples.conversions
                            (Examples.idle Examples.twoLines) Examples.shopping)))
  = true.
Proof.
  apply (one_line_per_user_and_product Examples.noValidators Examples.conversions
           Examples.shopping (Examples.idle Examples.twoLines)).
  reflexivity.
Defined.

(** ** From adding to the cart to reading it *)

Lemma find_map_update_first :
  forall (A : Type) (P f : A -> bool) (g : A -> A) (l : list A) (e : A),
    find P l = Some e ->
    (forall x, P (g x) = P x) ->
    f e = true ->
    find P (map (fun x => if f x then g x else x) l) = Some (g e).
Proof.
  intros A P f g l e. induction l as [|x l IH]; intros Hfind HP Hf; [discriminate|].
  simpl in *. destruct (P x) eqn:E.
  - inversion Hfind; subst x. rewrite Hf, HP, E. reflexivity.
  - assert (E' : P (if f x then g x else x) = false)
      by (destruct (f x); [rewrite HP|]; exact E).
    rewrite E'. apply IH; assumption.
Qed.

Lemma find_snoc_none :
  forall (A : Type) (P : A -> bool) (l : list A) (d : A),
    find P l = None -> P d = true -> find P (l ++ [d]) = Some d.
Proof.
  intros A P l d. induction l as [|x l IH]; simpl; intros Hn Hd.
  - rewrite Hd. reflexivity.
  - destruct (P x); [discriminate|]. apply IH; assumption.
Qed.

(** X9. After [addToCart] by an authenticated user for an existing
    product, with a quantity that passes the two checks of the handler and
    that the [quantity] path takes as the number [x], the cart that
    [getCart] returns to the user holds a line for the product, with the
    product attached, whose quantity is [x].  What is given to the path is
    the quantity of the request when the user has no line for the product,
    and [before + quantity] when there is a line with the quantity
    [before].  So for a number [q], [x] is [q] for a new line and the sum
    of the Numbers [before] and [q] for an existing one; for a string, [x]
    is the number that the string reads as for a new line, and for an
    existing line the number that the string of [before] followed by the
    string of the request reads as. *)
Theorem addToCart_then_getCart :
  forall (js : Coercions) (user : option Claims) (userId : UserId) (pid : ObjectId)
         (v : Raw) (s : Store) (p : productSchema.doc) (x : Number),
    authenticated user = Some userId ->
    Product.findById pid s = Some p ->
    falsy v = false ->
    (toNumber js v <? 1)%float = false ->
    let before := option_map cartSchema.quantity (Cart.findOne userId pid s) in
    castNumber js (match before with Some n => plus js n v | None => v end) = CastTo x ->
    let s' := snd (cartController.addToCart js user (Some (WellFormed pid)) (Some v) s) in
    (exists line items,
       cartQueries.getCart user s' = Json 200 items /\
       In (line, Some p) items /\
       Cart.findOne userId pid s' = Some line /\
       cartSchema.productId line = pid /\
       cartSchema.quantity line = x) /\
    (forall q, v = Num q ->
       x = match before with Some n => (n + q)%float | None => q end) /\
    (forall text, v = Str text ->
       x = ToNumber js (match before with
                        | Some n => ToString js n ++ text
                        | None => text
                        end)).
Proof.
  intros js user userId pid v s p x Hauth Hp Htruthy Hnotless before Hcast s'.
  subst s'.
  assert (Hgoal : forall s' line,
            products s' = products s ->
            Cart.findOne userId pid s' = Some line ->
            exists items,
              cartQueries.getCart user s' = Json 200 items /\
              In (line, Some p) items /\
              cartSchema.productId line = pid).
  { intros s' line Hprod Hline. unfold cartQueries.getCart. rewrite Hauth.
    eexists. split; [reflexivity|].
    unfold Cart.findOne in Hline. apply find_some in Hline as [Hin Hk].
    apply andb_true_iff in Hk as [Hu Hpid].
    apply Nat.eqb_eq in Hpid. split; [|exact Hpid].
    apply in_map_iff. exists line. split.
    - unfold Cart.populate, Product.findById. rewrite Hprod, Hpid.
      f_equal. exact Hp.
    - unfold Cart.find. apply filter_In. split; [exact Hin | exact Hu]. }
  split; [|split].
  - unfold cartController.addToCart. rewrite Hauth, Htruthy, Hnotless, Hp.
    subst before.
    destruct (Cart.findOne userId pid s) as [existing|] eqn:Hone; simpl in Hcast.
    + unfold Cart.assign. rewrite Hcast. simpl.
      assert (Hline : Cart.findOne userId pid
                        (Cart.save (cartSchema.set_quantity x existing) s)
                      = Some (cartSchema.set_quantity x existing)).
      { unfold Cart.findOne, Cart.save in *. simpl.
        apply (find_map_update_first _ _ _ (cartSchema.set_quantity x));
          [exact Hone | reflexivity | apply Nat.eqb_refl]. }
      pose proof (fun H => Hgoal _ _ H Hline) as Hg.
      destruct (Hg eq_refl) as (items & Hget & Hin & Hpid).
      eexists _, items. repeat split; try eassumption. reflexivity.
    + unfold Cart.createCart. rewrite Hcast. simpl.
      assert (Hline : Cart.findOne userId pid
                        (bump (with_carts
                                 (carts s ++ [{| cartSchema._id := nextId s;
                                                 cartSchema.userId := userId;
                                                 cartSchema.productId := pid;
                                                 cartSchema.quantity := x |}]) s))
                      = Some {| cartSchema._id := nextId s;
                                cartSchema.userId := userId;
                                cartSchema.productId := pid;
                                cartSchema.quantity := x |}).
      { unfold Cart.findOne in *. simpl.
        apply find_snoc_none; [exact Hone|]. simpl. rewrite !Nat.eqb_refl. reflexivity. }
      pose proof (fun H => Hgoal _ _ H Hline) as Hg.
      destruct (Hg eq_refl) as (items & Hget & Hin & Hpid).
      eexists _, items. repeat split; try eassumption. reflexivity.
  - intros q Hv. subst v. destruct before as [n|]; simpl in Hcast;
      destruct (isNaN _); inversion Hcast; reflexivity.
  - intros text Hv. subst v. destruct before as [n|]; simpl in Hcast.
    + destruct (String.eqb _ ""); [discriminate|].
      destruct (isNaN _); inversion Hcast; reflexivity.
    + destruct (String.eqb text ""); [discriminate|].
      destruct (isNaN _); inversion Hcast; reflexivity.
Qed.

(** User 1 adds to a cart that holds 2 units of product A: with the number
    3 the line has 5 units, with the string ["3"] it has 23. *)
Lemma addToCart_then_getCart_witness :
  (exists line items,
     cartQueries.getCart Examples.alice
       (snd (cartController.addToCart Examples.conversions Examples.alice
               (Some (WellFormed 10)) (Some (Num 3)) Examples.twoLines))
     = Json 200 items /\
     In (line, Some Examples.productA) items /\
     cartSchema.quantity line = 5%float) /\
  (exists line items,
     cartQueries.getCart Examples.alice
       (snd (cartController.addToCart Examples.conversions Examples.alice
               (Some (WellFormed 10)) (Some (Str "3")) Examples.twoLines))
     = Json 200 items /\
     In (line, Some Examples.productA) items /\
     cartSchema.quantity line = 23%float).
Proof.
  split.
  - destruct (addToCart_then_getCart Examples.conversions Examples.alice 1%nat 10%nat
                (Num 3) Examples.twoLines Examples.productA 5%float
                eq_refl eq_refl eq_refl eq_refl eq_refl)
      as [(line & items & Hget & Hin & _ & _ & Hq) _].
    exists line, items. repeat split; assumption.
  - destruct (addToCart_then_getCart Examples.conversions Examples.alice 1%nat 10%nat
                (Str "3") Examples.twoLines Examples.productA 23%float
                eq_refl eq_refl eq_refl eq_refl eq_refl)
      as [(line & items & Hget & Hin & _ & _ & Hq) _].
    exists line, items. repeat split; assumption.
Defined.

(** ** Removing a cart line *)

(** X10. [removeFromCart] removes a line of the caller only.  When no line
    with the id belongs to the caller (there is none, or it is another
    user's), the answer is 404 and the store is unchanged.  When the caller
    has the line and the cart ids are distinct, the answer is 200 and the
    cart collection loses that line and no other. *)
Theorem removeFromCart_own_line :
  forall (user : option Claims) (userId : UserId) (id : ObjectId) (s : Store),
    authenticated user = Some userId ->
    ((forall c, In c (carts s) -> cartSchema._id c = id ->
                cartSchema.userId c <> userId) ->
     cartController.removeFromCart user (WellFormed id) s
     = (Fail 404 (Msg "Cart item not found"), s)) /\
    (forall c,
       In c (carts s) -> cartSchema._id c = id -> cartSchema.userId c = userId ->
       cartIdsDistinct s = true ->
       fst (cartController.removeFromCart user (WellFormed id) s)
       = Json 200 {| cartController.message := "Item removed from cart successfully";
                     cartController.deletedCount := None |} /\
       (forall x, In x (carts (snd (cartController.removeFromCart user (WellFormed id) s)))
                  <-> In x (carts s) /\ x <> c)).
Proof.
  intros user userId id s Hauth. split.
  - intros Hnot. unfold cartController.removeFromCart, Cart.findOneAndDelete.
    rewrite Hauth.
    destruct (Cart.findOneById id userId s) as [c|] eqn:Hone; [|reflexivity].
    exfalso. unfold Cart.findOneById in Hone. apply find_some in Hone as [Hin Hk].
    apply andb_true_iff in Hk as [Hid Hu].
    apply Nat.eqb_eq in Hid. apply Nat.eqb_eq in Hu.
    exact (Hnot c Hin Hid Hu).
  - intros c Hin Hid Hu Hd.
    assert (Hone : Cart.findOneById id userId s = Some c).
    { unfold Cart.findOneById.
      destruct (find _ (carts s)) as [c'|] eqn:Hfind.
      - apply find_some in Hfind as [Hin' Hk].
        apply andb_true_iff in Hk as [Hid' _]. apply Nat.eqb_eq in Hid'.
        f_equal. eapply distinct_key_inj; try eassumption. congruence.
      - exfalso. apply (find_none _ _ Hfind) in Hin.
        rewrite Hid, Hu, !Nat.eqb_refl in Hin. discriminate. }
    unfold cartController.removeFromCart, Cart.findOneAndDelete.
    rewrite Hauth, Hone. simpl. split; [reflexivity|].
    intros x. rewrite filter_In, negb_true_iff, Nat.eqb_neq. split.
    + intros [Hx Hne]. split; [exact Hx|]. intros E. subst x. auto.
    + intros [Hx Hne]. split; [exact Hx|]. intros E. apply Hne.
      eapply distinct_key_inj; eassumption.
Qed.

(** User 2 tries to remove the line of user 1, then user 1 removes it. *)
Lemma removeFromCart_own_line_witness :
  cartController.removeFromCart Examples.bob (WellFormed 30) MoreExamples.history
  = (Fail 404 (Msg "Cart item not found"), MoreExamples.history) /\
  fst (cartController.removeFromCart Examples.alice (WellFormed 30) MoreExamples.history)
  = Json 200 {| cartController.message := "Item removed from cart successfully";
                cartController.deletedCount := None |}.
Proof.
  split.
  - apply (removeFromCart_own_line Examples.bob 2%nat 30%nat MoreExamples.history eq_refl).
    intros c Hin Hid. simpl in Hin.
    destruct Hin as [E|[E|[E|[]]]]; subst c; simpl in *; congruence.
  - apply (proj2 (removeFromCart_own_line Examples.alice 1%nat 30%nat
                    MoreExamples.history eq_refl)
                 (Examples.line 30 1 10 2)); try reflexivity.
    left. reflexivity.
Defined.


(** ** One inventory record per product *)

Lemma distinct_NoDup :
  forall l : list nat, distinct l = true <-> NoDup l.
Proof.
  induction l as [|x l IH]; simpl.
  - split; [constructor | reflexivity].
  - rewrite andb_true_iff, negb_true_iff, IH. split.
    + intros [Hx Hl]. constructor; [|exact Hl].
      intros Hin. assert (existsb (Nat.eqb x) l = true); [|congruence].
      apply existsb_exists. exists x. split; [exact Hin | apply Nat.eqb_refl].
    + intros H. inversion H as [|? ? Hx Hl]; subst. split; [|exact Hl].
      destruct (existsb (Nat.eqb x) l) eqn:E; [|reflexivity].
      apply existsb_exists in E as (y & Hy & Exy). apply Nat.eqb_eq in Exy.
      subst y. contradiction.
Qed.

Lemma distinct_of_inj :
  forall (A : Type) (key : A -> nat) (l : list A),
    NoDup l ->
    (forall x y, In x l -> In y l -> key x = key y -> x = y) ->
    distinct (map key l) = true.
Proof.
  intros A key l Hnd Hinj. apply distinct_NoDup.
  induction Hnd as [|x l Hx Hnd IH]; simpl; constructor.
  - intros Hin. apply in_map_iff in Hin as (y & E & Hy).
    assert (y = x) by (apply Hinj; [right; exact Hy | left; reflexivity | exact E]).
    subst y. contradiction.
  - apply IH. intros a b Ha Hb. apply Hinj; right; assumption.
Qed.

Lemma distinct_map_NoDup :
  forall (A : Type) (key : A -> nat) (l : list A),
    distinct (map key l) = true -> NoDup l.
Proof.
  intros A key l H. apply distinct_NoDup in H. eapply NoDup_map_inv, H.
Qed.

Lemma inventoryKeysOk_same_keys :
  forall s s',
    map inventorySchema._id (inventories s') = map inventorySchema._id (inventories s) ->
    map inventorySchema.productId (inventories s')
    = map inventorySchema.productId (inventories s) ->
    (nextId s <= nextId s')%nat ->
    inventoryKeysOk s = true -> inventoryKeysOk s' = true.
Proof.
  intros s s' Hid Hpid Hn H. unfold inventoryKeysOk in *.
  apply andb_true_iff in H as [H H3]. apply andb_true_iff in H as [H1 H2].
  rewrite Hid, Hpid, H1, H2. simpl.
  assert (Hlt : forallb (fun i => Nat.ltb i (nextId s'))
                        (map inventorySchema._id (inventories s')) = true).
  { rewrite Hid. rewrite forallb_forall in *. intros i Hi.
    apply in_map_iff in Hi as (d & E & Hd). subst i.
    specialize (H3 d Hd). apply Nat.ltb_lt in H3. apply Nat.ltb_lt. lia. }
  rewrite forallb_forall in *. intros d Hd. apply Hlt, in_map, Hd.
Qed.

Lemma inventoryKeysOk_sameInventories :
  forall s s',
    sameInventories s s' -> (nextId s <= nextId s')%nat ->
    inventoryKeysOk s = true -> inventoryKeysOk s' = true.
Proof.
  unfold sameInventories. intros s s' E Hn H.
  apply (inventoryKeysOk_same_keys s s'); try assumption; rewrite E; reflexivity.
Qed.

Lemma map_key_set_quantity :
  forall (A : Type) (key : inventorySchema.doc -> A)
         (f : inventorySchema.doc -> bool) (q : Number) (l : list inventorySchema.doc),
    (forall x, key (inventorySchema.set_quantity q x) = key x) ->
    map key (map (fun x => if f x then inventorySchema.set_quantity q x else x) l)
    = map key l.
Proof.
  intros A key f q l H. rewrite map_map. apply map_ext.
  intros x. destruct (f x); [apply H | reflexivity].
Qed.

Lemma resume_nextId :
  forall c s, (nextId s <= nextId (snd (eventLoop.resume c s)))%nat.
Proof.
  intros c s. destruct c; simpl; try lia.
  - destruct (map (Cart.populate s) (Cart.find userId s)); simpl; lia.
  - destruct (Inventory.findOne (productSchema._id product) s); [|simpl; lia].
    destruct (inventorySchema.quantity d <? cartSchema.quantity cartItem)%float; simpl; lia.
  - unfold Order.createOrder. destruct (Order.validate _ _ _); simpl; lia.
  - unfold Inventory.save. destruct (Inventory.validate _); simpl; lia.
Qed.

Lemma resume_inventory_keys :
  forall c s,
    map inventorySchema._id (inventories (snd (eventLoop.resume c s)))
    = map inventorySchema._id (inventories s) /\
    map inventorySchema.productId (inventories (snd (eventLoop.resume c s)))
    = map inventorySchema.productId (inventories s).
Proof.
  intros c s. destruct c; simpl; try (split; reflexivity).
  - destruct (map (Cart.populate s) (Cart.find userId s)); split; reflexivity.
  - destruct (Inventory.findOne (productSchema._id product) s); [|split; reflexivity].
    destruct (inventorySchema.quantity d <? cartSchema.quantity cartItem)%float;
      split; reflexivity.
  - unfold Order.createOrder. destruct (Order.validate _ _ _); split; reflexivity.
  - unfold Inventory.save. destruct (Inventory.validate _); [split; reflexivity|].
    simpl. split; apply map_key_set_quantity; reflexivity.
Qed.

Lemma createInventory_keys :
  forall js user productId quantity s,
    inventoryKeysOk s = true ->
    inventoryKeysOk (snd (inventoryController.createInventory js user productId quantity s))
    = true.
Proof.
  intros js user productId quantity s Hok.
  unfold inventoryController.createInventory.
  destruct (negb (isAdmin user)); [exact Hok|].
  destruct productId as [|pid]; [exact Hok|].
  destruct (Product.findById pid s); [|exact Hok].
  destruct (Inventory.findOne pid s) eqn:Hone; [exact Hok|].
  destruct (Inventory.createInventory js pid quantity s) as [e|[inventory s']] eqn:H;
    [exact Hok|].
  apply Inventory_createInventory_inr in H as (_ & _ & Hd & Hs'). subst s'.
  simpl. unfold inventoryKeysOk in *. simpl.
  apply andb_true_iff in Hok as [Hok H3]. apply andb_true_iff in Hok as [H1 H2].
  rewrite !map_app. simpl. rewrite Hd. simpl.
  assert (Hfresh : forallb (fun i => Nat.ltb i (nextId s))
                           (map inventorySchema._id (inventories s)) = true).
  { rewrite forallb_forall in *. intros i Hi.
    apply in_map_iff in Hi as (r & E & Hr). subst i. apply H3, Hr. }
  apply andb_true_iff. split; [apply andb_true_iff; split|].
  - exact (distinct_app_fresh _ _ H1 Hfresh).
  - apply distinct_NoDup. apply distinct_NoDup in H2.
    apply NoDup_app; [exact H2 | repeat constructor; intros [] |].
    intros x Hx [E|[]]. subst x.
    apply in_map_iff in Hx as (r & E & Hr).
    unfold Inventory.findOne in Hone. apply (find_none _ _ Hone) in Hr.
    rewrite E, Nat.eqb_refl in Hr. discriminate.
  - rewrite forallb_app. apply andb_true_iff. split.
    + rewrite forallb_forall in *. intros r Hr. specialize (H3 r Hr).
      apply Nat.ltb_lt in H3. apply Nat.ltb_lt. lia.
    + simpl. rewrite andb_true_r. apply Nat.ltb_lt. lia.
Qed.

Lemma findByIdAndUpdate_keys :
  forall js i u s r s',
    Inventory.findByIdAndUpdate js i u s = inr (r, s') ->
    inventoryKeysOk s = true -> inventoryKeysOk s' = true.
Proof.
  intros js i u s r s' H Hok.
  apply Inventory_findByIdAndUpdate_inr in H
    as [[_ E]|(pid & q & d & _ & _ & Hfind & Hclash & _ & E)]; subst s';
    [exact Hok|].
  unfold Inventory.findById in Hfind. apply find_some in Hfind as [Hd Hdi].
  apply Nat.eqb_eq in Hdi.
  unfold inventoryKeysOk in *. simpl.
  apply andb_true_iff in Hok as [Hok H3]. apply andb_true_iff in Hok as [H1 H2].
  set (upd := fun x => if Nat.eqb (inventorySchema._id x) i
                       then Inventory.apply pid q (Inventory.u_operators u) x else x).
  assert (Hids : map inventorySchema._id (map upd (inventories s))
                 = map inventorySchema._id (inventories s)).
  { rewrite map_map. apply map_ext. intros x. unfold upd.
    destruct (Nat.eqb (inventorySchema._id x) i); reflexivity. }
  rewrite Hids, H1. simpl. apply andb_true_iff. split.
  - rewrite map_map. apply distinct_of_inj.
    + eapply distinct_map_NoDup, H1.
    + intros x y Hx Hy E. unfold upd in E.
      assert (Hpid : forall a b, In a (inventories s) -> In b (inventories s) ->
                inventorySchema.productId a = inventorySchema.productId b -> a = b)
        by (intros a b; apply distinct_key_inj; exact H2).
      assert (Hid : forall a b, In a (inventories s) -> In b (inventories s) ->
                inventorySchema._id a = inventorySchema._id b -> a = b)
        by (intros a b; apply distinct_key_inj; exact H1).
      assert (Hother : forall a b p,
                In a (inventories s) -> In b (inventories s) ->
                pid = Some p ->
                inventorySchema._id a = i -> inventorySchema._id b <> i ->
                inventorySchema.productId b = p -> False).
      { intros a b p Ha Hb Hf Hai Hbi Hbp. rewrite Hf in Hclash.
        unfold Inventory.clashes in Hclash.
        assert (existsb (fun x0 => Nat.eqb (inventorySchema.productId x0) p
                           && negb (Nat.eqb (inventorySchema._id x0)
                                      (inventorySchema._id d)))
                        (inventories s) = true); [|congruence].
        apply existsb_exists. exists b. split; [exact Hb|].
        rewrite Hbp, Nat.eqb_refl. simpl. apply negb_true_iff, Nat.eqb_neq.
        congruence. }
      destruct (Nat.eqb (inventorySchema._id x) i) eqn:Ex;
        destruct (Nat.eqb (inventorySchema._id y) i) eqn:Ey.
      * apply Nat.eqb_eq in Ex. apply Nat.eqb_eq in Ey. apply Hid; congruence.
      * apply Nat.eqb_eq in Ex. apply Nat.eqb_neq in Ey.
        unfold Inventory.apply in E. simpl in E.
        destruct pid as [p|] eqn:Hf.
        -- exfalso. eapply (Hother x y p); eauto.
        -- apply Hpid; assumption.
      * apply Nat.eqb_neq in Ex. apply Nat.eqb_eq in Ey.
        unfold Inventory.apply in E. simpl in E.
        destruct pid as [p|] eqn:Hf.
        -- exfalso. eapply (Hother y x p); eauto.
        -- apply Hpid; assumption.
      * apply Hpid; assumption.
  - rewrite forallb_forall in *. intros x Hx.
    apply in_map_iff in Hx as (x0 & E & Hx0). subst x.
    specialize (H3 x0 Hx0). unfold upd.
    destruct (Nat.eqb (inventorySchema._id x0) i); exact H3.
Qed.

Lemma updateInventory_keys :
  forall js user id body s,
    inventoryKeysOk s = true ->
    inventoryKeysOk (snd (inventoryController.updateInventory js user id body s)) = true.
Proof.
  intros js user id body s Hok.
  destruct (updateInventory_store js user id body s) as [E|(i & r & _ & _ & H)].
  - rewrite E. exact Hok.
  - exact (findByIdAndUpdate_keys _ _ _ _ _ _ H Hok).
Qed.

Lemma updateInventoryQuantity_keys :
  forall js user productId quantity s,
    inventoryKeysOk s = true ->
    inventoryKeysOk
      (snd (inventoryController.updateInventoryQuantity js user productId quantity s))
    = true.
Proof.
  intros js user productId quantity s Hok.
  unfold inventoryController.updateInventoryQuantity.
  destruct (negb (isAdmin user)); [exact Hok|].
  destruct productId as [|pid]; [exact Hok|].
  destruct quantity as [v|]; [|exact Hok].
  destruct (isNull v); [exact Hok|].
  destruct (toNumber js v <? 0)%float; [exact Hok|].
  destruct (Product.findById pid s); [|exact Hok].
  destruct (Inventory.findOneAndUpdate js pid v s) as [e|[r s']] eqn:H; [exact Hok|].
  apply Inventory_findOneAndUpdate_inr in H
    as [[Hr E]|(q & record & _ & _ & _ & Hr & E)]; subst r s'; [exact Hok|].
  simpl. apply (inventoryKeysOk_same_keys s); try exact Hok; simpl;
    try apply map_key_set_quantity; try reflexivity; lia.
Qed.

Lemma exec_inventory_keys :
  forall updateValidators js sv e,
    inventoryKeysOk (eventLoop.db sv) = true ->
    inventoryKeysOk (eventLoop.db (eventLoop.exec updateValidators js sv e)) = true.
Proof.
  intros uv js sv e Hok.
  destruct (handlers_nextId js (eventLoop.db sv))
    as (N1 & N2 & N3 & N4 & N5 & N6 & N7 & N8 & N9).
  destruct e; simpl.
  - exact Hok.
  - destruct (nth_error (eventLoop.calls sv) i) as [c|]; [|exact Hok].
    pose proof (resume_inventory_keys c (eventLoop.db sv)) as [K1 K2].
    pose proof (resume_nextId c (eventLoop.db sv)) as K3.
    destruct (eventLoop.resume c (eventLoop.db sv)) as [c' s']. simpl in *.
    apply (inventoryKeysOk_same_keys (eventLoop.db sv)); assumption.
  - eapply inventoryKeysOk_sameInventories; [apply addToCart_frame | apply N1 | exact Hok].
  - eapply inventoryKeysOk_sameInventories;
      [apply updateCartItem_frame | apply N2 | exact Hok].
  - eapply inventoryKeysOk_sameInventories;
      [apply removeFromCart_frame | apply N3 | exact Hok].
  - eapply inventoryKeysOk_sameInventories; [apply clearCart_frame | apply N4 | exact Hok].
  - apply createInventory_keys, Hok.
  - apply updateInventory_keys, Hok.
  - apply updateInventoryQuantity_keys, Hok.
  - eapply inventoryKeysOk_sameInventories;
      [apply updateProduct_frame | apply N8 | exact Hok].
  - eapply inventoryKeysOk_sameInventories;
      [apply deleteProduct_frame | apply N9 | exact Hok].
  - eapply inventoryKeysOk_sameInventories; [apply updateOrderStatus_frame | | exact Hok].
    unfold updateOrderStatus, Order.findByIdAndUpdate. counter.
Qed.

(** X11. The unique index on [productId] and the existence check of
    [createInventory] keep the inventory collection well keyed: from a
    store whose inventory records have distinct ids drawn from the counter
    and distinct products, whatever requests are served, the records still
    have distinct ids and no product has two records. *)
Theorem one_inventory_record_per_product :
  forall (updateValidators : productSchema.fields -> option Exn) (js : Coercions)
         (trace : list eventLoop.Event) (sv : eventLoop.Server),
    inventoryKeysOk (eventLoop.db sv) = true ->
    inventoryKeysOk (eventLoop.db (eventLoop.run updateValidators js sv trace)) = true.
Proof.
  intros uv js trace. unfold eventLoop.run.
  induction trace as [|e trace IH]; intros sv Hok; simpl; [exact Hok|].
  apply IH, exec_inventory_keys, Hok.
Qed.

(** The stock updates and the order of [Examples.restocking]. *)
Lemma one_inventory_record_per_product_witness :
  inventoryKeysOk
    (eventLoop.db (eventLoop.run Examples.noValidators Examples.conversions
                     (Examples.idle Examples.oneOrder) Examples.restocking))
  = true.
Proof.
  apply (one_inventory_record_per_product Examples.noValidators Examples.conversions
           Examples.restocking (Examples.idle Examples.oneOrder)).
  reflexivity.
Defined.


(** ** What callers who are not administrators cannot change *)

Lemma exec_unprivileged :
  forall updateValidators js sv e,
    byAdmin e = false ->
    let s := eventLoop.db sv in
    let s' := eventLoop.db (eventLoop.exec updateValidators js sv e) in
    products s' = products s /\
    map inventorySchema._id (inventories s') = map inventorySchema._id (inventories s) /\
    map inventorySchema.productId (inventories s')
    = map inventorySchema.productId (inventories s) /\
    (exists new, orders s' = (orders s ++ new)%list) /\
    (notResume e = true -> inventories s' = inventories s /\ orders s' = orders s).
Proof.
  intros uv js sv e Hno s s'. subst s s'.
  assert (Hcart : forall t,
            sameProducts (eventLoop.db sv) t /\ sameInventories (eventLoop.db sv) t /\
            sameOrders (eventLoop.db sv) t ->
            products t = products (eventLoop.db sv) /\
            map inventorySchema._id (inventories t)
            = map inventorySchema._id (inventories (eventLoop.db sv)) /\
            map inventorySchema.productId (inventories t)
            = map inventorySchema.productId (inventories (eventLoop.db sv)) /\
            (exists new, orders t = (orders (eventLoop.db sv) ++ new)%list) /\
            (true = true ->
             inventories t = inventories (eventLoop.db sv) /\
             orders t = orders (eventLoop.db sv))).
  { unfold sameProducts, sameInventories, sameOrders. intros t (E1 & E2 & E3).
    rewrite E1, E2, E3. repeat split. exists []. symmetry. apply app_nil_r. }
  assert (Hsame : forall t, t = eventLoop.db sv ->
            products t = products (eventLoop.db sv) /\
            map inventorySchema._id (inventories t)
            = map inventorySchema._id (inventories (eventLoop.db sv)) /\
            map inventorySchema.productId (inventories t)
            = map inventorySchema.productId (inventories (eventLoop.db sv)) /\
            (exists new, orders t = (orders (eventLoop.db sv) ++ new)%list) /\
            (true = true ->
             inventories t = inventories (eventLoop.db sv) /\
             orders t = orders (eventLoop.db sv))).
  { intros t E. subst t. apply Hcart. repeat split. }
  destruct e; simpl in Hno; simpl.
  - apply Hsame. reflexivity.
  - destruct (nth_error (eventLoop.calls sv) i) as [c|];
      [|repeat split; try discriminate; exists []; symmetry; apply app_nil_r].
    pose proof (resume_products c (eventLoop.db sv)) as K0.
    pose proof (resume_inventory_keys c (eventLoop.db sv)) as [K1 K2].
    assert (K3 : exists new,
               orders (snd (eventLoop.resume c (eventLoop.db sv)))
               = (orders (eventLoop.db sv) ++ new)%list).
    { destruct c; simpl; try (exists []; symmetry; apply app_nil_r).
      - destruct (map _ (Cart.find userId (eventLoop.db sv)));
          exists []; symmetry; apply app_nil_r.
      - destruct (Inventory.findOne _ (eventLoop.db sv));
          [destruct (_ <? _)%float|]; exists []; symmetry; apply app_nil_r.
      - unfold Order.createOrder. destruct (Order.validate _ _ _); simpl;
          [exists []; symmetry; apply app_nil_r | eexists; reflexivity].
      - unfold Inventory.save. destruct (Inventory.validate _);
          exists []; symmetry; apply app_nil_r. }
    destruct (eventLoop.resume c (eventLoop.db sv)) as [c' t]. simpl in *.
    unfold sameProducts in K0. repeat split; try assumption; discriminate.
  - apply Hcart, addToCart_frame.
  - apply Hcart, updateCartItem_frame.
  - apply Hcart, removeFromCart_frame.
  - apply Hcart, clearCart_frame.
  - apply Hsame. unfold inventoryController.createInventory. rewrite Hno. reflexivity.
  - apply Hsame. unfold inventoryController.updateInventory. rewrite Hno. reflexivity.
  - apply Hsame. unfold inventoryController.updateInventoryQuantity. rewrite Hno.
    reflexivity.
  - apply Hsame. unfold productsController.updateProduct. rewrite Hno. reflexivity.
  - apply Hsame. unfold productsController.deleteProduct. rewrite Hno. reflexivity.
  - apply Hsame. unfold updateOrderStatus. rewrite Hno. reflexivity.
Qed.

(** X12. The administrator check guards every handler that writes
    products, creates, rekeys or restocks inventory records, or changes the
    status of an order.  So over a trace in which no request comes from an
    administrator, the products are unchanged, the inventory records are
    the same records for the same products, and the orders of the start
    are all still there, unchanged, followed by the new ones.  The
    quantities move through orders only: if moreover no call of
    [createOrder] is resumed in the trace, the inventory collection,
    quantities included, and the orders collection are what they were. *)
Theorem without_administrator :
  forall (updateValidators : productSchema.fields -> option Exn) (js : Coercions)
         (trace : list eventLoop.Event) (sv : eventLoop.Server),
    forallb (fun e => negb (byAdmin e)) trace = true ->
    let s := eventLoop.db sv in
    let s' := eventLoop.db (eventLoop.run updateValidators js sv trace) in
    products s' = products s /\
    map inventorySchema._id (inventories s') = map inventorySchema._id (inventories s) /\
    map inventorySchema.productId (inventories s')
    = map inventorySchema.productId (inventories s) /\
    (exists new, orders s' = (orders s ++ new)%list) /\
    (forallb notResume trace = true ->
     inventories s' = inventories s /\ orders s' = orders s).
Proof.
  intros uv js trace. unfold eventLoop.run.
  induction trace as [|e trace IH]; intros sv Hno; simpl.
  - repeat split. exists []. symmetry. apply app_nil_r.
  - simpl in Hno. apply andb_true_iff in Hno as [He Hno].
    apply negb_true_iff in He.
    destruct (exec_unprivileged uv js sv e He) as (E1 & E2 & E3 & [new1 E4] & E5).
    destruct (IH (eventLoop.exec uv js sv e) Hno) as (F1 & F2 & F3 & [new2 F4] & F5).
    split; [rewrite F1; exact E1|]. split; [rewrite F2; exact E2|].
    split; [rewrite F3; exact E3|]. split.
    + exists (new1 ++ new2)%list. rewrite F4, E4. symmetry. apply app_assoc.
    + intros H. apply andb_true_iff in H as [H1 H2].
      destruct (F5 H2) as [G1 G1']. destruct (E5 H1) as [G2 G2'].
      split; [rewrite G1; exact G2 | rewrite G1'; exact G2'].
Qed.

(** On [Examples.oneOrder], users 1 and 2 send the requests of
    [MoreExamples.intruders]: a stock level, a [$inc] and a rekeying of
    inventory records, a new record, a price, the deletion of a product and
    a change of status, all refused, among requests on their carts. *)
Lemma without_administrator_witness :
  let s' := eventLoop.db (eventLoop.run Examples.noValidators Examples.conversions
                            (Examples.idle Examples.oneOrder) MoreExamples.intruders) in
  products s' = products Examples.oneOrder /\
  inventories s' = inventories Examples.oneOrder /\
  orders s' = orders Examples.oneOrder /\
  carts s' <> carts Examples.oneOrder.
Proof.
  destruct (without_administrator Examples.noValidators Examples.conversions
              MoreExamples.intruders (Examples.idle Examples.oneOrder) eq_refl)
    as (H1 & _ & _ & _ & H2).
  destruct (H2 eq_refl) as [H3 H4].
  repeat split; try assumption. vm_compute. discriminate.
Defined.

(** ** Writing a stock level and reading it *)

(** A number that is 0 or more passes the check of
    [updateInventoryQuantity], the cast and the validator of the
    [quantity] path. *)
Lemma zero_leb_accepted :
  forall (js : Coercions) (q : Number),
    (0 <=? q)%float = true ->
    (toNumber js (Num q) <? 0)%float = false /\ castNumber js (Num q) = CastTo q.
Proof.
  intros js q H. destruct (leb_number _ _ H) as [_ Hn].
  split; [apply leb_not_ltb, H | apply castNumber_Num, Hn].
Qed.

(** X13. After the administrator has set the quantity of a product that has
    an inventory record to a value of 0 or more, [updateInventoryQuantity]
    and then [getInventoryByProductId] both answer 200 with that record,
    carrying the new quantity and the product.  The value is a number [q]
    with [0 <= q], or a string that is not below 0 and that the path reads
    as such a number. *)
Theorem updateInventoryQuantity_then_get :
  forall (js : Coercions) (user : option Claims) (pid : ObjectId) (s : Store)
         (p : productSchema.doc) (d : inventorySchema.doc),
    isAdmin user = true ->
    Product.findById pid s = Some p ->
    Inventory.findOne pid s = Some d ->
    (forall q, (0 <=? q)%float = true ->
       (toNumber js (Num q) <? 0)%float = false /\ castNumber js (Num q) = CastTo q) /\
    (forall v q,
       (toNumber js v <? 0)%float = false ->
       castNumber js v = CastTo q ->
       (0 <=? q)%float = true ->
       let r := inventoryController.updateInventoryQuantity js user (WellFormed pid)
                  (Some v) s in
       fst r = Json 200 (inventorySchema.set_quantity q d, Some p) /\
       getInventoryByProductId (WellFormed pid) (snd r)
       = Json 200 (inventorySchema.set_quantity q d, Some p)).
Proof.
  intros js user pid s p d Hadmin Hp Hd.
  split; [intros q; apply zero_leb_accepted|].
  intros v q Hcheck Hcast Hq r. subst r.
  assert (Hpid : inventorySchema.productId d = pid).
  { unfold Inventory.findOne in Hd. apply find_some in Hd as [_ H].
    apply Nat.eqb_eq, H. }
  unfold inventoryController.updateInventoryQuantity.
  rewrite Hadmin. simpl negb. cbv iota.
  rewrite (castTo_not_null js v q Hcast), Hcheck, Hp.
  unfold Inventory.findOneAndUpdate, Inventory.validate.
  rewrite Hcast, Hq, Hd. simpl.
  split.
  - unfold Inventory.populate, Product.findById. simpl. rewrite Hpid.
    f_equal. f_equal. exact Hp.
  - unfold getInventoryByProductId.
    assert (Hp' : forall t, products t = products s -> Product.findById pid t = Some p)
      by (intros t Et; unfold Product.findById; rewrite Et; exact Hp).
    rewrite Hp' by reflexivity.
    assert (Hone : Inventory.findOne pid
                     (with_inventories
                        (map (fun x => if Nat.eqb (inventorySchema._id x)
                                                  (inventorySchema._id d)
                                       then inventorySchema.set_quantity q x else x)
                             (inventories s)) s)
                   = Some (inventorySchema.set_quantity q d)).
    { unfold Inventory.findOne in *. simpl.
      apply (find_map_update_first _ _ _ (inventorySchema.set_quantity q));
        [exact Hd | reflexivity | apply Nat.eqb_refl]. }
    rewrite Hone. unfold Inventory.populate. simpl. rewrite Hpid, Hp' by reflexivity.
    reflexivity.
Qed.

(** The administrator sets the stock of product A in [Examples.oneOrder]
    to 9, and to 3 with the string ["3"]. *)
Lemma updateInventoryQuantity_then_get_witness :
  getInventoryByProductId (WellFormed 10)
    (snd (inventoryController.updateInventoryQuantity Examples.conversions Examples.root
            (WellFormed 10) (Some (Num 9)) Examples.oneOrder))
  = Json 200 (Examples.inventoryOf 20 10 9, Some Examples.productA) /\
  getInventoryByProductId (WellFormed 10)
    (snd (inventoryController.updateInventoryQuantity Examples.conversions Examples.root
            (WellFormed 10) (Some (Str "3")) Examples.oneOrder))
  = Json 200 (Examples.inventoryOf 20 10 3, Some Examples.productA).
Proof.
  destruct (updateInventoryQuantity_then_get Examples.conversions Examples.root 10%nat
              Examples.oneOrder Examples.productA (Examples.inventoryOf 20 10 3)
              eq_refl eq_refl eq_refl) as [_ H].
  split.
  - exact (proj2 (H (Num 9) 9%float eq_refl eq_refl eq_refl)).
  - exact (proj2 (H (Str "3") 3%float eq_refl eq_refl eq_refl)).
Defined.

(** X14. For the administrator and an existing product without inventory
    record: [createInventory] with a quantity of 0 or more adds a record
    that [getInventoryByProductId] then returns with that quantity, and a
    second [createInventory] for the product is answered 400 and writes
    nothing; with a quantity below 0 or an absent quantity the validation
    error goes to [next] and nothing is written.  A quantity sent as a
    string counts as the number that the path reads it as. *)
Theorem createInventory_then_get :
  forall (js : Coercions) (user : option Claims) (pid : ObjectId) (s : Store)
         (p : productSchema.doc),
    isAdmin user = true ->
    Product.findById pid s = Some p ->
    Inventory.findOne pid s = None ->
    (forall q, (0 <=? q)%float = true -> castNumber js (Num q) = CastTo q) /\
    (forall q, (q <? 0)%float = true ->
       castNumber js (Num q) = CastTo q /\ (0 <=? q)%float = false) /\
    (forall v q, castNumber js v = CastTo q -> (0 <=? q)%float = true ->
       let s' := snd (inventoryController.createInventory js user (WellFormed pid)
                        (Some v) s) in
       getInventoryByProductId (WellFormed pid) s'
       = Json 200 ({| inventorySchema._id := nextId s; inventorySchema.productId := pid;
                      inventorySchema.quantity := q |}, Some p) /\
       forall q',
         inventoryController.createInventory js user (WellFormed pid) q' s'
         = (Fail 400 (Msg "Inventory already exists for this product. Use update instead."),
            s')) /\
    (forall v q, castNumber js v = CastTo q -> (0 <=? q)%float = false ->
       inventoryController.createInventory js user (WellFormed pid) (Some v) s
       = (Next (ValidationError "quantity"), s)) /\
    inventoryController.createInventory js user (WellFormed pid) None s
    = (Next (ValidationError "quantity"), s).
Proof.
  intros js user pid s p Hadmin Hp Hnone.
  assert (Hstart : forall quantity,
            inventoryController.createInventory js user (WellFormed pid) quantity s
            = match Inventory.createInventory js pid quantity s with
              | inl e => (Next e, s)
              | inr (inventory, s') =>
                  (Json 201 (inventoryController.findPopulated
                               (inventorySchema._id inventory) s'), s')
              end).
  { intros quantity. unfold inventoryController.createInventory.
    rewrite Hadmin, Hp, Hnone. reflexivity. }
  split; [|split; [|split; [|split]]].
  - intros q Hq. apply (zero_leb_accepted js q Hq).
  - intros q Hq. split; [|apply ltb_not_leb, Hq].
    apply castNumber_Num. apply (ltb_number _ _ Hq).
  - intros v q Hcast Hq s'. subst s'. rewrite Hstart.
    unfold Inventory.createInventory, Inventory.validate. rewrite Hcast, Hq, Hnone.
    simpl.
    set (d := {| inventorySchema._id := nextId s; inventorySchema.productId := pid;
                 inventorySchema.quantity := q |}).
    set (s' := bump (with_inventories (inventories s ++ [d]) s)).
    assert (Hp' : Product.findById pid s' = Some p) by exact Hp.
    assert (Hone : Inventory.findOne pid s' = Some d).
    { unfold Inventory.findOne in *. simpl.
      apply find_snoc_none; [exact Hnone | simpl; apply Nat.eqb_refl]. }
    split.
    + unfold getInventoryByProductId. rewrite Hp', Hone.
      unfold Inventory.populate. simpl. rewrite Hp'. reflexivity.
    + intros q'. unfold inventoryController.createInventory.
      rewrite Hadmin, Hp', Hone. reflexivity.
  - intros v q Hcast Hq. rewrite Hstart.
    unfold Inventory.createInventory, Inventory.validate. rewrite Hcast, Hq.
    reflexivity.
  - rewrite Hstart. reflexivity.
Qed.

(** Product B has no inventory record in [Examples.lastUnit] once it is in
    the catalogue: a record of 7 units is created; a record of -1 unit is
    not. *)
Lemma createInventory_then_get_witness :
  let s := with_products [Examples.productA; Examples.productB] Examples.lastUnit in
  getInventoryByProductId (WellFormed 11)
    (snd (inventoryController.createInventory Examples.conversions Examples.root
            (WellFormed 11) (Some (Num 7)) s))
  = Json 200 (Examples.inventoryOf 40 11 7, Some Examples.productB) /\
  inventoryController.createInventory Examples.conversions Examples.root
    (WellFormed 11) (Some (Num (-1))) s
  = (Next (ValidationError "quantity"), s).
Proof.
  intros s.
  destruct (createInventory_then_get Examples.conversions Examples.root 11%nat s
              Examples.productB eq_refl eq_refl eq_refl) as (_ & _ & H & Hbad & _).
  split.
  - exact (proj1 (H (Num 7) 7%float eq_refl eq_refl)).
  - exact (Hbad (Num (-1)) (-1)%float eq_refl eq_refl).
Defined.

(** ** Stock accounting of an order that is not interrupted *)

Lemma find_map_update_other :
  forall (A : Type) (P f : A -> bool) (g : A -> A) (l : list A),
    (forall x, In x l -> f x = true -> P x = false /\ P (g x) = false) ->
    find P (map (fun x => if f x then g x else x) l) = find P l.
Proof.
  intros A P f g l. induction l as [|x l IH]; intros H; [reflexivity|].
  simpl. rewrite IH by (intros y Hy; apply H; right; exact Hy).
  destruct (f x) eqn:E; [|reflexivity].
  destruct (H x (or_introl eq_refl) E) as [H1 H2]. rewrite H1, H2. reflexivity.
Qed.

(** The stock of every product after [inventory.save()] has written the
    new quantity of the record of product [pid0]. *)
Lemma stock_after_save :
  forall (pid0 : ObjectId) (inventory : inventorySchema.doc) (q : Number)
         (s s2 : Store),
    distinct (map inventorySchema._id (inventories s)) = true ->
    Inventory.findOne pid0 s = Some inventory ->
    Inventory.save (inventorySchema.set_quantity q inventory) s = inr s2 ->
    forall pid,
      stock pid s2 = if Nat.eqb pid0 pid then q else stock pid s.
Proof.
  intros pid0 inventory q s s2 Hd Hone Hsave pid.
  apply Inventory_save_inr in Hsave as [_ Hs2]. subst s2.
  pose proof Hone as Hin. unfold Inventory.findOne in Hin.
  apply find_some in Hin as [Hin Hpid0]. apply Nat.eqb_eq in Hpid0.
  unfold stock, Inventory.findOne. simpl.
  destruct (Nat.eqb pid0 pid) eqn:E.
  - apply Nat.eqb_eq in E. subst pid.
    rewrite (find_map_update_first _ _ _ (inventorySchema.set_quantity q)
               (inventories s) inventory); [reflexivity | exact Hone | reflexivity |].
    apply Nat.eqb_refl.
  - rewrite find_map_update_other; [reflexivity|].
    intros x Hx Hid. apply Nat.eqb_eq in Hid. simpl in Hid.
    assert (x = inventory) by (eapply distinct_key_inj; eassumption). subst x.
    simpl. rewrite Hpid0. split; exact E.
Qed.

Lemma forEachCartItem_stock :
  forall (userId : UserId) (cartItems : eventLoop.Items)
         (createdOrders : list (option PopulatedOrder)) (s : Store)
         (c : nat) (data : list (option PopulatedOrder)) (s' : Store),
    distinct (map inventorySchema._id (inventories s)) = true ->
    forEachCartItem userId cartItems createdOrders s = (Json c data, s') ->
    forall pid,
      stock pid s' = leftAfter pid (survivors cartItems) (stock pid s) /\
      covered pid (survivors cartItems) (stock pid s) = true.
Proof.
  intros userId cartItems.
  induction cartItems as [|[cartItem [product|]] rest IH];
    intros createdOrders s c data s' Hd Hrun pid; simpl in Hrun.
  - inversion Hrun; subst. split; reflexivity.
  - destruct (Inventory.findOne (productSchema._id product) s) as [inventory|] eqn:Hone;
      [|discriminate].
    destruct (inventorySchema.quantity inventory <? cartSchema.quantity cartItem)%float
      eqn:Hcheck; [discriminate|].
    destruct (Order.createOrder _ _ _ _ _ s) as [e|[order s1]] eqn:Hcreate;
      [discriminate|].
    apply Order_create_inr in Hcreate as [_ Hs1].
    destruct (Inventory.save _ s1) as [e|s2] eqn:Hsave; [discriminate|].
    assert (Hinv1 : inventories s1 = inventories s) by (rewrite Hs1; reflexivity).
    assert (Hd1 : distinct (map inventorySchema._id (inventories s1)) = true)
      by (rewrite Hinv1; exact Hd).
    assert (Hone1 : Inventory.findOne (productSchema._id product) s1 = Some inventory)
      by (unfold Inventory.findOne; rewrite Hinv1; exact Hone).
    pose proof (stock_after_save _ _ _ _ _ Hd1 Hone1 Hsave pid) as Hstock.
    assert (Hd2 : distinct (map inventorySchema._id (inventories s2)) = true).
    { apply Inventory_save_inr in Hsave as [_ Hs2]. rewrite Hs2. simpl.
      rewrite map_key_set_quantity by reflexivity. exact Hd1. }
    destruct (IH _ _ _ _ _ Hd2 Hrun pid) as [Hleft Hcovered].
    assert (Hs : stock pid s1 = stock pid s)
      by (unfold stock, Inventory.findOne; rewrite Hinv1; reflexivity).
    rewrite Hstock, Hs in Hleft, Hcovered.
    cbn [survivors leftAfter covered].
    destruct (Nat.eqb (productSchema._id product) pid) eqn:E.
    + apply Nat.eqb_eq in E. subst pid. unfold stock at 2 3 4. rewrite Hone.
      rewrite Hcheck. simpl. split; assumption.
    + split; assumption.
  - exact (IH _ _ _ _ _ Hd Hrun pid).
Qed.

Lemma forEachCartItem_nonNegative :
  forall userId cartItems createdOrders s,
    nonNegative s = true ->
    nonNegative (snd (forEachCartItem userId cartItems createdOrders s)) = true.
Proof.
  intros userId cartItems.
  induction cartItems as [|[cartItem [product|]] rest IH]; intros createdOrders s Hok.
  - exact Hok.
  - cbn [forEachCartItem]. cbv zeta.
    destruct (Inventory.findOne (productSchema._id product) s) as [inventory|];
      [|exact Hok].
    destruct (inventorySchema.quantity inventory <? cartSchema.quantity cartItem)%float;
      [exact Hok|].
    destruct (Order.createOrder _ _ _ _ _ s) as [e|[order s1]] eqn:Hcreate;
      [exact Hok|].
    apply Order_create_inr in Hcreate as [_ Hs1].
    assert (Hok1 : nonNegative s1 = true) by (rewrite Hs1; exact Hok).
    destruct (Inventory.save _ s1) as [e|s2] eqn:Hsave; [exact Hok1|].
    apply IH. exact (save_nonNegative _ _ _ Hsave Hok1).
  - exact (IH createdOrders s Hok).
Qed.

Lemma stock_nonNegative :
  forall pid s, nonNegative s = true -> (0 <=? stock pid s)%float = true.
Proof.
  intros pid s Hok. unfold stock.
  destruct (Inventory.findOne pid s) as [d|] eqn:Hone; [|reflexivity].
  unfold Inventory.findOne in Hone. apply find_some in Hone as [Hin _].
  unfold nonNegative in Hok. rewrite forallb_forall in Hok.
  apply Hok, Hin.
Qed.

(** X15. A call of [createOrder] that runs without interruption and answers
    201 accounts for every unit: when the inventory records have distinct
    ids, the stock of each product afterwards is its stock before minus the
    units of that product on the cart lines of the user whose product is
    in the catalogue, taken line after line (several lines for one product
    included); no line asked for
    more than the lines before it had left; and when no quantity was
    negative before, none is afterwards. *)
Theorem createOrder_stock_accounting :
  forall (user : option Claims) (userId : UserId) (s : Store)
         (data : list (option PopulatedOrder)) (s' : Store),
    authenticated user = Some userId ->
    distinct (map inventorySchema._id (inventories s)) = true ->
    createOrder user s = (Json 201 data, s') ->
    let lines :=
      surviving (products s)
        (filter (fun line => Nat.eqb (cartSchema.userId line) userId) (carts s)) in
    forall pid,
      stock pid s' = leftAfter pid lines (stock pid s) /\
      covered pid lines (stock pid s) = true /\
      (nonNegative s = true -> (0 <=? stock pid s')%float = true).
Proof.
  intros user userId s data s' Hauth Hd Hrun lines pid. subst lines.
  unfold createOrder in Hrun. rewrite Hauth in Hrun. cbv zeta in Hrun.
  destruct (map (Cart.populate s) (Cart.find userId s)) as [|i items] eqn:Hitems;
    [discriminate|].
  destruct (forEachCartItem_stock _ _ _ _ _ _ _ Hd Hrun pid) as [Hstock Hcovered].
  rewrite <- Hitems, survivors_surviving in Hstock, Hcovered.
  split; [exact Hstock|]. split; [exact Hcovered|].
  intros Hok.
  pose proof (forEachCartItem_nonNegative userId (i :: items) [] s Hok) as Hok'.
  rewrite Hrun in Hok'. simpl in Hok'.
  exact (stock_nonNegative pid s' Hok').
Qed.

(** User 2 orders one unit of each product of [Examples.oneOrder]: of the
    3 units of product A, 2 are left. *)
Lemma createOrder_stock_accounting_witness :
  stock 10 Examples.oneOrder = 3%float /\
  stock 10 (snd (createOrder Examples.bob Examples.oneOrder)) = 2%float.
Proof.
  destruct (createOrder_stock_accounting Examples.bob 2%nat Examples.oneOrder
              (match fst (createOrder Examples.bob Examples.oneOrder) with
               | Json _ data => data
               | _ => []
               end)
              (snd (createOrder Examples.bob Examples.oneOrder))
              eq_refl eq_refl eq_refl 10%nat) as [H _].
  split; [reflexivity | exact H].
Defined.

(** ** Deleting a product *)

Import productsQueries.

Lemma find_filter_out :
  forall (A : Type) (P : A -> bool) (l : list A),
    find P (filter (fun x => negb (P x)) l) = None.
Proof.
  intros A P l. induction l as [|x l IH]; simpl; [reflexivity|].
  destruct (P x) eqn:E; simpl; [exact IH|]. rewrite E. exact IH.
Qed.

(** X16. [deleteProduct] by the administrator removes the product and
    nothing else: the answer is 200, the product can no longer be read
    ([getProductById] answers 404, and so does a second [deleteProduct]),
    while the inventory records, the cart lines and the orders that refer
    to it all stay; the cart lines on it are stale from then on and its
    stock can no longer be read through [getInventoryByProductId]. *)
Theorem deleteProduct_leaves_references :
  forall (user : option Claims) (i : ObjectId) (s : Store) (p : productSchema.doc),
    isAdmin user = true ->
    Product.findById i s = Some p ->
    let s' := snd (productsController.deleteProduct user (WellFormed i) s) in
    fst (productsController.deleteProduct user (WellFormed i) s)
    = Json 200 "Product deleted successfully" /\
    getProductById (WellFormed i) s' = Fail 404 (Msg "Product not found") /\
    productsController.deleteProduct user (WellFormed i) s'
    = (Fail 404 (Msg "Product not found"), s') /\
    inventories s' = inventories s /\ carts s' = carts s /\ orders s' = orders s /\
    getInventoryByProductId (WellFormed i) s' = Fail 404 (Msg "Product not found") /\
    (forall c, In c (carts s') -> cartSchema.productId c = i -> stale s' c = true).
Proof.
  intros user i s p Hadmin Hp s'. subst s'.
  unfold productsController.deleteProduct, Product.findByIdAndDelete.
  rewrite Hadmin, Hp. simpl.
  set (s' := with_products
               (filter (fun x => negb (Nat.eqb (productSchema._id x) i)) (products s)) s).
  assert (Hgone : Product.findById i s' = None).
  { unfold Product.findById. simpl.
    apply (find_filter_out _ (fun x => Nat.eqb (productSchema._id x) i)). }
  split; [reflexivity|]. split.
  { unfold getProductById. rewrite Hgone. reflexivity. }
  split; [rewrite Hgone; reflexivity|].
  split; [reflexivity|]. split; [reflexivity|]. split; [reflexivity|]. split.
  { unfold getInventoryByProductId. rewrite Hgone. reflexivity. }
  intros c _ Hc. unfold stale. rewrite Hc, Hgone. reflexivity.
Qed.

(** The administrator deletes product A from [Examples.twoLines]. *)
Lemma deleteProduct_leaves_references_witness :
  getProductById (WellFormed 10)
    (snd (productsController.deleteProduct Examples.root (WellFormed 10)
            Examples.twoLines))
  = Fail 404 (Msg "Product not found") /\
  inventories (snd (productsController.deleteProduct Examples.root (WellFormed 10)
                      Examples.twoLines))
  = inventories Examples.twoLines.
Proof.
  destruct (deleteProduct_leaves_references Examples.root 10%nat Examples.twoLines
              Examples.productA eq_refl eq_refl) as (_ & H1 & _ & H2 & _).
  split; [exact H1 | exact H2].
Defined.

(** ** The rate limiter *)

Module rateLimiterFacts.
Import rateLimiter.

Lemma get_set_same :
  forall ip e m, get ip (set ip e m) = Some e.
Proof.
  intros ip e m. unfold get. induction m as [|[k v] m IH]; simpl.
  - rewrite String.eqb_refl. reflexivity.
  - destruct (String.eqb k ip) eqn:E; simpl; rewrite E; [reflexivity | exact IH].
Qed.

Lemma get_set_other :
  forall ip ip' e m, ip' <> ip -> get ip (set ip' e m) = get ip m.
Proof.
  intros ip ip' e m Hne. unfold get. induction m as [|[k v] m IH]; simpl.
  - apply String.eqb_neq in Hne. rewrite Hne. reflexivity.
  - destruct (String.eqb k ip') eqn:E; simpl.
    + apply String.eqb_eq in E. subst k.
      apply String.eqb_neq in Hne. rewrite Hne. reflexivity.
    + destruct (String.eqb k ip); [reflexivity | exact IH].
Qed.

Lemma get_cleanUp_live :
  forall ip e w now m,
    get ip m = Some e -> now - resetTime e <= w ->
    get ip (cleanUp w now m) = Some e.
Proof.
  intros ip e w now m Hget Hlive. unfold cleanUp.
  destruct (10000 <? Z.of_nat (List.length m)); [|exact Hget].
  unfold get in *. induction m as [|[k v] m IH]; [discriminate|].
  simpl in *. destruct (String.eqb k ip) eqn:E.
  - simpl in Hget. inversion Hget; subst v.
    assert (Hk : (w <? now - resetTime e) = false) by (apply Z.ltb_ge; lia).
    rewrite Hk. simpl. rewrite E. reflexivity.
  - destruct (negb (w <? now - resetTime v)); simpl; [rewrite E|]; apply IH, Hget.
Qed.

Lemma get_cleanUp_none :
  forall ip w now m, get ip m = None -> get ip (cleanUp w now m) = None.
Proof.
  intros ip w now m Hget. unfold cleanUp.
  destruct (10000 <? Z.of_nat (List.length m)); [|exact Hget].
  unfold get in *. induction m as [|[k v] m IH]; [reflexivity|].
  simpl in *. destruct (String.eqb k ip) eqn:E; [discriminate|].
  destruct (negb (w <? now - resetTime v)); simpl; [rewrite E|]; apply IH, Hget.
Qed.

(** A request of [ip] while its entry is live. *)
Lemma handle_live :
  forall o ip now m c t0,
    get ip m = Some {| count := c; resetTime := t0 |} ->
    now - t0 <= window o ->
    passes (fst (handle o ip now m)) = (c + 1 <=? quota o) /\
    get ip (snd (handle o ip now m)) = Some {| count := c + 1; resetTime := t0 |}.
Proof.
  intros o ip now m c t0 Hget Hlive. unfold handle. cbv zeta.
  rewrite (get_cleanUp_live ip _ (window o) now m Hget Hlive). simpl.
  assert (E : (window o <? now - t0) = false) by (apply Z.ltb_ge; lia).
  rewrite E.
  destruct (quota o <? c + 1) eqn:Hq; simpl; rewrite get_set_same.
  - split; [|reflexivity]. symmetry. apply Z.leb_gt. apply Z.ltb_lt in Hq. lia.
  - split; [|reflexivity]. symmetry. apply Z.leb_le. apply Z.ltb_ge in Hq. lia.
Qed.

(** A request of another client while the entry of [ip] is live. *)
Lemma handle_other :
  forall o ip ip' now m e,
    ip' <> ip ->
    get ip m = Some e ->
    now - resetTime e <= window o ->
    get ip (snd (handle o ip' now m)) = Some e.
Proof.
  intros o ip ip' now m e Hne Hget Hlive. unfold handle. cbv zeta.
  pose proof (get_cleanUp_live ip e (window o) now m Hget Hlive) as H1.
  destruct (get ip' (cleanUp (window o) now m)) as [e'|]; simpl.
  - destruct (window o <? now - resetTime e'); simpl.
    + rewrite get_set_other by exact Hne. exact H1.
    + destruct (quota o <? count e' + 1); simpl;
        rewrite get_set_other by exact Hne; exact H1.
  - rewrite get_set_other by exact Hne. exact H1.
Qed.

Lemma serve_live :
  forall o ip t0 requests m c,
    get ip m = Some {| count := c; resetTime := t0 |} ->
    (forall r, In r requests -> snd r - t0 <= window o) ->
    passedOf ip (fst (serve o requests m))
    = Nat.min (requestsOf ip requests) (Z.to_nat (quota o - c)) /\
    get ip (snd (serve o requests m))
    = Some {| count := c + Z.of_nat (requestsOf ip requests); resetTime := t0 |}.
Proof.
  intros o ip t0 requests.
  induction requests as [|[ip' now] rest IH]; intros m c Hget Hlive.
  - simpl. unfold passedOf, requestsOf. simpl. rewrite Z.add_0_r. split; [|exact Hget].
    reflexivity.
  - assert (Hnow : now - t0 <= window o) by (apply (Hlive (ip', now)); left; reflexivity).
    assert (Hrest : forall r, In r rest -> snd r - t0 <= window o)
      by (intros r Hr; apply Hlive; right; exact Hr).
    cbn [serve].
    destruct (handle o ip' now m) as [v m1] eqn:Hh.
    destruct (serve o rest m1) as [vs m2] eqn:Hs.
    unfold passedOf, requestsOf. cbn [fst snd filter].
    destruct (String.eqb ip' ip) eqn:E.
    + apply String.eqb_eq in E. subst ip'.
      destruct (handle_live o ip now m c t0 Hget Hnow) as [Hp Hg].
      rewrite Hh in Hp, Hg. simpl in Hp, Hg.
      destruct (IH m1 (c + 1) Hg Hrest) as [IH1 IH2].
      rewrite Hs in IH1, IH2. simpl in IH1, IH2.
      unfold passedOf, requestsOf in IH1, IH2.
      cbn [andb]. rewrite Hp. split.
      * destruct (c + 1 <=? quota o) eqn:Hq; cbn [List.length]; rewrite IH1.
        -- apply Z.leb_le in Hq.
           replace (Z.to_nat (quota o - c)) with (S (Z.to_nat (quota o - (c + 1))))
             by lia.
           reflexivity.
        -- apply Z.leb_gt in Hq.
           replace (Z.to_nat (quota o - (c + 1))) with 0%nat by lia.
           replace (Z.to_nat (quota o - c)) with 0%nat by lia.
           rewrite !Nat.min_0_r. reflexivity.
      * rewrite IH2. cbn [List.length]. do 2 f_equal. lia.
    + apply String.eqb_neq in E.
      pose proof (handle_other o ip ip' now m _ E Hget Hnow) as Hg.
      rewrite Hh in Hg. simpl in Hg.
      destruct (IH m1 c Hg Hrest) as [IH1 IH2].
      rewrite Hs in IH1, IH2. simpl in IH1, IH2.
      cbn [andb]. split; [exact IH1 | exact IH2].
Qed.

End rateLimiterFacts.

Lemma set_keys :
  forall ip e m k,
    existsb (fun kv => String.eqb (fst kv) k) (rateLimiter.set ip e m)
    = existsb (fun kv => String.eqb (fst kv) k) m || String.eqb ip k.
Proof.
  intros ip e m k. induction m as [|[k0 v] m IH]; simpl.
  - rewrite orb_false_r. reflexivity.
  - destruct (String.eqb k0 ip) eqn:E; simpl.
    + apply String.eqb_eq in E. subst k0.
      destruct (String.eqb ip k); simpl; [reflexivity|].
      rewrite orb_false_r. reflexivity.
    + rewrite IH. rewrite orb_assoc. reflexivity.
Qed.

Lemma set_distinctKeys :
  forall ip e m, distinctKeys m = true -> distinctKeys (rateLimiter.set ip e m) = true.
Proof.
  intros ip e m. induction m as [|[k v] m IH]; simpl; intros H; [reflexivity|].
  apply andb_true_iff in H as [Hk Hm].
  destruct (String.eqb k ip) eqn:E; simpl.
  - rewrite Hk, Hm. reflexivity.
  - rewrite set_keys, IH by exact Hm. rewrite andb_true_r.
    apply negb_true_iff in Hk. rewrite Hk. simpl.
    rewrite String.eqb_sym, E. reflexivity.
Qed.

Lemma filter_distinctKeys :
  forall (f : string * rateLimiter.Entry -> bool) m,
    distinctKeys m = true -> distinctKeys (filter f m) = true.
Proof.
  intros f m. induction m as [|[k v] m IH]; simpl; intros H; [reflexivity|].
  apply andb_true_iff in H as [Hk Hm].
  destruct (f (k, v)); [|apply IH, Hm].
  simpl. rewrite IH by exact Hm. rewrite andb_true_r.
  apply negb_true_iff. apply negb_true_iff in Hk.
  destruct (existsb _ (filter f m)) eqn:E; [|reflexivity].
  apply existsb_exists in E as (x & Hx & Hxk). apply filter_In in Hx as [Hx _].
  rewrite <- Hk. symmetry. apply existsb_exists. exists x. split; assumption.
Qed.

Lemma cleanUp_distinctKeys :
  forall w now m,
    distinctKeys m = true -> distinctKeys (rateLimiter.cleanUp w now m) = true.
Proof.
  intros w now m H. unfold rateLimiter.cleanUp.
  destruct (10000 <? Z.of_nat (List.length m)); [apply filter_distinctKeys|]; exact H.
Qed.

Lemma handle_distinctKeys :
  forall o ip now m,
    distinctKeys m = true -> distinctKeys (snd (rateLimiter.handle o ip now m)) = true.
Proof.
  intros o ip now m H. unfold rateLimiter.handle. cbv zeta.
  pose proof (cleanUp_distinctKeys (rateLimiter.window o) now m H) as H1.
  destruct (rateLimiter.get ip _) as [e|]; simpl.
  - destruct (_ <? now - rateLimiter.resetTime e); simpl.
    + apply set_distinctKeys, H1.
    + destruct (_ <? rateLimiter.count e + 1); simpl; apply set_distinctKeys, H1.
  - apply set_distinctKeys, H1.
Qed.

(** An entry that the clean-up removes leaves no entry for its client. *)
Lemma get_cleanUp_expired :
  forall ip e w now m,
    distinctKeys m = true ->
    rateLimiter.get ip m = Some e ->
    w < now - rateLimiter.resetTime e ->
    rateLimiter.get ip (rateLimiter.cleanUp w now m) = Some e \/
    rateLimiter.get ip (rateLimiter.cleanUp w now m) = None.
Proof.
  intros ip e w now m Hd Hget Hexp. unfold rateLimiter.cleanUp.
  destruct (10000 <? Z.of_nat (List.length m)); [|left; exact Hget].
  right. unfold rateLimiter.get in *.
  induction m as [|[k v] m IH]; [discriminate|].
  simpl in *. apply andb_true_iff in Hd as [Hk Hm].
  destruct (String.eqb k ip) eqn:E.
  - simpl in Hget. inversion Hget; subst v.
    assert (Hx : (w <? now - rateLimiter.resetTime e) = true) by (apply Z.ltb_lt; lia).
    rewrite Hx. simpl. apply String.eqb_eq in E. subst k.
    destruct (find (fun kv => String.eqb (fst kv) ip) (filter _ m)) as [x|] eqn:F;
      [|reflexivity].
    exfalso. apply find_some in F as [Hin Hx']. apply filter_In in Hin as [Hin _].
    apply negb_true_iff in Hk.
    assert (existsb (fun kv => String.eqb (fst kv) ip) m = true); [|congruence].
    apply existsb_exists. exists x. split; assumption.
  - destruct (negb (w <? now - rateLimiter.resetTime v)); simpl; [rewrite E|];
      apply IH; assumption.
Qed.

(** X17. A client without entry is let through, whatever the quota, and a
    window opens at the time of that request.  Of the requests that follow
    while the window lasts (all requests, of any client, at times within
    [windowMs] of the opening), the client's first [maxRequests - 1] are
    let through and the others get 429: counting the opening request, the
    number let through is 1 plus the smaller of the number of following
    requests and [maxRequests - 1]. *)
Theorem rateLimiter_window :
  forall (o : rateLimiter.Options) (ip : string) (t0 : Z)
         (rest : list (string * Z)) (m : rateLimiter.Counts),
    rateLimiter.get ip m = None ->
    (forall r, In r rest -> snd r - t0 <= rateLimiter.window o) ->
    fst (rateLimiter.handle o ip t0 m) = rateLimiter.NewWindow /\
    rateLimiter.passedOf ip (fst (rateLimiter.serve o ((ip, t0) :: rest) m))
    = S (Nat.min (rateLimiter.requestsOf ip rest)
                 (Z.to_nat (rateLimiter.quota o - 1))).
Proof.
  intros o ip t0 rest m Hnone Hlive.
  assert (Hh : rateLimiter.handle o ip t0 m
               = (rateLimiter.NewWindow,
                  rateLimiter.set ip {| rateLimiter.count := 1; rateLimiter.resetTime := t0 |}
                    (rateLimiter.cleanUp (rateLimiter.window o) t0 m))).
  { unfold rateLimiter.handle. cbv zeta.
    rewrite (rateLimiterFacts.get_cleanUp_none ip _ t0 m Hnone). reflexivity. }
  split; [rewrite Hh; reflexivity|].
  cbn [rateLimiter.serve]. rewrite Hh.
  destruct (rateLimiterFacts.serve_live o ip t0 rest
              (rateLimiter.set ip
                 {| rateLimiter.count := 1; rateLimiter.resetTime := t0 |}
                 (rateLimiter.cleanUp (rateLimiter.window o) t0 m)) 1
              (rateLimiterFacts.get_set_same ip _ _) Hlive) as [Hcount _].
  destruct (rateLimiter.serve o rest _) as [vs m2]. simpl in Hcount.
  unfold rateLimiter.passedOf in *. cbn [fst snd filter].
  rewrite String.eqb_refl. simpl. rewrite Hcount. reflexivity.
Qed.

(** The client 10.0.0.1 in [MoreExamples.traffic], limited to 3 requests
    per minute. *)
Lemma rateLimiter_window_witness :
  rateLimiter.passedOf "10.0.0.1"
    (fst (rateLimiter.serve MoreExamples.threePerMinute MoreExamples.traffic []))
  = 3%nat.
Proof.
  destruct (rateLimiter_window MoreExamples.threePerMinute "10.0.0.1" 1000
              (tl MoreExamples.traffic) [] eq_refl) as [_ H].
  - intros r Hr. simpl in Hr.
    repeat (destruct Hr as [Hr|Hr]; [subst r; vm_compute; discriminate|]).
    destruct Hr.
  - exact H.
Defined.

(** X18. Once more than [windowMs] has passed since the window of a client
    opened, the next request of that client is let through without
    counting against the old window, and a new window opens at its time
    with a count of 1; this holds whether or not the periodic clean-up has
    removed the old entry. *)
Theorem rateLimiter_expiry :
  forall (o : rateLimiter.Options) (ip : string) (now : Z)
         (m : rateLimiter.Counts) (e : rateLimiter.Entry),
    distinctKeys m = true ->
    rateLimiter.get ip m = Some e ->
    rateLimiter.window o < now - rateLimiter.resetTime e ->
    fst (rateLimiter.handle o ip now m) = rateLimiter.NewWindow /\
    rateLimiter.get ip (snd (rateLimiter.handle o ip now m))
    = Some {| rateLimiter.count := 1; rateLimiter.resetTime := now |} /\
    distinctKeys (snd (rateLimiter.handle o ip now m)) = true.
Proof.
  intros o ip now m e Hd Hget Hexp.
  split; [|split; [|apply handle_distinctKeys, Hd]].
  - unfold rateLimiter.handle. cbv zeta.
    destruct (get_cleanUp_expired ip e _ now m Hd Hget Hexp) as [H|H]; rewrite H.
    + apply Z.ltb_lt in Hexp. rewrite Hexp. reflexivity.
    + reflexivity.
  - unfold rateLimiter.handle. cbv zeta.
    destruct (get_cleanUp_expired ip e _ now m Hd Hget Hexp) as [H|H]; rewrite H.
    + apply Z.ltb_lt in Hexp. rewrite Hexp. simpl.
      apply rateLimiterFacts.get_set_same.
    + simpl. apply rateLimiterFacts.get_set_same.
Qed.

(** The client 10.0.0.1 comes back 70 seconds after its window opened. *)
Lemma rateLimiter_expiry_witness :
  fst (rateLimiter.handle MoreExamples.threePerMinute "10.0.0.1" 71000
         (snd (rateLimiter.serve MoreExamples.threePerMinute MoreExamples.traffic [])))
  = rateLimiter.NewWindow.
Proof.
  destruct (rateLimiter_expiry MoreExamples.threePerMinute "10.0.0.1" 71000
              (snd (rateLimiter.serve MoreExamples.threePerMinute
                      MoreExamples.traffic []))
              {| rateLimiter.count := 5; rateLimiter.resetTime := 1000 |}
              eq_refl eq_refl) as [H _].
  - vm_compute. reflexivity.
  - exact H.
Defined.


(** ** Changing the quantity of a cart line *)

(** X19. [updateCartItem] with a quantity of 1 or more changes a line of
    the caller only.  When no line with the id belongs to the caller, the
    answer is 404 and the store is unchanged.  When the caller has the line
    and the cart ids are distinct, the answer is 200 with the line at its
    new quantity, the line read back by its id has that quantity, and every
    other line of the collection is as it was.  The quantity is a number
    [q] with [1 <= q], or a string that is not below 1 and that the path
    reads as the number [x]. *)
Theorem updateCartItem_own_line :
  forall (js : Coercions) (user : option Claims) (userId : UserId) (id : ObjectId)
         (s : Store),
    authenticated user = Some userId ->
    (forall q, (1 <=? q)%float = true ->
       (toNumber js (Num q) <? 1)%float = false /\ castNumber js (Num q) = CastTo q) /\
    (forall v x,
       (toNumber js v <? 1)%float = false ->
       castNumber js v = CastTo x ->
       ((forall c, In c (carts s) -> cartSchema._id c = id ->
                   cartSchema.userId c <> userId) ->
        cartController.updateCartItem js user (WellFormed id) (Some v) s
        = (Fail 404 (Msg "Cart item not found"), s)) /\
       (forall c,
          In c (carts s) -> cartSchema._id c = id -> cartSchema.userId c = userId ->
          cartIdsDistinct s = true ->
          let r := cartController.updateCartItem js user (WellFormed id) (Some v) s in
          fst r = Json 200 (Some (Cart.populate s (cartSchema.set_quantity x c))) /\
          Cart.findById id (snd r) = Some (cartSchema.set_quantity x c) /\
          List.length (carts (snd r)) = List.length (carts s) /\
          (forall y, In y (carts s) -> y <> c -> In y (carts (snd r))))).
Proof.
  intros js user userId id s Hauth.
  split.
  { intros q Hq. destruct (one_leb_accepted js q Hq) as (_ & H1 & H2).
    split; assumption. }
  intros v x E1 Hcast.
  split.
  - intros Hnot. unfold cartController.updateCartItem.
    rewrite Hauth, (castTo_not_null js v x Hcast), E1.
    destruct (Cart.findOneById id userId s) as [c|] eqn:Hone; [|reflexivity].
    exfalso. unfold Cart.findOneById in Hone. apply find_some in Hone as [Hin Hk].
    apply andb_true_iff in Hk as [Hid Hu].
    apply Nat.eqb_eq in Hid. apply Nat.eqb_eq in Hu.
    exact (Hnot c Hin Hid Hu).
  - intros c Hin Hid Hu Hd r. subst r.
    assert (Hone : Cart.findOneById id userId s = Some c).
    { unfold Cart.findOneById.
      destruct (find _ (carts s)) as [c'|] eqn:Hfind.
      - apply find_some in Hfind as [Hin' Hk].
        apply andb_true_iff in Hk as [Hid' _]. apply Nat.eqb_eq in Hid'.
        f_equal. eapply distinct_key_inj; try eassumption. congruence.
      - exfalso. apply (find_none _ _ Hfind) in Hin.
        rewrite Hid, Hu, !Nat.eqb_refl in Hin. discriminate. }
    assert (Hbyid : find (fun y => Nat.eqb (cartSchema._id y) id) (carts s) = Some c).
    { rewrite <- Hid. apply (find_by_distinct_id _ cartSchema._id); assumption. }
    assert (Hafter : Cart.findById id (Cart.save (cartSchema.set_quantity x c) s)
                     = Some (cartSchema.set_quantity x c)).
    { unfold Cart.findById, Cart.save. simpl.
      apply (find_map_update_first _ _ _ (cartSchema.set_quantity x));
        [exact Hbyid | reflexivity | apply Nat.eqb_refl]. }
    unfold cartController.updateCartItem.
    rewrite Hauth, (castTo_not_null js v x Hcast), E1, Hone.
    unfold Cart.assign. rewrite Hcast. simpl.
    split; [|split; [|split]].
    + unfold cartController.findPopulated. simpl. rewrite Hid, Hafter. reflexivity.
    + exact Hafter.
    + apply length_map.
    + intros y Hy Hne. apply in_map_iff. exists y. split; [|exact Hy].
      destruct (Nat.eqb (cartSchema._id y) (cartSchema._id c)) eqn:E; [|reflexivity].
      exfalso. apply Hne. apply Nat.eqb_eq in E.
      eapply distinct_key_inj; eassumption.
Qed.

(** User 2 tries to change the line of user 1, then user 1 sets it to 7. *)
Lemma updateCartItem_own_line_witness :
  cartController.updateCartItem Examples.conversions Examples.bob (WellFormed 30)
    (Some (Num 7)) MoreExamples.history
  = (Fail 404 (Msg "Cart item not found"), MoreExamples.history) /\
  Cart.findById 30
    (snd (cartController.updateCartItem Examples.conversions Examples.alice
            (WellFormed 30) (Some (Num 7)) MoreExamples.history))
  = Some (Examples.line 30 1 10 7).
Proof.
  split.
  - destruct (updateCartItem_own_line Examples.conversions Examples.bob 2%nat 30%nat
                MoreExamples.history eq_refl) as [_ H].
    apply (proj1 (H (Num 7) 7%float eq_refl eq_refl)).
    intros c Hin Hid. simpl in Hin.
    destruct Hin as [E|[E|[E|[]]]]; subst c; simpl in *; congruence.
  - destruct (updateCartItem_own_line Examples.conversions Examples.alice 1%nat 30%nat
                MoreExamples.history eq_refl) as [_ H].
    exact (proj1 (proj2 (proj2 (H (Num 7) 7%float eq_refl eq_refl)
                           (Examples.line 30 1 10 2) (or_introl eq_refl)
                           eq_refl eq_refl eq_refl))).
Defined.

(** ** The cart after an order *)

Lemma forEachCartItem_cart_cleared_iff :
  forall userId cartItems createdOrders s,
    let r := forEachCartItem userId cartItems createdOrders s in
    ((exists data, fst r = Json 201 data) /\
     carts (snd r) = carts (snd (Cart.deleteMany userId s))) \/
    ((forall data, fst r <> Json 201 data) /\ carts (snd r) = carts s).
Proof.
  intros userId cartItems.
  induction cartItems as [|[cartItem [product|]] rest IH]; intros createdOrders s r;
    subst r.
  - left. split; [exists createdOrders|]; reflexivity.
  - cbn [forEachCartItem]. cbv zeta.
    destruct (Inventory.findOne (productSchema._id product) s) as [inventory|];
      [|right; split; [discriminate | reflexivity]].
    destruct (inventorySchema.quantity inventory <? cartSchema.quantity cartItem)%float;
      [right; split; [discriminate | reflexivity]|].
    destruct (Order.createOrder _ _ _ _ _ s) as [e|[order s1]] eqn:Hcreate;
      [right; split; [discriminate | reflexivity]|].
    apply Order_create_inr in Hcreate as [_ Hs1].
    destruct (Inventory.save _ s1) as [e|s2] eqn:Hsave.
    + right. split; [discriminate | rewrite Hs1; reflexivity].
    + apply Inventory_save_inr in Hsave as [_ Hs2].
      assert (Hc : carts s2 = carts s) by (rewrite Hs2, Hs1; reflexivity).
      destruct (IH (createdOrders ++ [findPopulated (orderSchema._id order) s2])%list s2)
        as [[Hj H]|[Hj H]].
      * left. split; [exact Hj|]. rewrite H. unfold Cart.deleteMany. simpl.
        rewrite Hc. reflexivity.
      * right. split; [exact Hj|]. rewrite H. exact Hc.
  - exact (IH createdOrders s).
Qed.

(** X20. [createOrder] clears the cart exactly when it answers 201: after a
    201 answer the cart collection is the one before without the lines of
    the caller; after any other answer (401, the empty-cart or
    insufficient-inventory failure, an error passed to [next]) the cart
    collection is the one before. *)
Theorem createOrder_clears_cart_iff_created :
  forall (user : option Claims) (s : Store),
    let r := createOrder user s in
    (exists userId data,
       authenticated user = Some userId /\
       fst r = Json 201 data /\
       carts (snd r) = filter (fun c => negb (Cart.ofUser userId c)) (carts s) /\
       Cart.find userId (snd r) = []) \/
    ((forall data, fst r <> Json 201 data) /\ carts (snd r) = carts s).
Proof.
  intros user s r. subst r. unfold createOrder.
  destruct (authenticated user) as [userId|];
    [|right; split; [discriminate | reflexivity]].
  cbv zeta.
  destruct (map (Cart.populate s) (Cart.find userId s)) as [|i items];
    [right; split; [discriminate | reflexivity]|].
  destruct (forEachCartItem_cart_cleared_iff userId (i :: items) [] s)
    as [[[data Hj] H]|[Hj H]].
  - left. exists userId, data. split; [reflexivity|]. split; [exact Hj|].
    split; [exact H|]. unfold Cart.find. rewrite H. simpl.
    apply (filter_after_negb _ (Cart.ofUser userId)).
  - right. split; assumption.
Qed.
